(** * Production-Counter firmware v2.02: event queue, state machine,
      production session, hour boundary and power-loss recovery.

    The development follows the layers of the firmware sources:
    - [Fsm]         : src/core/state_manager.{h,cpp} (class StateManager)
    - [Managers]    : src/managers/managers.{h,cpp} (ProductionManager,
                      TimeManager, ConfigManager, StorageManager)
    - [CodeV3]      : code_v3.cpp (the monolithic sketch with the SD-card
                      recovery file and the hourly roll-over)
    - [Integration] : src/fsm_main_integration.cpp (event processing of
                      the main loop on top of [Fsm] and [Managers])
    The definitions come first; the properties follow in [FsmProofs],
    [ManagersProofs] and [CodeV3Proofs].  [FsmCalls], [ManagersMore],
    [CodeV3More] and [IntegrationMore] add further members of the same
    sources (call sequences, the configuration setters, the 12-hour
    clock, the TIME command, the EEPROM settings, the event loop); their
    properties are in [FsmExtra], [ManagersExtra], [CodeV3Extra] and
    [IntegrationExtra].

    Conventions.  C++ [int] is a 32-bit two's complement integer, kept as a
    [Z] with the wrap-around written out ([wrap32]); [unsigned long] and
    [uint32_t] are [Z] modulo 2^32; [uint8_t] is [Z] modulo 2^8.  The
    clock reads [millis()] and [rtc.now()] and the pin read
    [digitalRead(LATCHING_PIN)] are inputs of the functions that perform
    them; one call of a function sees one value of [millis()].  [Serial]
    output and the OLED display are write-only for the firmware and are
    left out of the state. *)

From Stdlib Require Import ZArith Bool Lia.
From stdpp Require Import base list strings gmap.

Local Open Scope Z_scope.

(** ** Machine integers *)

Definition wrap32 (z : Z) : Z := (z + 2^31) mod 2^32 - 2^31.
Definition to_uint32 (z : Z) : Z := z mod 2^32.
Definition to_uint16 (z : Z) : Z := z mod 2^16.
Definition to_uint8 (z : Z) : Z := z mod 2^8.

Definition INT_MAX : Z := 2^31 - 1.
Definition INT_MIN : Z := - 2^31.

(** Iterating a state transformer [n] times. *)
Fixpoint repeat_call {A} (f : A -> A) (n : nat) (a : A) : A :=
  match n with
  | O => a
  | S k => repeat_call f k (f a)
  end.

(* ================================================================== *)
(** ** src/core/state_manager.{h,cpp} *)
(* ================================================================== *)

Module Fsm.

Inductive SystemState :=
| INITIALIZATION | READY | PRODUCTION | DIAGNOSTIC | ERROR.

Inductive ProductionState := IDLE | ACTIVE | SUSPENDED.

Inductive TimeState := UNSYNCHRONIZED | SYNCHRONIZED | HOUR_TRANSITION.

Inductive SystemEvent :=
| EVT_STARTUP_BEGIN | EVT_STARTUP_COMPLETE | EVT_STARTUP_FAILED
| EVT_PRODUCTION_START | EVT_PRODUCTION_STOP | EVT_COUNTER_PRESSED
| EVT_COUNT_UPDATED | EVT_COUNT_SAVED
| EVT_TIME_UPDATED | EVT_HOUR_CHANGED | EVT_HOUR_LOGGED
| EVT_RTC_AVAILABLE | EVT_RTC_UNAVAILABLE
| EVT_SD_AVAILABLE | EVT_SD_UNAVAILABLE
| EVT_OLED_AVAILABLE | EVT_OLED_UNAVAILABLE
| EVT_DIAGNOSTIC_REQUEST | EVT_DIAGNOSTIC_COMPLETE
| EVT_SERIAL_COMMAND | EVT_SERIAL_TIME_SET
| EVT_ENTER_STATE | EVT_EXIT_STATE | EVT_STATE_TIMEOUT
| EVT_ERROR_DETECTED | EVT_ERROR_RECOVERED | EVT_ERROR_FATAL.

#[global] Instance SystemState_eq_dec : EqDecision SystemState.
Proof. solve_decision. Defined.

#[global] Instance SystemEvent_eq_dec : EqDecision SystemEvent.
Proof. solve_decision. Defined.

Definition state_eqb (a b : SystemState) : bool := bool_decide (a = b).

(** [static const uint8_t EVENT_QUEUE_SIZE = 16;] *)
Definition EVENT_QUEUE_SIZE : Z := 16.

(** The private members of [class StateManager]. *)
Record StateManager := mkStateManager {
  currentState : SystemState;
  previousState : SystemState;
  productionSubState : ProductionState;
  timeSubState : TimeState;
  eventQueue : list SystemEvent;       (* SystemEvent eventQueue[16] *)
  eventQueueHead : Z;                  (* uint8_t *)
  eventQueueTail : Z;                  (* uint8_t *)
  stateChangeTime : Z;                 (* unsigned long *)
  lastEventTime : Z;                   (* unsigned long *)
  eventCounter : Z;                    (* uint32_t *)
  transitionCounter : Z                (* uint32_t *)
}.

Definition set_currentState (s : StateManager) (v : SystemState) :=
  mkStateManager v (previousState s) (productionSubState s) (timeSubState s)
    (eventQueue s) (eventQueueHead s) (eventQueueTail s) (stateChangeTime s)
    (lastEventTime s) (eventCounter s) (transitionCounter s).

Definition set_previousState (s : StateManager) (v : SystemState) :=
  mkStateManager (currentState s) v (productionSubState s) (timeSubState s)
    (eventQueue s) (eventQueueHead s) (eventQueueTail s) (stateChangeTime s)
    (lastEventTime s) (eventCounter s) (transitionCounter s).

Definition set_productionSubState (s : StateManager) (v : ProductionState) :=
  mkStateManager (currentState s) (previousState s) v (timeSubState s)
    (eventQueue s) (eventQueueHead s) (eventQueueTail s) (stateChangeTime s)
    (lastEventTime s) (eventCounter s) (transitionCounter s).

Definition set_timeSubState (s : StateManager) (v : TimeState) :=
  mkStateManager (currentState s) (previousState s) (productionSubState s) v
    (eventQueue s) (eventQueueHead s) (eventQueueTail s) (stateChangeTime s)
    (lastEventTime s) (eventCounter s) (transitionCounter s).

Definition set_eventQueue (s : StateManager) (v : list SystemEvent) :=
  mkStateManager (currentState s) (previousState s) (productionSubState s)
    (timeSubState s) v (eventQueueHead s) (eventQueueTail s)
    (stateChangeTime s) (lastEventTime s) (eventCounter s)
    (transitionCounter s).

Definition set_eventQueueHead (s : StateManager) (v : Z) :=
  mkStateManager (currentState s) (previousState s) (productionSubState s)
    (timeSubState s) (eventQueue s) v (eventQueueTail s)
    (stateChangeTime s) (lastEventTime s) (eventCounter s)
    (transitionCounter s).

Definition set_eventQueueTail (s : StateManager) (v : Z) :=
  mkStateManager (currentState s) (previousState s) (productionSubState s)
    (timeSubState s) (eventQueue s) (eventQueueHead s) v
    (stateChangeTime s) (lastEventTime s) (eventCounter s)
    (transitionCounter s).

Definition set_stateChangeTime (s : StateManager) (v : Z) :=
  mkStateManager (currentState s) (previousState s) (productionSubState s)
    (timeSubState s) (eventQueue s) (eventQueueHead s) (eventQueueTail s)
    v (lastEventTime s) (eventCounter s) (transitionCounter s).

Definition set_lastEventTime (s : StateManager) (v : Z) :=
  mkStateManager (currentState s) (previousState s) (productionSubState s)
    (timeSubState s) (eventQueue s) (eventQueueHead s) (eventQueueTail s)
    (stateChangeTime s) v (eventCounter s) (transitionCounter s).

Definition set_eventCounter (s : StateManager) (v : Z) :=
  mkStateManager (currentState s) (previousState s) (productionSubState s)
    (timeSubState s) (eventQueue s) (eventQueueHead s) (eventQueueTail s)
    (stateChangeTime s) (lastEventTime s) v (transitionCounter s).

Definition set_transitionCounter (s : StateManager) (v : Z) :=
  mkStateManager (currentState s) (previousState s) (productionSubState s)
    (timeSubState s) (eventQueue s) (eventQueueHead s) (eventQueueTail s)
    (stateChangeTime s) (lastEventTime s) (eventCounter s) v.

(** The object after its constructor has run: the in-class member
    initialisers, and [memset(eventQueue, 0, ...)], which fills the array
    with the enumerator of value 0. *)
Definition constructed : StateManager :=
  mkStateManager INITIALIZATION INITIALIZATION IDLE UNSYNCHRONIZED
    (replicate (Z.to_nat EVENT_QUEUE_SIZE) EVT_STARTUP_BEGIN) 0 0 0 0 0 0.

(** [bool StateManager::initialize()]; [now] is the value of [millis()]. *)
Definition initialize (s : StateManager) (now : Z) : bool * StateManager :=
  let s := set_currentState s INITIALIZATION in
  let s := set_previousState s INITIALIZATION in
  let s := set_productionSubState s IDLE in
  let s := set_timeSubState s UNSYNCHRONIZED in
  let s := set_stateChangeTime s (to_uint32 now) in
  (true, s).

(** [void StateManager::queueEvent(SystemEvent event)] *)
Definition queueEvent (s : StateManager) (event : SystemEvent) : StateManager :=
  let nextTail := to_uint8 ((eventQueueTail s + 1) mod EVENT_QUEUE_SIZE) in
  if nextTail =? eventQueueHead s then
    s                                   (* "Event queue full, dropping event" *)
  else
    let s := set_eventQueue s
               (<[Z.to_nat (eventQueueTail s) := event]> (eventQueue s)) in
    set_eventQueueTail s nextTail.

(** [bool StateManager::hasQueuedEvents() const] *)
Definition hasQueuedEvents (s : StateManager) : bool :=
  negb (eventQueueHead s =? eventQueueTail s).

(** *** Guard conditions *)

Module GuardConditions.

Definition isOLEDAvailable : bool := true.

Definition canStartProduction : bool := isOLEDAvailable.

Definition canStopProduction : bool := true.

Definition isCountValidRange (count : Z) : bool :=
  (0 <=? count) && (count <=? 9999).

Definition isNewHour (currentHour lastHour : Z) : bool :=
  negb (currentHour =? lastHour) && (0 <=? currentHour) && (currentHour <? 24).

End GuardConditions.

Definition canEnterReady (s : StateManager) : bool :=
  GuardConditions.isOLEDAvailable.

Definition canStartProduction (s : StateManager) : bool :=
  state_eqb (currentState s) READY && GuardConditions.canStartProduction.

Definition canStopProduction (s : StateManager) : bool :=
  state_eqb (currentState s) PRODUCTION.

Definition canEnterDiagnostic (s : StateManager) : bool :=
  state_eqb (currentState s) READY.

(** [bool StateManager::canTransitionTo(SystemState newState) const] *)
Definition canTransitionTo (s : StateManager) (newState : SystemState) : bool :=
  match newState with
  | READY => canEnterReady s
  | PRODUCTION => canStartProduction s
  | DIAGNOSTIC => canEnterDiagnostic s
  | ERROR => true
  | INITIALIZATION => state_eqb (currentState s) INITIALIZATION
  end.

(** *** Entry and exit actions (their [Serial] lines aside) *)

Definition enterInitialization (s : StateManager) := s.
Definition exitInitialization (s : StateManager) := s.
Definition enterReady (s : StateManager) := set_productionSubState s IDLE.
Definition exitReady (s : StateManager) := s.
Definition enterProduction (s : StateManager) := set_productionSubState s ACTIVE.
Definition exitProduction (s : StateManager) := set_productionSubState s IDLE.
Definition enterDiagnostic (s : StateManager) := s.
Definition exitDiagnostic (s : StateManager) := s.
Definition enterError (s : StateManager) := s.
Definition exitError (s : StateManager) := s.

(** [bool StateManager::transitionTo(SystemState newState)];
    [now] is the value of [millis()]. *)
Definition transitionTo (s : StateManager) (newState : SystemState) (now : Z)
  : bool * StateManager :=
  if negb (canTransitionTo s newState) then (false, s)
  else
    let s := match currentState s with
             | INITIALIZATION => exitInitialization s
             | READY => exitReady s
             | PRODUCTION => exitProduction s
             | DIAGNOSTIC => exitDiagnostic s
             | ERROR => exitError s
             end in
    let s := set_previousState s (currentState s) in
    let s := set_currentState s newState in
    let s := set_stateChangeTime s (to_uint32 now) in
    let s := set_transitionCounter s (to_uint32 (transitionCounter s + 1)) in
    let s := match currentState s with
             | INITIALIZATION => enterInitialization s
             | READY => enterReady s
             | PRODUCTION => enterProduction s
             | DIAGNOSTIC => enterDiagnostic s
             | ERROR => enterError s
             end in
    (true, s).

(** *** Per-state event handlers.  They discard [transitionTo]'s result. *)

Definition handleEventInInitialization (s : StateManager) (event : SystemEvent)
    (now : Z) : StateManager :=
  match event with
  | EVT_RTC_AVAILABLE => set_timeSubState s SYNCHRONIZED
  | EVT_SD_AVAILABLE => s
  | EVT_STARTUP_COMPLETE => snd (transitionTo s READY now)
  | EVT_STARTUP_FAILED => snd (transitionTo s ERROR now)
  | _ => s
  end.

Definition handleEventInReady (s : StateManager) (event : SystemEvent)
    (now : Z) : StateManager :=
  match event with
  | EVT_PRODUCTION_START => snd (transitionTo s PRODUCTION now)
  | EVT_DIAGNOSTIC_REQUEST => snd (transitionTo s DIAGNOSTIC now)
  | EVT_HOUR_CHANGED => s
  | EVT_ERROR_DETECTED => snd (transitionTo s ERROR now)
  | _ => s
  end.

Definition handleEventInProduction (s : StateManager) (event : SystemEvent)
    (now : Z) : StateManager :=
  match event with
  | EVT_COUNTER_PRESSED => set_productionSubState s ACTIVE
  | EVT_PRODUCTION_STOP => snd (transitionTo s READY now)
  | EVT_HOUR_CHANGED => s
  | EVT_ERROR_DETECTED => snd (transitionTo s ERROR now)
  | _ => s
  end.

Definition handleEventInDiagnostic (s : StateManager) (event : SystemEvent)
    (now : Z) : StateManager :=
  match event with
  | EVT_DIAGNOSTIC_COMPLETE => snd (transitionTo s READY now)
  | EVT_ERROR_DETECTED => snd (transitionTo s ERROR now)
  | _ => s
  end.

Definition handleEventInError (s : StateManager) (event : SystemEvent)
    (now : Z) : StateManager :=
  match event with
  | EVT_ERROR_RECOVERED => snd (transitionTo s READY now)
  | EVT_ERROR_FATAL => s
  | _ => s
  end.

(** [void StateManager::processEvent(SystemEvent event)] *)
Definition processEvent (s : StateManager) (event : SystemEvent) (now : Z)
  : StateManager :=
  let s := set_eventCounter s (to_uint32 (eventCounter s + 1)) in
  let s := set_lastEventTime s (to_uint32 now) in
  match currentState s with
  | INITIALIZATION => handleEventInInitialization s event now
  | READY => handleEventInReady s event now
  | PRODUCTION => handleEventInProduction s event now
  | DIAGNOSTIC => handleEventInDiagnostic s event now
  | ERROR => handleEventInError s event now
  end.

(** [unsigned long StateManager::getTimeInCurrentState() const] *)
Definition getTimeInCurrentState (s : StateManager) (now : Z) : Z :=
  to_uint32 (to_uint32 now - stateChangeTime s).

(** The head of the [while (hasQueuedEvents())] loop of [update()]: read
    the slot at the head and advance the head.  [None] when the loop
    condition is false.  [drain] then dispatches the event. *)
Definition dequeue (s : StateManager) : option (SystemEvent * StateManager) :=
  if hasQueuedEvents s then
    let event := default EVT_STARTUP_BEGIN
                   (eventQueue s !! Z.to_nat (eventQueueHead s)) in
    let s := set_eventQueueHead s
               (to_uint8 ((eventQueueHead s + 1) mod EVENT_QUEUE_SIZE)) in
    Some (event, s)
  else None.

(** The [while] loop, bounded by [fuel] turns. *)
Fixpoint drain (fuel : nat) (s : StateManager) (now : Z) : option StateManager :=
  match dequeue s with
  | None => Some s
  | Some (event, s) =>
      match fuel with
      | O => None
      | S fuel => drain fuel (processEvent s event now) now
      end
  end.

(** The [switch] that follows the loop in [update()]. *)
Definition checkTimeouts (s : StateManager) (now : Z) : StateManager :=
  match currentState s with
  | INITIALIZATION =>
      if 30000 <? getTimeInCurrentState s now
      then snd (transitionTo s ERROR now) else s
  | READY => s
  | PRODUCTION => s
  | DIAGNOSTIC =>
      if 60000 <? getTimeInCurrentState s now
      then snd (transitionTo s READY now) else s
  | ERROR =>
      if 5000 <? getTimeInCurrentState s now
      then snd (transitionTo s READY now) else s
  end.

(** [void StateManager::update()].  Sixteen turns are enough for every
    queue whose indices are in range (lemma [update_total]). *)
Definition update (s : StateManager) (now : Z) : option StateManager :=
  match drain (Z.to_nat EVENT_QUEUE_SIZE) s now with
  | Some s => Some (checkTimeouts s now)
  | None => None
  end.

(** *** Views of the circular buffer used in the statements *)

(** Number of events between head and tail. *)
Definition occupied (s : StateManager) : Z :=
  (eventQueueTail s - eventQueueHead s) mod EVENT_QUEUE_SIZE.

(** The slot that is [i] places after the head. *)
Definition slot (s : StateManager) (i : nat) : SystemEvent :=
  default EVT_STARTUP_BEGIN
    (eventQueue s !! Z.to_nat ((eventQueueHead s + Z.of_nat i) mod EVENT_QUEUE_SIZE)).

(** The queued events, oldest first. *)
Definition pending (s : StateManager) : list SystemEvent :=
  map (slot s) (seq 0 (Z.to_nat (occupied s))).

(** The test [nextTail == eventQueueHead] of [queueEvent]. *)
Definition isFull (s : StateManager) : bool :=
  to_uint8 ((eventQueueTail s + 1) mod EVENT_QUEUE_SIZE) =? eventQueueHead s.

(** Indices in range and an array of sixteen slots. *)
Definition wf (s : StateManager) : Prop :=
  0 <= eventQueueHead s < EVENT_QUEUE_SIZE /\
  0 <= eventQueueTail s < EVENT_QUEUE_SIZE /\
  length (eventQueue s) = Z.to_nat EVENT_QUEUE_SIZE.

(** The operations a client can perform on the queue: the producer call
    [queueEvent], one turn of the consumer loop of [update()], and a whole
    [update()]. *)
Inductive QueueOp :=
| OpQueueEvent (event : SystemEvent)
| OpDequeue (now : Z)
| OpUpdate (now : Z).

Definition run_op (s : StateManager) (op : QueueOp) : option StateManager :=
  match op with
  | OpQueueEvent event => Some (queueEvent s event)
  | OpDequeue now =>
      match dequeue s with
      | Some (event, s') => Some (processEvent s' event now)
      | None => Some s
      end
  | OpUpdate now => update s now
  end.

Fixpoint run_ops (s : StateManager) (ops : list QueueOp) : option StateManager :=
  match ops with
  | [] => Some s
  | op :: ops =>
      match run_op s op with
      | Some s' => run_ops s' ops
      | None => None
      end
  end.

(** *** Reference: a bounded first-in first-out queue that drops the
    incoming event when it is full; [cap] is the number of events it can
    hold. *)
Definition fifo_step (cap : nat) (q : list SystemEvent) (op : QueueOp)
  : list SystemEvent :=
  match op with
  | OpQueueEvent event => if (length q <? cap)%nat then q ++ [event] else q
  | OpDequeue _ => tail q
  | OpUpdate _ => []
  end.

Definition fifo_run (cap : nat) (q : list SystemEvent) (ops : list QueueOp)
  : list SystemEvent :=
  fold_left (fifo_step cap) ops q.

(** Two objects with the same buffer and indices. *)
Definition same_queue (s s' : StateManager) : Prop :=
  eventQueue s' = eventQueue s /\
  eventQueueHead s' = eventQueueHead s /\
  eventQueueTail s' = eventQueueTail s.

(** Filling the queue of a fresh object with [n] copies of an event. *)
Definition fill (event : SystemEvent) (n : nat) : StateManager :=
  repeat_call (fun s => queueEvent s event) n constructed.

(** The state machine once start-up has completed. *)
Definition ready0 : StateManager := snd (transitionTo constructed READY 0).

(** The state machine with a session running. *)
Definition producing0 : StateManager := snd (transitionTo ready0 PRODUCTION 10).

End Fsm.

(* ================================================================== *)
(** ** RTClib's [DateTime], as far as the firmware uses it *)
(* ================================================================== *)

(** [DateTime] keeps six [uint8_t] members; the year is stored as an
    offset from 2000. *)
Record DateTime := mkDT {
  yOff : Z; dt_m : Z; dt_d : Z; dt_hh : Z; dt_mm : Z; dt_ss : Z
}.

#[global] Instance DateTime_eq_dec : EqDecision DateTime.
Proof. solve_decision. Defined.

(** [DateTime(uint16_t year, uint8_t month, uint8_t day, uint8_t hour,
    uint8_t min, uint8_t sec)], called with [int] arguments: each argument
    is first converted to the parameter type. *)
Definition DateTime_of (year month day hour min sec : Z) : DateTime :=
  let year := to_uint16 year in
  let year := if 2000 <=? year then to_uint16 (year - 2000) else year in
  mkDT (to_uint8 year) (to_uint8 month) (to_uint8 day)
       (to_uint8 hour) (to_uint8 min) (to_uint8 sec).

Definition dt_year (t : DateTime) : Z := to_uint16 (2000 + yOff t).
Definition dt_month (t : DateTime) : Z := dt_m t.
Definition dt_day (t : DateTime) : Z := dt_d t.
Definition dt_hour (t : DateTime) : Z := dt_hh t.
Definition dt_minute (t : DateTime) : Z := dt_mm t.
Definition dt_second (t : DateTime) : Z := dt_ss t.

(** The default-constructed [DateTime]: 2000-01-01 00:00:00. *)
Definition DateTime_default : DateTime := mkDT 0 1 1 0 0 0.


(* ================================================================== *)
(** ** src/managers/managers.{h,cpp} *)
(* ================================================================== *)

Module Managers.

(** *** ProductionManager *)

Record ProductionManager := mkPM {
  sessionActive : bool;
  sessionCount : Z;                    (* volatile int *)
  totalSessionCount : Z;               (* int *)
  sessionStartTime : DateTime;
  sessionStopTime : DateTime;
  startingCountValue : Z               (* int *)
}.

(** [ProductionManager::ProductionManager()] *)
Definition ProductionManager_new : ProductionManager :=
  mkPM false 0 0 DateTime_default DateTime_default 0.

(** [bool ProductionManager::startSession()]; [now] is [RTC_DS3231::now()]. *)
Definition startSession (pm : ProductionManager) (now : DateTime)
  : bool * ProductionManager :=
  if sessionActive pm then (false, pm)
  else
    (true, mkPM true 0 (totalSessionCount pm) now (sessionStopTime pm) 0).

(** [bool ProductionManager::stopSession()]; [now] is [RTC_DS3231::now()]. *)
Definition stopSession (pm : ProductionManager) (now : DateTime)
  : bool * ProductionManager :=
  if negb (sessionActive pm) then (false, pm)
  else
    (true, mkPM false (sessionCount pm)
                (wrap32 (totalSessionCount pm + sessionCount pm))
                (sessionStartTime pm) now (startingCountValue pm)).

(** [void ProductionManager::incrementCount()] *)
Definition incrementCount (pm : ProductionManager) : ProductionManager :=
  if negb (sessionActive pm) then pm
  else
    if sessionCount pm <? 9999 then
      mkPM (sessionActive pm) (wrap32 (sessionCount pm + 1))
           (totalSessionCount pm) (sessionStartTime pm) (sessionStopTime pm)
           (startingCountValue pm)
    else pm.

Definition getSessionCount (pm : ProductionManager) : Z := sessionCount pm.
Definition getTotalSessionCount (pm : ProductionManager) : Z := totalSessionCount pm.
Definition isSessionActive (pm : ProductionManager) : bool := sessionActive pm.
Definition getStopTime (pm : ProductionManager) : DateTime := sessionStopTime pm.

(** The stubs of the recovery interface: they only log. *)
Definition loadSessionFromFile (pm : ProductionManager) : bool * ProductionManager :=
  (true, pm).
Definition isRecoveryValid (pm : ProductionManager) : bool := true.
Definition recover (pm : ProductionManager) : bool * ProductionManager :=
  loadSessionFromFile pm.

(** *** TimeManager *)

Record TimeManager := mkTM {
  lastTrackedHour : Z;                 (* int *)
  lastRecordedTime : DateTime;
  timeInitialized : bool
}.

(** [TimeManager::TimeManager()] *)
Definition TimeManager_new : TimeManager := mkTM (-1) DateTime_default false.

(** [TimeManager::getCurrentTime()] is the clock read of this class (in
    this source it returns the build date and time); in the functions
    below its result is the argument [now]. *)

(** [bool TimeManager::initialize()] *)
Definition TimeManager_initialize (tm : TimeManager) (now : DateTime)
  : bool * TimeManager :=
  (true, mkTM (dt_hour now) now true).

(** [bool TimeManager::hasHourChanged() const] *)
Definition hasHourChanged (tm : TimeManager) (now : DateTime) : bool :=
  negb (dt_hour now =? lastTrackedHour tm).

(** [void TimeManager::handleHourChange()] *)
Definition handleHourChange (tm : TimeManager) (now : DateTime) : TimeManager :=
  let newHour := dt_hour now in
  if negb (newHour =? lastTrackedHour tm) then
    mkTM newHour now (timeInitialized tm)
  else tm.

(** [bool TimeManager::isTimeValid() const] *)
Definition isTimeValid (now : DateTime) : bool :=
  (2020 <=? dt_year now) &&
  (1 <=? dt_month now) && (dt_month now <=? 12) &&
  (1 <=? dt_day now) && (dt_day now <=? 31) &&
  (0 <=? dt_hour now) && (dt_hour now <? 24) &&
  (0 <=? dt_minute now) && (dt_minute now <? 60) &&
  (0 <=? dt_second now) && (dt_second now <? 60).

(** The hour check of [executeReadyState()] and [executeProductionState()]
    (src/core/state_handlers.cpp), restricted to the [TimeManager]:
    [if (hasHourChanged()) handleHourBoundary();], where
    [handleHourBoundary()] calls [handleHourChange()].  The result says
    whether the boundary fired. *)
Definition checkHourBoundary (tm : TimeManager) (now : DateTime)
  : bool * TimeManager :=
  if hasHourChanged tm now then (true, handleHourChange tm now)
  else (false, tm).

(** Two consecutive calls of the [const] method [hasHourChanged()], the
    clock reading [now] at the first and [now'] at the second; the object
    cannot change in between. *)
Definition hasHourChanged_twice (tm : TimeManager) (now now' : DateTime)
  : bool * bool :=
  let first := hasHourChanged tm now in
  let second := hasHourChanged tm now' in
  (first, second).

(** *** ConfigManager *)

Record Settings := mkSettings {
  saveInterval : Z;                    (* unsigned long *)
  debounceDelay : Z;                   (* unsigned long *)
  maxCount : Z;                        (* int *)
  statusDisplayDuration : Z            (* unsigned long *)
}.

(** [ConfigManager::ConfigManager()] *)
Definition ConfigManager_new : Settings := mkSettings 5000 50 9999 3000.

(** [void ConfigManager::setMaxCount(int maxCount)] *)
Definition setMaxCount (settings : Settings) (v : Z) : Settings :=
  if (100 <=? v) && (v <=? 99999) then
    mkSettings (saveInterval settings) (debounceDelay settings) v
               (statusDisplayDuration settings)
  else settings.

Definition getMaxCount (settings : Settings) : Z := maxCount settings.

(** *** StorageManager

    The file operations of this class only check [sdAvailable] and log;
    they keep no content. *)

Record StorageManager := mkSM { sdAvailable : bool }.

(** [StorageManager::StorageManager()] *)
Definition StorageManager_new : StorageManager := mkSM false.

(** [bool StorageManager::writeFile(filename, data)] *)
Definition writeFile (sm : StorageManager) : bool := sdAvailable sm.

(** [bool StorageManager::saveCount(filename, value)] *)
Definition saveCount (sm : StorageManager) : bool :=
  if negb (sdAvailable sm) then false else writeFile sm.

(** *** Sample values *)

Definition t_start : DateTime := mkDT 25 11 30 9 59 30.
Definition t_stop : DateTime := mkDT 25 11 30 10 0 5.
Definition t_later : DateTime := mkDT 25 11 30 10 0 6.

(** A session that has been started and has counted one item. *)
Definition one_item : ProductionManager :=
  incrementCount (snd (startSession ProductionManager_new t_start)).

(** Polling the hour check of the state handlers over a series of clock
    reads; the result lists which reads fired the boundary. *)
Fixpoint poll (tm : TimeManager) (reads : list DateTime) : list bool :=
  match reads with
  | [] => []
  | now :: reads =>
      let '(fired, tm) := checkHourBoundary tm now in
      fired :: poll tm reads
  end.

End Managers.

(* ================================================================== *)
(** ** code_v3.cpp *)
(* ================================================================== *)

Module CodeV3.

Definition SAVE_INTERVAL : Z := 5000.
Definition DEBOUNCE_DELAY : Z := 50.
Definition MAX_COUNT : Z := 9999.
Definition STATUS_DISPLAY_DURATION : Z := 3000.

Definition COUNT_FILE : string := "/count.txt".
Definition HOURLY_FILE : string := "/hourly_count.txt".
Definition CUMULATIVE_FILE : string := "/cumulative_count.txt".
Definition PRODUCTION_STATE_FILE : string := "/prod_session.txt".

(** [struct RuntimeParams] *)
Record RuntimeParams := mkParams {
  saveInterval : Z;                    (* unsigned long *)
  debounceDelay : Z;                   (* unsigned long *)
  maxCount : Z;                        (* int *)
  statusDisplayDuration : Z            (* unsigned long *)
}.

Definition RuntimeParams_default : RuntimeParams :=
  mkParams SAVE_INTERVAL DEBOUNCE_DELAY MAX_COUNT STATUS_DISPLAY_DURATION.

(** *** The SD card

    The four state files hold integers, one per line, written with
    [file.print(int); file.println()] and read back with [file.parseInt()]
    or [atoi]; a file is kept as the list of the integers on its lines.
    The report files ([createHourlyLogFile], [saveProductionSession],
    [saveHourlyProductionCount]) are never read by the firmware and their
    names differ from the state files'; they are kept as a list of records
    in the order written.  [openOk] tells whether [SD.open] yields a valid
    [File].  [SD.open(name, FILE_WRITE)] truncates (ESP32 core, mode "w"). *)

Inductive Report :=
| HourlyLog (dt : DateTime) (count cumulative : Z)
| SessionReport (start stop : DateTime) (count : Z)
| HourlySessionReport (day start stop : DateTime) (count : Z).

Record SDCard := mkSD {
  files : gmap string (list Z);
  reports : list Report;
  openOk : bool
}.

Definition SD_exists (sd : SDCard) (name : string) : bool :=
  match files sd !! name with Some _ => true | None => false end.

Definition SD_remove (sd : SDCard) (name : string) : SDCard :=
  mkSD (delete name (files sd)) (reports sd) (openOk sd).

Definition SD_put (sd : SDCard) (name : string) (content : list Z) : SDCard :=
  mkSD (<[name := content]> (files sd)) (reports sd) (openOk sd).

Definition SD_report (sd : SDCard) (r : Report) : SDCard :=
  mkSD (files sd) (reports sd ++ [r]) (openOk sd).

(** [Stream::parseInt()] on the [i]-th call after opening: the next integer
    of the file, 0 when the file has run out; the [long] result is stored
    in an [int]. *)
Definition parseInt (content : list Z) (i : nat) : Z :=
  wrap32 (nth i content 0).

(** *** Global variables *)

Record Ram := mkRam {
  currentCount : Z;                      (* volatile int *)
  countChanged : bool;                   (* volatile bool *)
  hourlyCount : Z;                       (* int *)
  cumulativeCount : Z;                   (* int *)
  lastHour : Z;                          (* int *)
  rtcAvailable : bool;                   (* bool *)
  sdAvailable : bool;                    (* bool *)
  productionActive : bool;               (* volatile bool *)
  productionStartTime : DateTime;        (* DateTime *)
  productionStopTime : DateTime;         (* DateTime *)
  productionStartCount : Z;              (* int *)
  productionCount : Z;                   (* int *)
  productionStatusChanged : bool;        (* volatile bool *)
  lastSaveTime : Z;                      (* unsigned long *)
  lastInterruptTime : Z;                 (* volatile unsigned long *)
  cachedDebounceDelay : Z;               (* volatile unsigned long *)
  lastTimeUpdate : Z;                    (* static unsigned long, in loop() *)
  runtimeParams : RuntimeParams          (* RuntimeParams *)
}.

Definition set_currentCount (r : Ram) (v : Z) : Ram :=
  mkRam v (countChanged r) (hourlyCount r) (cumulativeCount r) (lastHour r)
    (rtcAvailable r) (sdAvailable r) (productionActive r)
    (productionStartTime r) (productionStopTime r) (productionStartCount r)
    (productionCount r) (productionStatusChanged r) (lastSaveTime r)
    (lastInterruptTime r) (cachedDebounceDelay r) (lastTimeUpdate r)
    (runtimeParams r).

Definition set_countChanged (r : Ram) (v : bool) : Ram :=
  mkRam (currentCount r) v (hourlyCount r) (cumulativeCount r) (lastHour r)
    (rtcAvailable r) (sdAvailable r) (productionActive r)
    (productionStartTime r) (productionStopTime r) (productionStartCount r)
    (productionCount r) (productionStatusChanged r) (lastSaveTime r)
    (lastInterruptTime r) (cachedDebounceDelay r) (lastTimeUpdate r)
    (runtimeParams r).

Definition set_hourlyCount (r : Ram) (v : Z) : Ram :=
  mkRam (currentCount r) (countChanged r) v (cumulativeCount r) (lastHour r)
    (rtcAvailable r) (sdAvailable r) (productionActive r)
    (productionStartTime r) (productionStopTime r) (productionStartCount r)
    (productionCount r) (productionStatusChanged r) (lastSaveTime r)
    (lastInterruptTime r) (cachedDebounceDelay r) (lastTimeUpdate r)
    (runtimeParams r).

Definition set_cumulativeCount (r : Ram) (v : Z) : Ram :=
  mkRam (currentCount r) (countChanged r) (hourlyCount r) v (lastHour r)
    (rtcAvailable r) (sdAvailable r) (productionActive r)
    (productionStartTime r) (productionStopTime r) (productionStartCount r)
    (productionCount r) (productionStatusChanged r) (lastSaveTime r)
    (lastInterruptTime r) (cachedDebounceDelay r) (lastTimeUpdate r)
    (runtimeParams r).

Definition set_lastHour (r : Ram) (v : Z) : Ram :=
  mkRam (currentCount r) (countChanged r) (hourlyCount r)
    (cumulativeCount r) v (rtcAvailable r) (sdAvailable r)
    (productionActive r) (productionStartTime r) (productionStopTime r)
    (productionStartCount r) (productionCount r) (productionStatusChanged r)
    (lastSaveTime r) (lastInterruptTime r) (cachedDebounceDelay r)
    (lastTimeUpdate r) (runtimeParams r).

Definition set_rtcAvailable (r : Ram) (v : bool) : Ram :=
  mkRam (currentCount r) (countChanged r) (hourlyCount r)
    (cumulativeCount r) (lastHour r) v (sdAvailable r) (productionActive r)
    (productionStartTime r) (productionStopTime r) (productionStartCount r)
    (productionCount r) (productionStatusChanged r) (lastSaveTime r)
    (lastInterruptTime r) (cachedDebounceDelay r) (lastTimeUpdate r)
    (runtimeParams r).

Definition set_sdAvailable (r : Ram) (v : bool) : Ram :=
  mkRam (currentCount r) (countChanged r) (hourlyCount r)
    (cumulativeCount r) (lastHour r) (rtcAvailable r) v (productionActive r)
    (productionStartTime r) (productionStopTime r) (productionStartCount r)
    (productionCount r) (productionStatusChanged r) (lastSaveTime r)
    (lastInterruptTime r) (cachedDebounceDelay r) (lastTimeUpdate r)
    (runtimeParams r).

Definition set_productionActive (r : Ram) (v : bool) : Ram :=
  mkRam (currentCount r) (countChanged r) (hourlyCount r)
    (cumulativeCount r) (lastHour r) (rtcAvailable r) (sdAvailable r) v
    (productionStartTime r) (productionStopTime r) (productionStartCount r)
    (productionCount r) (productionStatusChanged r) (lastSaveTime r)
    (lastInterruptTime r) (cachedDebounceDelay r) (lastTimeUpdate r)
    (runtimeParams r).

Definition set_productionStartTime (r : Ram) (v : DateTime) : Ram :=
  mkRam (currentCount r) (countChanged r) (hourlyCount r)
    (cumulativeCount r) (lastHour r) (rtcAvailable r) (sdAvailable r)
    (productionActive r) v (productionStopTime r) (productionStartCount r)
    (productionCount r) (productionStatusChanged r) (lastSaveTime r)
    (lastInterruptTime r) (cachedDebounceDelay r) (lastTimeUpdate r)
    (runtimeParams r).

Definition set_productionStopTime (r : Ram) (v : DateTime) : Ram :=
  mkRam (currentCount r) (countChanged r) (hourlyCount r)
    (cumulativeCount r) (lastHour r) (rtcAvailable r) (sdAvailable r)
    (productionActive r) (productionStartTime r) v (productionStartCount r)
    (productionCount r) (productionStatusChanged r) (lastSaveTime r)
    (lastInterruptTime r) (cachedDebounceDelay r) (lastTimeUpdate r)
    (runtimeParams r).

Definition set_productionStartCount (r : Ram) (v : Z) : Ram :=
  mkRam (currentCount r) (countChanged r) (hourlyCount r)
    (cumulativeCount r) (lastHour r) (rtcAvailable r) (sdAvailable r)
    (productionActive r) (productionStartTime r) (productionStopTime r) v
    (productionCount r) (productionStatusChanged r) (lastSaveTime r)
    (lastInterruptTime r) (cachedDebounceDelay r) (lastTimeUpdate r)
    (runtimeParams r).

Definition set_productionCount (r : Ram) (v : Z) : Ram :=
  mkRam (currentCount r) (countChanged r) (hourlyCount r)
    (cumulativeCount r) (lastHour r) (rtcAvailable r) (sdAvailable r)
    (productionActive r) (productionStartTime r) (productionStopTime r)
    (productionStartCount r) v (productionStatusChanged r) (lastSaveTime r)
    (lastInterruptTime r) (cachedDebounceDelay r) (lastTimeUpdate r)
    (runtimeParams r).

Definition set_productionStatusChanged (r : Ram) (v : bool) : Ram :=
  mkRam (currentCount r) (countChanged r) (hourlyCount r)
    (cumulativeCount r) (lastHour r) (rtcAvailable r) (sdAvailable r)
    (productionActive r) (productionStartTime r) (productionStopTime r)
    (productionStartCount r) (productionCount r) v (lastSaveTime r)
    (lastInterruptTime r) (cachedDebounceDelay r) (lastTimeUpdate r)
    (runtimeParams r).

Definition set_lastSaveTime (r : Ram) (v : Z) : Ram :=
  mkRam (currentCount r) (countChanged r) (hourlyCount r)
    (cumulativeCount r) (lastHour r) (rtcAvailable r) (sdAvailable r)
    (productionActive r) (productionStartTime r) (productionStopTime r)
    (productionStartCount r) (productionCount r) (productionStatusChanged r)
    v (lastInterruptTime r) (cachedDebounceDelay r) (lastTimeUpdate r)
    (runtimeParams r).

Definition set_lastInterruptTime (r : Ram) (v : Z) : Ram :=
  mkRam (currentCount r) (countChanged r) (hourlyCount r)
    (cumulativeCount r) (lastHour r) (rtcAvailable r) (sdAvailable r)
    (productionActive r) (productionStartTime r) (productionStopTime r)
    (productionStartCount r) (productionCount r) (productionStatusChanged r)
    (lastSaveTime r) v (cachedDebounceDelay r) (lastTimeUpdate r)
    (runtimeParams r).

Definition set_cachedDebounceDelay (r : Ram) (v : Z) : Ram :=
  mkRam (currentCount r) (countChanged r) (hourlyCount r)
    (cumulativeCount r) (lastHour r) (rtcAvailable r) (sdAvailable r)
    (productionActive r) (productionStartTime r) (productionStopTime r)
    (productionStartCount r) (productionCount r) (productionStatusChanged r)
    (lastSaveTime r) (lastInterruptTime r) v (lastTimeUpdate r)
    (runtimeParams r).

Definition set_lastTimeUpdate (r : Ram) (v : Z) : Ram :=
  mkRam (currentCount r) (countChanged r) (hourlyCount r)
    (cumulativeCount r) (lastHour r) (rtcAvailable r) (sdAvailable r)
    (productionActive r) (productionStartTime r) (productionStopTime r)
    (productionStartCount r) (productionCount r) (productionStatusChanged r)
    (lastSaveTime r) (lastInterruptTime r) (cachedDebounceDelay r) v
    (runtimeParams r).

Definition set_runtimeParams (r : Ram) (v : RuntimeParams) : Ram :=
  mkRam (currentCount r) (countChanged r) (hourlyCount r)
    (cumulativeCount r) (lastHour r) (rtcAvailable r) (sdAvailable r)
    (productionActive r) (productionStartTime r) (productionStopTime r)
    (productionStartCount r) (productionCount r) (productionStatusChanged r)
    (lastSaveTime r) (lastInterruptTime r) (cachedDebounceDelay r)
    (lastTimeUpdate r) v.
(** The machine: volatile memory and the card. *)
Record World := mkWorld { ram : Ram; card : SDCard }.

(** The globals as their initialisers leave them. *)
Definition Ram_initial : Ram :=
  mkRam 0 false 0 0 (-1) false false false DateTime_default DateTime_default
        0 0 false 0 0 DEBOUNCE_DELAY 0 RuntimeParams_default.

(** *** Interrupt service routines *)

(** [void IRAM_ATTR handleInterrupt()]; [currentTime] is [millis()]. *)
Definition handleInterrupt (w : World) (currentTime : Z) : World :=
  let r := ram w in
  let currentTime := to_uint32 currentTime in
  if cachedDebounceDelay r <? to_uint32 (currentTime - lastInterruptTime r) then
    let r := if productionActive r && (currentCount r <? MAX_COUNT)
             then set_countChanged
                    (set_currentCount r (wrap32 (currentCount r + 1))) true
             else r in
    mkWorld (set_lastInterruptTime r currentTime) (card w)
  else w.

(** *** Count files *)

(** The leading digits of [n], dropping low digits until [n < limit]. *)
Fixpoint leading_digits (fuel : nat) (limit n : Z) : Z :=
  match fuel with
  | O => n
  | S fuel =>
      if limit <=? n then leading_digits fuel limit (n / 10) else n
  end.

(** [file.read(buffer, sizeof(buffer) - 1)] followed by [atoi(buffer)]:
    the first line of the file holds the integer [n] in decimal, at most
    nine characters of it reach the buffer (nine digits, or the sign and
    eight digits), and [atoi] reads the number they spell. *)
Definition atoi_buffer (n : Z) : Z :=
  if n <? 0
  then - leading_digits (Z.to_nat (Z.log2 (- n))) (10 ^ 8) (- n)
  else leading_digits (Z.to_nat (Z.log2 n)) (10 ^ 9) n.

(** [int readCountFromFile(const char* filename)] *)
Definition readCountFromFile (sd : SDCard) (filename : string) : Z :=
  match files sd !! filename with
  | None => 0
  | Some content =>
      if negb (openOk sd) then 0
      else
        match content with
        | [] => 0
        | n :: _ =>
            let count := atoi_buffer n in
            if (count <? 0) || (MAX_COUNT <? count) then 0 else count
        end
  end.

(** [void writeCountToFile(const char* filename, int count)] *)
Definition writeCountToFile (sd : SDCard) (filename : string) (count : Z)
  : SDCard :=
  if (count <? 0) || (MAX_COUNT <? count) then sd
  else
    let sd := if SD_exists sd filename then SD_remove sd filename else sd in
    if negb (openOk sd) then sd
    else SD_put sd filename [count].

(** [void initializeFiles()] *)
Definition initializeFiles (sd : SDCard) : SDCard :=
  let sd := if negb (SD_exists sd COUNT_FILE)
            then writeCountToFile sd COUNT_FILE 0 else sd in
  let sd := if negb (SD_exists sd HOURLY_FILE)
            then writeCountToFile sd HOURLY_FILE 0 else sd in
  if negb (SD_exists sd CUMULATIVE_FILE)
  then writeCountToFile sd CUMULATIVE_FILE 0 else sd.

(** [void createHourlyLogFile(DateTime dt, int count, int cumulative)] *)
Definition createHourlyLogFile (sd : SDCard) (dt : DateTime)
    (count cumulative : Z) : SDCard :=
  if negb (openOk sd) then sd
  else SD_report sd (HourlyLog dt count cumulative).

(** *** Recovery file *)

(** [void clearProductionState()] *)
Definition clearProductionState (w : World) : World :=
  if negb (sdAvailable (ram w)) then w
  else
    if SD_exists (card w) PRODUCTION_STATE_FILE
    then mkWorld (ram w) (SD_remove (card w) PRODUCTION_STATE_FILE)
    else w.

(** [void saveProductionState()] *)
Definition saveProductionState (w : World) : World :=
  let r := ram w in
  if negb (sdAvailable r) then w
  else if negb (productionActive r) then clearProductionState w
  else if negb (openOk (card w)) then w
  else
    mkWorld r
      (SD_put (card w) PRODUCTION_STATE_FILE
         [ currentCount r; productionStartCount r;
           dt_year (productionStartTime r); dt_month (productionStartTime r);
           dt_day (productionStartTime r); dt_hour (productionStartTime r);
           dt_minute (productionStartTime r);
           dt_second (productionStartTime r) ]).

(** The validation test of [restoreProductionState()]. *)
Definition snapshotValid (year month day hour minute second : Z) : bool :=
  (2020 <=? year) && (year <=? 2100) && (1 <=? month) && (month <=? 12) &&
  (1 <=? day) && (day <=? 31) && (hour <=? 23) && (minute <=? 59) &&
  (second <=? 59).

(** [void restoreProductionState()] *)
Definition restoreProductionState (w : World) : World :=
  let r := ram w in
  if negb (sdAvailable r) then w
  else
    match files (card w) !! PRODUCTION_STATE_FILE with
    | None => w
    | Some content =>
        if negb (openOk (card w)) then w
        else
          let savedCurrentCount := parseInt content 0 in
          let savedStartCount := parseInt content 1 in
          let year := parseInt content 2 in
          let month := parseInt content 3 in
          let day := parseInt content 4 in
          let hour := parseInt content 5 in
          let minute := parseInt content 6 in
          let second := parseInt content 7 in
          if snapshotValid year month day hour minute second then
            let r := set_productionActive r true in
            let r := set_currentCount r savedCurrentCount in
            let r := set_productionStartCount r savedStartCount in
            let r := set_productionStartTime r
                       (DateTime_of year month day hour minute second) in
            let r := set_productionCount r
                       (wrap32 (currentCount r - productionStartCount r)) in
            mkWorld r (card w)
          else w
    end.

(** *** Production session *)

(** [void startProduction()]; [rtcNow] is [rtc.now()]. *)
Definition startProduction (w : World) (rtcNow : DateTime) : World :=
  let r := ram w in
  if negb (rtcAvailable r) then w
  else
    let r := set_productionActive r true in
    let r := set_productionStartTime r rtcNow in
    let r := set_productionStartCount r (currentCount r) in
    let r := set_productionCount r 0 in
    saveProductionState (mkWorld r (card w)).

(** [void saveHourlyProductionCount()] *)
Definition saveHourlyProductionCount (w : World) (rtcNow : DateTime) : World :=
  let r := ram w in
  let now := if rtcAvailable r then rtcNow else productionStartTime r in
  if negb (openOk (card w)) then w
  else
    mkWorld r
      (SD_report (card w)
         (HourlySessionReport now (productionStartTime r)
            (productionStopTime r) (productionCount r))).

(** [void saveProductionSession()] *)
Definition saveProductionSession (w : World) (rtcNow : DateTime) : World :=
  let r := ram w in
  if negb (openOk (card w)) then w
  else
    let w := mkWorld r
               (SD_report (card w)
                  (SessionReport (productionStartTime r)
                     (productionStopTime r) (productionCount r))) in
    saveHourlyProductionCount w rtcNow.

(** [void stopProduction()]; [rtcNow] is [rtc.now()]. *)
Definition stopProduction (w : World) (rtcNow : DateTime) : World :=
  let r := ram w in
  if negb (productionActive r) then w
  else
    let r := set_productionActive r false in
    let r := set_productionStopTime r
               (if rtcAvailable r then rtcNow else productionStartTime r) in
    let r := set_productionCount r
               (wrap32 (currentCount r - productionStartCount r)) in
    let w := mkWorld r (card w) in
    if sdAvailable r
    then clearProductionState (saveProductionSession w rtcNow)
    else w.

(** *** Hour roll-over *)

(** [void handleHourChange(DateTime now)] *)
Definition handleHourChange (w : World) (now : DateTime) : World :=
  let r := ram w in
  if negb (productionActive r) then
    let finalCount := currentCount r in
    let r := set_currentCount r 0 in
    let r := set_countChanged r false in
    let r := set_hourlyCount r finalCount in
    let r := set_cumulativeCount r
               (wrap32 (cumulativeCount r + hourlyCount r)) in
    if sdAvailable r then
      let sd := writeCountToFile (card w) COUNT_FILE 0 in
      let sd := writeCountToFile sd HOURLY_FILE (hourlyCount r) in
      let sd := writeCountToFile sd CUMULATIVE_FILE (cumulativeCount r) in
      let sd := createHourlyLogFile sd now finalCount (cumulativeCount r) in
      mkWorld r sd
    else mkWorld r (card w)
  else
    (* "Production is active - just update cumulative without resetting":
       the branch only logs and requests a redraw. *)
    w.

(** *** The main loop in normal mode

    The three state-changing steps of [loop()] when [currentMode ==
    MODE_NORMAL] and neither a diagnostic request nor serial input is
    pending.  [now] is [millis()], [rtcNow] is [rtc.now()] and
    [buttonPressed] is [digitalRead(LATCHING_PIN) == LOW]. *)

Definition loop_productionButton (w : World) (buttonPressed : bool)
    (rtcNow : DateTime) : World :=
  if productionStatusChanged (ram w) then
    let w := mkWorld (set_productionStatusChanged (ram w) false) (card w) in
    if buttonPressed then startProduction w rtcNow
    else stopProduction w rtcNow
  else w.

Definition loop_timeUpdate (w : World) (now : Z) (rtcNow : DateTime) : World :=
  let now := to_uint32 now in
  if 1000 <=? to_uint32 (now - lastTimeUpdate (ram w)) then
    let w :=
      if rtcAvailable (ram w) then
        if negb (dt_hour rtcNow =? lastHour (ram w)) then
          let w := handleHourChange w rtcNow in
          mkWorld (set_lastHour (ram w) (dt_hour rtcNow)) (card w)
        else w
      else w in
    mkWorld (set_lastTimeUpdate (ram w) now) (card w)
  else w.

Definition loop_periodicSave (w : World) (now : Z) : World :=
  let now := to_uint32 now in
  let r := ram w in
  if countChanged r && sdAvailable r &&
     (saveInterval (runtimeParams r) <? to_uint32 (now - lastSaveTime r))
  then
    let countToSave := currentCount r in
    let r := set_countChanged r false in
    let sd := writeCountToFile (card w) COUNT_FILE countToSave in
    let r := set_lastSaveTime r now in
    let w := mkWorld r sd in
    if productionActive r then saveProductionState w else w
  else w.

Definition loop_normal (w : World) (now : Z) (rtcNow : DateTime)
    (buttonPressed : bool) : World :=
  let w := mkWorld (set_cachedDebounceDelay (ram w)
                      (debounceDelay (runtimeParams (ram w)))) (card w) in
  let w := loop_productionButton w buttonPressed rtcNow in
  let w := loop_timeUpdate w now rtcNow in
  loop_periodicSave w now.

(** *** Start-up

    [power_on] is the machine when [setup()] reaches its file-system
    check: fresh globals, the parameters loaded from EEPROM and
    [cachedDebounceDelay = runtimeParams.debounceDelay], the card as it
    was left, and [sdAvailable] and [rtcAvailable] as the hardware
    bring-up found them.  [setup_state] is the part of [setup()] from the
    file-system check to the initialisation of [lastHour];
    [latchPressed] is [digitalRead(LATCHING_PIN) == LOW]. *)

Definition power_on (sd : SDCard) (sdOk rtcOk : bool) (params : RuntimeParams)
  : World :=
  let r := set_runtimeParams Ram_initial params in
  let r := set_cachedDebounceDelay r (debounceDelay (runtimeParams r)) in
  let r := set_sdAvailable r sdOk in
  let r := set_rtcAvailable r rtcOk in
  mkWorld r sd.

(** "Initialize files": [initializeFiles()] and the three
    [readCountFromFile] calls. *)
Definition setup_loadCounts (w : World) : World :=
  if sdAvailable (ram w) then
    let sd := initializeFiles (card w) in
    let r := set_currentCount (ram w) (readCountFromFile sd COUNT_FILE) in
    let r := set_hourlyCount r (readCountFromFile sd HOURLY_FILE) in
    let r := set_cumulativeCount r (readCountFromFile sd CUMULATIVE_FILE) in
    mkWorld r sd
  else w.

(** "Recover/initialize production state after reboot": the latch read. *)
Definition setup_latch (w : World) (latchPressed : bool) (rtcNow : DateTime)
  : World :=
  if latchPressed then
    let r := set_productionActive (ram w) true in
    let r := set_productionStartCount r 0 in
    let r := set_productionCount r 0 in
    let r := set_productionStartTime r
               (if rtcAvailable r then rtcNow
                else DateTime_of 2025 11 12 0 0 0) in
    mkWorld r (card w)
  else
    let r := set_productionActive (ram w) false in
    let r := set_currentCount r 0 in
    let r := set_countChanged r true in
    let sd := if sdAvailable r
              then writeCountToFile (card w) COUNT_FILE 0 else card w in
    let r := set_productionStartCount r 0 in
    let r := set_productionCount r 0 in
    mkWorld r sd.

Definition setup_state (w : World) (latchPressed : bool) (rtcNow : DateTime)
  : World :=
  let w := setup_loadCounts w in
  let w := setup_latch w latchPressed rtcNow in
  let w := restoreProductionState w in
  mkWorld (set_lastHour (ram w)
             (if rtcAvailable (ram w) then dt_hour rtcNow else 0)) (card w).

(** A reboot after a power loss: volatile memory is lost, the card stays. *)
Definition reboot (w : World) (sdOk rtcOk : bool) (params : RuntimeParams)
    (latchPressed : bool) (rtcNow : DateTime) : World :=
  setup_state (power_on (card w) sdOk rtcOk params) latchPressed rtcNow.

(** The debounce test of [handleInterrupt]: whether a press at
    [currentTime] is taken. *)
Definition accepted (w : World) (currentTime : Z) : bool :=
  cachedDebounceDelay (ram w)
    <? to_uint32 (to_uint32 currentTime - lastInterruptTime (ram w)).

(** Three presses of the counter button. *)
Definition count3 (w : World) (t1 t2 t3 : Z) : World :=
  handleInterrupt (handleInterrupt (handleInterrupt w t1) t2) t3.

(** The count of the running session,
    [currentCount - productionStartCount], as [stopProduction()] and
    [restoreProductionState()] compute it. *)
Definition sessionCount (w : World) : Z :=
  wrap32 (currentCount (ram w) - productionStartCount (ram w)).

(** *** The recovery rule in the words of the specification

    "all its fields are in-range (year >= a configured epoch, month 1-12,
    day 1-31, hour 0-23, minute/second 0-59)", with 2020 for the epoch. *)
Definition spec_snapshot_in_range (year month day hour minute second : Z)
  : bool :=
  (2020 <=? year) && (1 <=? month) && (month <=? 12) &&
  (1 <=? day) && (day <=? 31) && (0 <=? hour) && (hour <=? 23) &&
  (0 <=? minute) && (minute <=? 59) && (0 <=? second) && (second <=? 59).

(** *** Sample machines *)

Definition noon : DateTime := mkDT 25 11 30 12 0 0.

Definition card_with (snapshot : list Z) : SDCard :=
  mkSD {[ PRODUCTION_STATE_FILE := snapshot ]} [] true.

(** A recovery file with [month = 13]. *)
Definition snapshot_month13 : list Z := [3; 0; 2025; 13; 30; 10; 15; 0].

(** A recovery file with every field in the ranges of the
    specification, in the year 2101. *)
Definition snapshot_2101 : list Z := [3; 0; 2101; 11; 30; 10; 15; 0].


(** A machine that booted with a cumulative count of 10 on the card and
    is three items into a session. *)
Definition mid_session : World :=
  count3
    (startProduction
       (setup_state
          (power_on (mkSD {[ CUMULATIVE_FILE := [10] ]} [] true) true true
                    RuntimeParams_default) false noon) noon)
    100 200 300.

Definition one_pm : DateTime := mkDT 25 11 30 13 0 0.

End CodeV3.

(* ================================================================== *)
(** ** src/fsm_main_integration.cpp and the helpers it calls in
       src/core/state_handlers.cpp *)
(* ================================================================== *)

Module Integration.

Import Fsm Managers.

(** Modelled from the spec: the event names this file tests for.
    [enum SystemEvent] of state_manager.h declares none of
    [EVT_INIT_COMPLETE], [EVT_SYSTEM_ERROR], [EVT_ITEM_COUNTED],
    [EVT_DIAGNOSTIC_REQUESTED] and [EVT_DIAG_COMPLETE]; they stand for the
    spec's events StartupComplete, ErrorDetected, CounterPressed,
    DiagnosticRequested and DiagnosticComplete, and are kept under the
    names the file uses.  Its state names [STATE_X] are read as the
    enumerators [SystemState::X]. *)
Inductive Event :=
| EVT_INIT_COMPLETE | EVT_SYSTEM_ERROR | EVT_PRODUCTION_START
| EVT_PRODUCTION_STOP | EVT_ITEM_COUNTED | EVT_HOUR_CHANGED
| EVT_DIAGNOSTIC_REQUESTED | EVT_DIAG_COMPLETE | EVT_ERROR_RECOVERED.

(** The singletons the loop works on. *)
Record System := mkSystem {
  fsm : StateManager;
  production : ProductionManager;
  time : TimeManager;
  storage : StorageManager
}.

(** What one call reads from the outside: [millis()], the clock and
    [PowerManager::getFreeHeap()]. *)
Record Inputs := mkInputs { millis : Z; rtcNow : DateTime; freeHeap : Z }.

Definition isDisplayReady : bool := true.

(** [bool isHeapHealthy()] *)
Definition isHeapHealthy (i : Inputs) : bool :=
  if freeHeap i <? 50000 then false else true.

(** [bool canStartProduction()] of state_handlers.cpp *)
Definition canStartProduction (sys : System) (i : Inputs) : bool :=
  if isSessionActive (production sys) then false
  else if negb isDisplayReady then false
  else if negb (isHeapHealthy i) then false
  else true.

(** [bool canStopProduction()] of state_handlers.cpp *)
Definition canStopProduction : bool := true.

(** [void handleHourBoundary()]: of the objects kept here only the
    [TimeManager] changes. *)
Definition handleHourBoundary (sys : System) (i : Inputs) : System :=
  mkSystem (fsm sys) (production sys)
           (Managers.handleHourChange (time sys) (rtcNow i)) (storage sys).

(** [bool handleItemCounted()] *)
Definition handleItemCounted (sys : System) : System :=
  mkSystem (fsm sys) (incrementCount (production sys)) (time sys)
           (storage sys).

(** [bool saveProductionProgress()] *)
Definition saveProductionProgress (sys : System) : bool :=
  if negb (writeFile (storage sys)) then false else true.

(** Modelled from the spec: [fsm.transitionToState(state)].  No file
    under src/ declares a [transitionToState]; [class StateManager] has
    [transitionTo] only.  The spec has the state "mutated only through
    [transition_to]" and "all transitions are guarded; a refused
    transition leaves state unchanged and returns failure", so the call
    is taken to be the guarded [StateManager::transitionTo], its result
    dropped as this file drops it. *)
Definition transitionToState (sys : System) (target : SystemState)
    (i : Inputs) : System :=
  mkSystem (snd (transitionTo (fsm sys) target (millis i)))
           (production sys) (time sys) (storage sys).

(** [void processEvent(SystemEvent event, SystemState currentState)];
    [currentState] is the value [loop()] read before draining the
    queue. *)
Definition processEvent (sys : System) (event : Event)
    (currentState : SystemState) (i : Inputs) : System :=
  match currentState with
  | INITIALIZATION =>
      match event with
      | EVT_INIT_COMPLETE => transitionToState sys READY i
      | EVT_SYSTEM_ERROR => transitionToState sys ERROR i
      | _ => sys
      end
  | READY =>
      match event with
      | EVT_PRODUCTION_START =>
          if canStartProduction sys i then
            let sys := mkSystem (fsm sys)
                         (snd (startSession (production sys) (rtcNow i)))
                         (time sys) (storage sys) in
            transitionToState sys PRODUCTION i
          else sys
      | EVT_DIAGNOSTIC_REQUESTED => transitionToState sys DIAGNOSTIC i
      | EVT_SYSTEM_ERROR => transitionToState sys ERROR i
      | EVT_HOUR_CHANGED => handleHourBoundary sys i
      | _ => sys
      end
  | PRODUCTION =>
      match event with
      | EVT_PRODUCTION_STOP =>
          if canStopProduction then
            let sys := mkSystem (fsm sys)
                         (snd (stopSession (production sys) (rtcNow i)))
                         (time sys) (storage sys) in
            transitionToState sys READY i
          else sys
      | EVT_ITEM_COUNTED => handleItemCounted sys
      | EVT_HOUR_CHANGED => handleHourBoundary sys i
      | EVT_SYSTEM_ERROR => transitionToState sys ERROR i
      | EVT_DIAGNOSTIC_REQUESTED => transitionToState sys DIAGNOSTIC i
      | _ => sys
      end
  | DIAGNOSTIC =>
      match event with
      | EVT_DIAG_COMPLETE => transitionToState sys READY i
      | EVT_SYSTEM_ERROR => transitionToState sys ERROR i
      | _ => sys
      end
  | ERROR =>
      match event with
      | EVT_ERROR_RECOVERED => transitionToState sys READY i
      | EVT_PRODUCTION_STOP =>
          mkSystem (fsm sys)
                   (snd (stopSession (production sys) (rtcNow i)))
                   (time sys) (storage sys)
      | _ => sys
      end
  end.

End Integration.

(* ================================================================== *)
(** ** The public interface of [StateManager] as a whole *)
(* ================================================================== *)

Module FsmCalls.

Import Fsm.

(** A call of one of the public methods that change the object. *)
Inductive Call :=
| CallInitialize (now : Z)
| CallQueueEvent (event : SystemEvent)
| CallProcessEvent (event : SystemEvent) (now : Z)
| CallTransitionTo (target : SystemState) (now : Z)
| CallUpdate (now : Z).

Definition call (s : StateManager) (c : Call) : option StateManager :=
  match c with
  | CallInitialize now => Some (snd (initialize s now))
  | CallQueueEvent event => Some (queueEvent s event)
  | CallProcessEvent event now => Some (processEvent s event now)
  | CallTransitionTo target now => Some (snd (transitionTo s target now))
  | CallUpdate now => update s now
  end.

Fixpoint calls (s : StateManager) (cs : list Call) : option StateManager :=
  match cs with
  | [] => Some s
  | c :: cs =>
      match call s c with
      | Some s' => calls s' cs
      | None => None
      end
  end.

(** Whether a call is [initialize()]. *)
Definition is_initialize (c : Call) : bool :=
  match c with CallInitialize _ => true | _ => false end.

(** Dispatching a list of events one after the other, as the loop of
    [update()] does with the events it takes out of the queue. *)
Definition dispatch (s : StateManager) (events : list SystemEvent) (now : Z)
  : StateManager :=
  fold_left (fun s event => processEvent s event now) events s.

(** The object with its queue emptied: the head index moved up to the
    tail index. *)
Definition emptied (s : StateManager) : StateManager :=
  set_eventQueueHead s (eventQueueTail s).

(** The state the [switch] after the loop of [update()] leaves, for a time
    [elapsed] spent in the current state. *)
Definition after_timeout (state : SystemState) (elapsed : Z) : SystemState :=
  match state with
  | INITIALIZATION => if 30000 <? elapsed then ERROR else INITIALIZATION
  | DIAGNOSTIC => if 60000 <? elapsed then READY else DIAGNOSTIC
  | ERROR => if 5000 <? elapsed then READY else ERROR
  | READY => READY
  | PRODUCTION => PRODUCTION
  end.

(** The transition table the event handlers and their guards amount to:
    the state an event leads to from a given state. *)
Definition next_state (state : SystemState) (event : SystemEvent)
  : SystemState :=
  match state, event with
  | INITIALIZATION, EVT_STARTUP_COMPLETE => READY
  | INITIALIZATION, EVT_STARTUP_FAILED => ERROR
  | READY, EVT_PRODUCTION_START => PRODUCTION
  | READY, EVT_DIAGNOSTIC_REQUEST => DIAGNOSTIC
  | READY, EVT_ERROR_DETECTED => ERROR
  | PRODUCTION, EVT_PRODUCTION_STOP => READY
  | PRODUCTION, EVT_ERROR_DETECTED => ERROR
  | DIAGNOSTIC, EVT_DIAGNOSTIC_COMPLETE => READY
  | DIAGNOSTIC, EVT_ERROR_DETECTED => ERROR
  | ERROR, EVT_ERROR_RECOVERED => READY
  | _, _ => state
  end.

(** The production sub-state that goes with a state. *)
Definition substate_of (state : SystemState) : ProductionState :=
  match state with PRODUCTION => ACTIVE | _ => IDLE end.

(** [const char* StateManager::getCurrentStateName() const] *)
Definition getCurrentStateName (s : StateManager) : string :=
  match currentState s with
  | INITIALIZATION => "INITIALIZATION"
  | READY => "READY"
  | PRODUCTION => "PRODUCTION"
  | DIAGNOSTIC => "DIAGNOSTIC"
  | ERROR => "ERROR"
  end.

(** [const char* StateManager::getEventName(SystemEvent event) const] *)
Definition getEventName (event : SystemEvent) : string :=
  match event with
  | EVT_STARTUP_BEGIN => "STARTUP_BEGIN"
  | EVT_STARTUP_COMPLETE => "STARTUP_COMPLETE"
  | EVT_STARTUP_FAILED => "STARTUP_FAILED"
  | EVT_PRODUCTION_START => "PRODUCTION_START"
  | EVT_PRODUCTION_STOP => "PRODUCTION_STOP"
  | EVT_COUNTER_PRESSED => "COUNTER_PRESSED"
  | EVT_COUNT_UPDATED => "COUNT_UPDATED"
  | EVT_COUNT_SAVED => "COUNT_SAVED"
  | EVT_TIME_UPDATED => "TIME_UPDATED"
  | EVT_HOUR_CHANGED => "HOUR_CHANGED"
  | EVT_HOUR_LOGGED => "HOUR_LOGGED"
  | EVT_RTC_AVAILABLE => "RTC_AVAILABLE"
  | EVT_RTC_UNAVAILABLE => "RTC_UNAVAILABLE"
  | EVT_SD_AVAILABLE => "SD_AVAILABLE"
  | EVT_SD_UNAVAILABLE => "SD_UNAVAILABLE"
  | EVT_OLED_AVAILABLE => "OLED_AVAILABLE"
  | EVT_OLED_UNAVAILABLE => "OLED_UNAVAILABLE"
  | EVT_DIAGNOSTIC_REQUEST => "DIAGNOSTIC_REQUEST"
  | EVT_DIAGNOSTIC_COMPLETE => "DIAGNOSTIC_COMPLETE"
  | EVT_SERIAL_COMMAND => "SERIAL_COMMAND"
  | EVT_SERIAL_TIME_SET => "SERIAL_TIME_SET"
  | EVT_ENTER_STATE => "ENTER_STATE"
  | EVT_EXIT_STATE => "EXIT_STATE"
  | EVT_STATE_TIMEOUT => "STATE_TIMEOUT"
  | EVT_ERROR_DETECTED => "ERROR_DETECTED"
  | EVT_ERROR_RECOVERED => "ERROR_RECOVERED"
  | EVT_ERROR_FATAL => "ERROR_FATAL"
  end.

(** The production sub-state agrees with the state. *)
Definition substate_ok (s : StateManager) : Prop :=
  productionSubState s = substate_of (currentState s).

(** Sample objects. *)
Definition diagnosing0 : StateManager := snd (transitionTo ready0 DIAGNOSTIC 10).

Definition two_queued : StateManager :=
  queueEvent (queueEvent ready0 EVT_PRODUCTION_START) EVT_COUNTER_PRESSED.

End FsmCalls.

(* ================================================================== *)
(** ** More of src/managers/managers.cpp *)
(* ================================================================== *)

Module ManagersMore.

Import Managers.

(** *** Sequences of calls on a [ProductionManager] *)

Inductive PMCall :=
| PMStart (now : DateTime)
| PMStop (now : DateTime)
| PMIncrement.

Definition pm_call (pm : ProductionManager) (c : PMCall) : ProductionManager :=
  match c with
  | PMStart now => snd (startSession pm now)
  | PMStop now => snd (stopSession pm now)
  | PMIncrement => incrementCount pm
  end.

Definition pm_calls (pm : ProductionManager) (cs : list PMCall)
  : ProductionManager :=
  fold_left pm_call cs pm.

(** *** Hour changes in a series of clock reads: each read compared with
    the hour of the read before it, the first with [last]. *)
Fixpoint hour_changes (last : Z) (reads : list DateTime) : list bool :=
  match reads with
  | [] => []
  | now :: reads =>
      negb (dt_hour now =? last) :: hour_changes (dt_hour now) reads
  end.

(** *** ConfigManager, the remaining members *)

(** [void ConfigManager::setSaveInterval(unsigned long interval)] *)
Definition setSaveInterval (settings : Settings) (interval : Z) : Settings :=
  let interval := to_uint32 interval in
  if (1000 <=? interval) && (interval <=? 60000) then
    mkSettings interval (debounceDelay settings) (maxCount settings)
               (statusDisplayDuration settings)
  else settings.

(** [void ConfigManager::setDebounceDelay(unsigned long delay)] *)
Definition setDebounceDelay (settings : Settings) (delay : Z) : Settings :=
  let delay := to_uint32 delay in
  if (10 <=? delay) && (delay <=? 500) then
    mkSettings (saveInterval settings) delay (maxCount settings)
               (statusDisplayDuration settings)
  else settings.

(** [void ConfigManager::setStatusDisplayDuration(unsigned long duration)] *)
Definition setStatusDisplayDuration (settings : Settings) (duration : Z)
  : Settings :=
  let duration := to_uint32 duration in
  if (1000 <=? duration) && (duration <=? 10000) then
    mkSettings (saveInterval settings) (debounceDelay settings)
               (maxCount settings) duration
  else settings.

(** [bool ConfigManager::validateSettings() const] *)
Definition validateSettings (settings : Settings) : bool :=
  (1000 <=? saveInterval settings) && (saveInterval settings <=? 60000) &&
  (10 <=? debounceDelay settings) && (debounceDelay settings <=? 500) &&
  (100 <=? maxCount settings) && (maxCount settings <=? 99999) &&
  (1000 <=? statusDisplayDuration settings) &&
  (statusDisplayDuration settings <=? 10000).

(** [bool ConfigManager::saveToEEPROM()]: it only logs. *)
Definition saveToEEPROM (settings : Settings) : bool := true.

(** [bool ConfigManager::setSettings(const Settings& newSettings)]: the
    test is [validateSettings()], on the settings the object holds. *)
Definition setSettings (settings newSettings : Settings) : bool * Settings :=
  if negb (validateSettings settings) then (false, settings)
  else (saveToEEPROM newSettings, newSettings).

(** [void ConfigManager::resetToDefaults()] *)
Definition resetToDefaults (settings : Settings) : Settings :=
  mkSettings 5000 50 9999 3000.

(** A call of one of the four single-parameter setters. *)
Inductive Setter :=
| SetSaveInterval (v : Z)
| SetDebounceDelay (v : Z)
| SetMaxCount (v : Z)
| SetStatusDisplayDuration (v : Z).

Definition apply_setter (settings : Settings) (c : Setter) : Settings :=
  match c with
  | SetSaveInterval v => setSaveInterval settings v
  | SetDebounceDelay v => setDebounceDelay settings v
  | SetMaxCount v => setMaxCount settings v
  | SetStatusDisplayDuration v => setStatusDisplayDuration settings v
  end.

(** Sample values. *)
Definition settings_zero : Settings := mkSettings 0 0 0 0.

End ManagersMore.

(* ================================================================== *)
(** ** More of code_v3.cpp *)
(* ================================================================== *)

Module CodeV3More.

Import CodeV3.

(** A series of falling edges on the counter pin, at the given [millis()]
    values. *)
Definition presses (w : World) (times : list Z) : World :=
  fold_left handleInterrupt times w.

(** *** The 12-hour clock of the display *)

(** [inline int getDisplay12Hour(int hour)]; [%] truncates towards zero. *)
Definition getDisplay12Hour (hour : Z) : Z :=
  let h := Z.rem hour 12 in
  if h =? 0 then 12 else h.

(** [inline const char* getAmPm(int hour)] *)
Definition getAmPm (hour : Z) : string :=
  if 12 <=? hour then "PM" else "AM".

(** *** Setting the clock over the serial line *)

Definition is_digit (c : Ascii.ascii) : bool :=
  (48 <=? Z.of_N (Ascii.N_of_ascii c)) && (Z.of_N (Ascii.N_of_ascii c) <=? 57).

Definition is_comma (c : Ascii.ascii) : bool := Z.of_N (Ascii.N_of_ascii c) =? 44.

Definition comma : Ascii.ascii := Ascii.ascii_of_N 44.

(** The first loop: [if (timeData[i] == ',') commaCount++]. *)
Fixpoint count_commas (timeData : string) (commaCount : Z) : Z :=
  match timeData with
  | EmptyString => commaCount
  | String c rest =>
      count_commas rest (if is_comma c then commaCount + 1 else commaCount)
  end.

(** The locals of the second loop. *)
Record Parse := mkParse {
  values : list Z;                     (* int values[6] *)
  index : Z;                           (* int *)
  value : Z                            (* int *)
}.

Definition store_value (p : Parse) : Parse :=
  if index p <? 6 then
    mkParse (<[Z.to_nat (index p) := value p]> (values p)) (index p + 1) 0
  else p.

Definition parse_char (p : Parse) (c : Ascii.ascii) : Parse :=
  if is_digit c then
    mkParse (values p) (index p)
            (wrap32 (value p * 10 + (Z.of_N (Ascii.N_of_ascii c) - 48)))
  else if is_comma c then store_value p
  else p.

Fixpoint parse_loop (timeData : string) (p : Parse) : Parse :=
  match timeData with
  | EmptyString => p
  | String c rest => parse_loop rest (parse_char p c)
  end.

(** [bool checkAndSetTimeFromSerial(String input)]: the result and, when
    [rtc.adjust] is called, its argument. *)
Definition checkAndSetTimeFromSerial (input : string)
  : bool * option DateTime :=
  if negb (String.prefix "TIME," input) then (false, None)
  else
    let timeData :=
      String.substring 5 (String.length input - 5)%nat input in
    if negb (count_commas timeData 0 =? 5) then (true, None)
    else
      let p := parse_loop timeData (mkParse [0; 0; 0; 0; 0; 0] 0 0) in
      (* "Don't forget the last value after final comma" *)
      let p := if index p <? 6
               then mkParse (<[Z.to_nat (index p) := value p]> (values p))
                            (index p + 1) (value p)
               else p in
      if negb (index p =? 6) then (true, None)
      else
        let year := nth 0 (values p) 0 in
        let month := nth 1 (values p) 0 in
        let day := nth 2 (values p) 0 in
        let hour := nth 3 (values p) 0 in
        let minute := nth 4 (values p) 0 in
        let second := nth 5 (values p) 0 in
        if (year <? 2020) || (2100 <? year) then (true, None)
        else if (month <? 1) || (12 <? month) then (true, None)
        else if (day <? 1) || (31 <? day) then (true, None)
        else if (hour <? 0) || (23 <? hour) then (true, None)
        else if (minute <? 0) || (59 <? minute) then (true, None)
        else if (second <? 0) || (59 <? second) then (true, None)
        else (true, Some (DateTime_of year month day hour minute second)).

(** Decimal numerals, to state what the command parser reads: a numeral is
    a list of digits, most significant first. *)
Definition digit_char (d : Z) : Ascii.ascii := Ascii.ascii_of_N (Z.to_N (48 + d)).

Fixpoint numeral (digits : list Z) : string :=
  match digits with
  | [] => EmptyString
  | d :: digits => String (digit_char d) (numeral digits)
  end.

Definition numeral_value (digits : list Z) : Z :=
  fold_left (fun v d => v * 10 + d) digits 0.

Definition is_numeral (digits : list Z) : Prop :=
  Forall (fun d => 0 <= d <= 9) digits.

(** "TIME,YYYY,MM,DD,HH,MM,SS" *)
Definition time_command (year month day hour minute second : list Z)
  : string :=
  String.append "TIME,"
    (String.append (numeral year) (String comma
      (String.append (numeral month) (String comma
        (String.append (numeral day) (String comma
          (String.append (numeral hour) (String comma
            (String.append (numeral minute) (String comma
              (numeral second))))))))))).

(** *** The settings in EEPROM

    The emulated EEPROM of the ESP32 core is an array of [EEPROM_SIZE]
    bytes; [writeULong], [writeInt], [readULong] and [readInt] copy the four
    bytes of the value, least significant first, and do nothing (read 0)
    when the four bytes do not fit in the array. *)

Definition EEPROM_SIZE : Z := 512.
Definition EEPROM_ADDR_SAVE_INTERVAL : Z := 0.
Definition EEPROM_ADDR_DEBOUNCE_DELAY : Z := 4.
Definition EEPROM_ADDR_MAX_COUNT : Z := 8.
Definition EEPROM_ADDR_STATUS_DURATION : Z := 12.
Definition EEPROM_MAGIC_NUMBER : Z := 171.       (* 0xAB *)
Definition EEPROM_ADDR_MAGIC : Z := 16.

Definition EEPROM_read (e : list Z) (address : Z) : Z :=
  if (address <? 0) || (EEPROM_SIZE <=? address) then 0
  else nth (Z.to_nat address) e 0.

Definition EEPROM_write (e : list Z) (address : Z) (v : Z) : list Z :=
  if (address <? 0) || (EEPROM_SIZE <=? address) then e
  else <[Z.to_nat address := to_uint8 v]> e.

Definition EEPROM_writeULong (e : list Z) (address : Z) (v : Z) : list Z :=
  if (address <? 0) || (EEPROM_SIZE <? address + 4) then e
  else
    let v := to_uint32 v in
    <[Z.to_nat (address + 3) := to_uint8 (Z.shiftr v 24)]>
      (<[Z.to_nat (address + 2) := to_uint8 (Z.shiftr v 16)]>
         (<[Z.to_nat (address + 1) := to_uint8 (Z.shiftr v 8)]>
            (<[Z.to_nat address := to_uint8 v]> e))).

Definition EEPROM_readULong (e : list Z) (address : Z) : Z :=
  if (address <? 0) || (EEPROM_SIZE <? address + 4) then 0
  else
    nth (Z.to_nat address) e 0
    + Z.shiftl (nth (Z.to_nat (address + 1)) e 0) 8
    + Z.shiftl (nth (Z.to_nat (address + 2)) e 0) 16
    + Z.shiftl (nth (Z.to_nat (address + 3)) e 0) 24.

Definition EEPROM_writeInt (e : list Z) (address : Z) (v : Z) : list Z :=
  EEPROM_writeULong e address v.

Definition EEPROM_readInt (e : list Z) (address : Z) : Z :=
  wrap32 (EEPROM_readULong e address).

(** [void saveSettingsToEEPROM()] *)
Definition saveSettingsToEEPROM (params : RuntimeParams) (e : list Z)
  : list Z :=
  let e := EEPROM_writeULong e EEPROM_ADDR_SAVE_INTERVAL
             (saveInterval params) in
  let e := EEPROM_writeULong e EEPROM_ADDR_DEBOUNCE_DELAY
             (debounceDelay params) in
  let e := EEPROM_writeInt e EEPROM_ADDR_MAX_COUNT (maxCount params) in
  let e := EEPROM_writeULong e EEPROM_ADDR_STATUS_DURATION
             (statusDisplayDuration params) in
  EEPROM_write e EEPROM_ADDR_MAGIC EEPROM_MAGIC_NUMBER.

(** [void loadSettingsFromEEPROM()] *)
Definition loadSettingsFromEEPROM (params : RuntimeParams) (e : list Z)
  : RuntimeParams * list Z :=
  let magic := to_uint8 (EEPROM_read e EEPROM_ADDR_MAGIC) in
  if magic =? EEPROM_MAGIC_NUMBER then
    (mkParams (EEPROM_readULong e EEPROM_ADDR_SAVE_INTERVAL)
              (EEPROM_readULong e EEPROM_ADDR_DEBOUNCE_DELAY)
              (EEPROM_readInt e EEPROM_ADDR_MAX_COUNT)
              (EEPROM_readULong e EEPROM_ADDR_STATUS_DURATION), e)
  else (params, saveSettingsToEEPROM params e).

(** [void resetSettingsToDefault()] *)
Definition resetSettingsToDefault (params : RuntimeParams) (e : list Z)
  : RuntimeParams * list Z :=
  (RuntimeParams_default, saveSettingsToEEPROM RuntimeParams_default e).

(** What the fields of a [RuntimeParams] can hold. *)
Definition params_representable (p : RuntimeParams) : Prop :=
  0 <= saveInterval p < 2^32 /\ 0 <= debounceDelay p < 2^32 /\
  INT_MIN <= maxCount p <= INT_MAX /\ 0 <= statusDisplayDuration p < 2^32.

(** Sample values. *)
Definition erased : list Z := replicate (Z.to_nat 512) 255.

(** A machine outside production whose cumulative count has reached
    9990, with 25 items counted in the hour. *)
Definition full_cumulative : World :=
  mkWorld
    (set_cumulativeCount
       (set_currentCount (set_sdAvailable Ram_initial true) 25) 9990)
    (mkSD {[ CUMULATIVE_FILE := [9990] ]} [] true).

End CodeV3More.

(* ================================================================== *)
(** ** More of src/fsm_main_integration.cpp *)
(* ================================================================== *)

Module IntegrationMore.

Import Fsm Managers Integration.

(** The event loop of [loop()],
    [while (fsm.dequeueEvent(event)) processEvent(event, currentState)]:
    every queued event is handled against the state that [loop()] read
    before the loop.  Each event comes with what its handling reads from
    the outside. *)
Definition processEvents (sys : System) (currentState : SystemState)
    (events : list (Event * Inputs)) : System :=
  fold_left (fun sys ei => processEvent sys (fst ei) currentState (snd ei))
            events sys.

(** [void onProductionLatchChanged()] of state_handlers.cpp: the event
    it queues. *)
Definition onProductionLatchChanged (sys : System) : Event :=
  if isSessionActive (production sys) then EVT_PRODUCTION_STOP
  else EVT_PRODUCTION_START.

(** The events of the production button and the counter. *)
Definition is_production_event (event : Event) : bool :=
  match event with
  | EVT_PRODUCTION_START | EVT_PRODUCTION_STOP | EVT_ITEM_COUNTED => true
  | _ => false
  end.

(** Sample values. *)
Definition inputs0 : Inputs := mkInputs 1000 t_start 100000.

Definition system_ready : System :=
  mkSystem ready0 ProductionManager_new TimeManager_new (mkSM true).

Definition system_producing : System :=
  processEvent system_ready EVT_PRODUCTION_START READY inputs0.

End IntegrationMore.

(* ================================================================== *)
(** * Properties *)
(* ================================================================== *)

(** ** Machine integers *)

Lemma wrap32_small z : INT_MIN <= z <= INT_MAX -> wrap32 z = z.
Proof.
  unfold wrap32, INT_MIN, INT_MAX. intros H.
  rewrite Z.mod_small; lia.
Qed.

Lemma to_uint8_small z : 0 <= z < 256 -> to_uint8 z = z.
Proof. intros H. unfold to_uint8. apply Z.mod_small. lia. Qed.

Lemma to_uint16_small z : 0 <= z < 65536 -> to_uint16 z = z.
Proof. intros H. unfold to_uint16. apply Z.mod_small. lia. Qed.

Lemma to_uint32_small z : 0 <= z < 2^32 -> to_uint32 z = z.
Proof. intros H. unfold to_uint32. apply Z.mod_small. lia. Qed.

Lemma repeat_call_snoc {A} (f : A -> A) n a :
  repeat_call f (S n) a = f (repeat_call f n a).
Proof.
  revert a. induction n as [|n IH]; intros a; [reflexivity|].
  change (repeat_call f (S (S n)) a) with (repeat_call f (S n) (f a)).
  rewrite IH. reflexivity.
Qed.

(** ** The event queue and the state machine *)

Module FsmProofs.

Import Fsm.

Lemma same_queue_refl s : same_queue s s.
Proof. repeat split. Qed.

Lemma same_queue_trans s1 s2 s3 :
  same_queue s1 s2 -> same_queue s2 s3 -> same_queue s1 s3.
Proof.
  intros (A & B & C) (D & E & F). repeat split; congruence.
Qed.

Lemma same_queue_views s s' :
  same_queue s s' ->
  (wf s -> wf s') /\ occupied s' = occupied s /\
  pending s' = pending s /\ isFull s' = isFull s /\
  hasQueuedEvents s' = hasQueuedEvents s.
Proof.
  intros (Q & H & T).
  unfold wf, pending, slot, isFull, hasQueuedEvents. unfold occupied.
  rewrite Q, H, T.
  split; [intros W; exact W|]. split; [reflexivity|].
  split; [reflexivity|]. split; reflexivity.
Qed.

Lemma transitionTo_same_queue s target now :
  same_queue s (snd (transitionTo s target now)).
Proof.
  unfold transitionTo.
  destruct (canTransitionTo s target); simpl; [|apply same_queue_refl].
  destruct (currentState s), target; repeat split.
Qed.

Lemma processEvent_same_queue s event now :
  same_queue s (processEvent s event now).
Proof.
  unfold processEvent.
  set (s1 := set_lastEventTime _ _).
  assert (H1 : same_queue s s1) by (repeat split).
  apply (same_queue_trans _ s1); [exact H1|].
  change (currentState s1) with (currentState s).
  destruct (currentState s); cbv beta iota;
    unfold handleEventInInitialization, handleEventInReady,
      handleEventInProduction, handleEventInDiagnostic, handleEventInError;
    destruct event;
    first [ apply same_queue_refl | apply transitionTo_same_queue
          | repeat split ].
Qed.

Lemma checkTimeouts_same_queue s now : same_queue s (checkTimeouts s now).
Proof.
  unfold checkTimeouts.
  destruct (currentState s); try apply same_queue_refl;
    destruct (_ <? _); try apply same_queue_refl;
    apply transitionTo_same_queue.
Qed.

(** *** Index arithmetic *)

Lemma occupied_range s : 0 <= occupied s < 16.
Proof. unfold occupied, EVENT_QUEUE_SIZE. apply Z.mod_pos_bound. lia. Qed.

Lemma length_pending s : length (pending s) = Z.to_nat (occupied s).
Proof. unfold pending. rewrite length_map, length_seq. reflexivity. Qed.

Lemma next_index_small i : to_uint8 ((i + 1) mod 16) = (i + 1) mod 16.
Proof.
  apply to_uint8_small. pose proof (Z.mod_pos_bound (i + 1) 16). lia.
Qed.

Lemma isFull_occupied s : wf s -> isFull s = true <-> occupied s = 15.
Proof.
  intros (Hh & Ht & _). unfold isFull, occupied, EVENT_QUEUE_SIZE in *.
  rewrite next_index_small, Z.eqb_eq.
  split; intros H; Z.div_mod_to_equations; lia.
Qed.

Lemma isFull_false_occupied s : wf s -> isFull s = false <-> occupied s < 15.
Proof.
  intros Hwf. rewrite <- Bool.not_true_iff_false.
  rewrite (isFull_occupied s Hwf).
  pose proof (occupied_range s). lia.
Qed.

Lemma wf_constructed : wf constructed.
Proof.
  unfold wf, constructed, EVENT_QUEUE_SIZE; simpl.
  split; [lia|]. split; [lia|]. reflexivity.
Qed.

(** *** [queueEvent] *)

Lemma queueEvent_full s event : isFull s = true -> queueEvent s event = s.
Proof. unfold isFull, queueEvent. intros ->. reflexivity. Qed.

Lemma queueEvent_wf s event : wf s -> wf (queueEvent s event).
Proof.
  intros (Hh & Ht & Hl). unfold queueEvent.
  destruct (_ =? _); [exact (conj Hh (conj Ht Hl))|].
  unfold wf; simpl. rewrite length_insert.
  unfold EVENT_QUEUE_SIZE in *. rewrite next_index_small.
  pose proof (Z.mod_pos_bound (eventQueueTail s + 1) 16).
  split; [lia|]. split; [lia|]. exact Hl.
Qed.

Lemma queueEvent_not_full s event :
  wf s -> isFull s = false ->
  occupied (queueEvent s event) = occupied s + 1 /\
  pending (queueEvent s event) = pending s ++ [event].
Proof.
  intros Hwf Hnf.
  pose proof (proj1 (isFull_false_occupied s Hwf) Hnf) as Hocc.
  pose proof (occupied_range s) as Hr.
  destruct Hwf as (Hh & Ht & Hl).
  unfold queueEvent. unfold isFull in Hnf. rewrite Hnf.
  assert (Hocc' : (eventQueueTail s + 1 - eventQueueHead s) mod 16
                  = occupied s + 1).
  { unfold occupied, EVENT_QUEUE_SIZE in *.
    Z.div_mod_to_equations; lia. }
  assert (Ho : occupied (set_eventQueueTail
                 (set_eventQueue s (<[Z.to_nat (eventQueueTail s):=event]>
                                      (eventQueue s)))
                 (to_uint8 ((eventQueueTail s + 1) mod EVENT_QUEUE_SIZE)))
               = occupied s + 1).
  { unfold occupied at 1; simpl. unfold EVENT_QUEUE_SIZE.
    rewrite next_index_small, Zminus_mod_idemp_l. exact Hocc'. }
  split; [exact Ho|].
  unfold pending. rewrite Ho.
  replace (Z.to_nat (occupied s + 1)) with (S (Z.to_nat (occupied s))) by lia.
  rewrite seq_S, map_app. simpl. f_equal.
  - apply map_ext_in. intros i Hi. apply in_seq in Hi.
    unfold slot; simpl. rewrite list_lookup_insert_ne; [reflexivity|].
    intros Heq. apply Z2Nat.inj in Heq.
    + unfold occupied, EVENT_QUEUE_SIZE in *.
      assert (Z.of_nat i < (eventQueueTail s - eventQueueHead s) mod 16) by lia.
      Z.div_mod_to_equations; lia.
    + lia.
    + unfold EVENT_QUEUE_SIZE.
      pose proof (Z.mod_pos_bound (eventQueueHead s + Z.of_nat i) 16). lia.
  - unfold slot; simpl.
    replace ((eventQueueHead s + Z.of_nat (Z.to_nat (occupied s)))
               mod EVENT_QUEUE_SIZE) with (eventQueueTail s).
    + rewrite list_lookup_insert_eq; [reflexivity|].
      unfold EVENT_QUEUE_SIZE in *. lia.
    + rewrite Z2Nat.id by lia.
      unfold occupied, EVENT_QUEUE_SIZE in *.
      Z.div_mod_to_equations; lia.
Qed.

(** [queueEvent] in one equation: the event is appended, unless the
    queue is full, and then nothing changes. *)
Lemma pending_queueEvent s event :
  wf s ->
  pending (queueEvent s event)
  = if isFull s then pending s else pending s ++ [event].
Proof.
  intros Hwf. destruct (isFull s) eqn:Hf.
  - rewrite queueEvent_full by assumption. reflexivity.
  - apply queueEvent_not_full; assumption.
Qed.

(** *** One turn of the consumer loop *)

Lemma dequeue_empty s : wf s -> occupied s = 0 -> dequeue s = None.
Proof.
  intros (Hh & Ht & _) Ho. unfold dequeue, hasQueuedEvents.
  assert (eventQueueHead s = eventQueueTail s) as ->.
  { unfold occupied, EVENT_QUEUE_SIZE in *. Z.div_mod_to_equations; lia. }
  rewrite Z.eqb_refl. reflexivity.
Qed.

Lemma dequeue_nonempty s :
  wf s -> 0 < occupied s ->
  exists event s',
    dequeue s = Some (event, s') /\ wf s' /\
    occupied s' = occupied s - 1 /\
    pending s = event :: pending s' /\
    currentState s' = currentState s.
Proof.
  intros (Hh & Ht & Hl) Ho. unfold dequeue, hasQueuedEvents.
  assert (Hne : eventQueueHead s <> eventQueueTail s).
  { intros E. unfold occupied in Ho. rewrite E, Z.sub_diag in Ho.
    rewrite Z.mod_0_l in Ho; unfold EVENT_QUEUE_SIZE; lia. }
  apply Z.eqb_neq in Hne. rewrite Hne. simpl.
  eexists _, _. split; [reflexivity|].
  unfold EVENT_QUEUE_SIZE in *. rewrite next_index_small.
  pose proof (Z.mod_pos_bound (eventQueueHead s + 1) 16).
  assert (Ho' : (eventQueueTail s - (eventQueueHead s + 1) mod 16) mod 16
                = occupied s - 1).
  { rewrite Zminus_mod_idemp_r.
    unfold occupied, EVENT_QUEUE_SIZE in *. Z.div_mod_to_equations; lia. }
  split; [|split; [|split]].
  - unfold wf, EVENT_QUEUE_SIZE; simpl.
    split; [lia|]. split; [lia|]. exact Hl.
  - unfold occupied at 1; simpl. exact Ho'.
  - unfold pending. unfold occupied at 2; simpl.
    unfold EVENT_QUEUE_SIZE. rewrite Ho'.
    replace (Z.to_nat (occupied s)) with (S (Z.to_nat (occupied s - 1))) by lia.
    simpl. f_equal.
    + unfold slot. simpl. unfold EVENT_QUEUE_SIZE.
      rewrite Z.add_0_r, Z.mod_small by lia. reflexivity.
    + rewrite <- seq_shift, map_map. apply map_ext. intros i.
      unfold slot; simpl. unfold EVENT_QUEUE_SIZE.
      rewrite Zplus_mod_idemp_l. do 4 f_equal. lia.
  - reflexivity.
Qed.

(** [dequeue] hands out the oldest pending event and keeps the rest. *)
Lemma dequeue_pending s :
  wf s ->
  match dequeue s with
  | None => pending s = []
  | Some (event, s') => pending s = event :: pending s' /\ wf s'
  end.
Proof.
  intros Hwf. pose proof (occupied_range s) as Hr.
  destruct (Z.eq_dec (occupied s) 0) as [H0|H0].
  - rewrite dequeue_empty by assumption.
    unfold pending. rewrite H0. reflexivity.
  - destruct (dequeue_nonempty s Hwf) as (e & s' & -> & Hwf' & _ & Hp & _);
      [lia|]. split; assumption.
Qed.

(** *** The whole loop and [update()] *)

Lemma drain_total fuel : forall s now,
  wf s -> occupied s <= Z.of_nat fuel ->
  exists s', drain fuel s now = Some s' /\ wf s' /\ pending s' = [].
Proof.
  induction fuel as [|fuel IH]; intros s now Hwf Hocc;
    pose proof (occupied_range s) as Hr.
  - assert (H0 : occupied s = 0) by lia.
    exists s. simpl. rewrite dequeue_empty by assumption.
    split; [reflexivity|]. split; [assumption|].
    unfold pending. rewrite H0. reflexivity.
  - destruct (Z.eq_dec (occupied s) 0) as [H0|H0].
    + exists s. simpl. rewrite dequeue_empty by assumption.
      split; [reflexivity|]. split; [assumption|].
      unfold pending. rewrite H0. reflexivity.
    + destruct (dequeue_nonempty s Hwf) as (e & s1 & Hd & Hwf1 & Ho1 & _);
        [lia|].
      simpl. rewrite Hd.
      destruct (same_queue_views _ _ (processEvent_same_queue s1 e now))
        as (Hw & Ho & _).
      apply IH; [auto | rewrite Ho; lia].
Qed.

Lemma update_total s now :
  wf s -> exists s', update s now = Some s' /\ wf s' /\ pending s' = [].
Proof.
  intros Hwf. unfold update.
  destruct (drain_total (Z.to_nat EVENT_QUEUE_SIZE) s now Hwf)
    as (s1 & -> & Hwf1 & Hp1).
  { pose proof (occupied_range s). unfold EVENT_QUEUE_SIZE. lia. }
  destruct (same_queue_views _ _ (checkTimeouts_same_queue s1 now))
    as (Hw & _ & Hp & _).
  eexists. split; [reflexivity|]. split; [auto|]. rewrite Hp. exact Hp1.
Qed.

(** Each operation on the circular buffer is the corresponding operation
    on a bounded queue that holds fifteen events. *)
Lemma run_op_refines s op :
  wf s ->
  exists s', run_op s op = Some s' /\ wf s' /\
             pending s' = fifo_step 15 (pending s) op.
Proof.
  intros Hwf. destruct op as [event|now|now]; simpl.
  - eexists; split; [reflexivity|].
    split; [apply queueEvent_wf; assumption|].
    rewrite pending_queueEvent by assumption.
    pose proof (occupied_range s) as Hr.
    rewrite length_pending.
    destruct (isFull s) eqn:Hf.
    + apply (isFull_occupied s Hwf) in Hf.
      destruct (Nat.ltb_spec (Z.to_nat (occupied s)) 15); [lia|reflexivity].
    + apply (isFull_false_occupied s Hwf) in Hf.
      destruct (Nat.ltb_spec (Z.to_nat (occupied s)) 15); [reflexivity|lia].
  - pose proof (dequeue_pending s Hwf) as H.
    destruct (dequeue s) as [[e s1]|].
    + destruct H as [Hp Hwf1].
      destruct (same_queue_views _ _ (processEvent_same_queue s1 e now))
        as (Hw & _ & Hq & _).
      eexists; split; [reflexivity|]. split; [auto|].
      rewrite Hq, Hp. reflexivity.
    + eexists; split; [reflexivity|]. split; [assumption|].
      rewrite H. reflexivity.
  - destruct (update_total s now Hwf) as (s' & -> & Hwf' & Hp).
    eexists; split; [reflexivity|]. split; assumption.
Qed.

Lemma run_ops_refines ops : forall s,
  wf s ->
  exists s', run_ops s ops = Some s' /\ wf s' /\
             pending s' = fifo_run 15 (pending s) ops.
Proof.
  induction ops as [|op ops IH]; intros s Hwf; simpl.
  - eexists; split; [reflexivity|]. split; [assumption|reflexivity].
  - destruct (run_op_refines s op Hwf) as (s1 & -> & Hwf1 & Hp1).
    destruct (IH s1 Hwf1) as (s' & Hrun & Hwf' & Hp').
    exists s'. split; [exact Hrun|]. split; [exact Hwf'|].
    rewrite Hp', Hp1. reflexivity.
Qed.

Lemma run_ops_wf ops : forall s,
  wf s -> exists s', run_ops s ops = Some s' /\ wf s'.
Proof.
  intros s Hwf. destruct (run_ops_refines ops s Hwf) as (s' & H & Hwf' & _).
  exists s'. split; assumption.
Qed.

(** Seventeen presses queued in a row: fifteen are kept. *)
Example fill_seventeen :
  length (pending (fill EVT_COUNTER_PRESSED 17)) = 15%nat /\
  isFull (fill EVT_COUNTER_PRESSED 15) = true /\
  isFull (fill EVT_COUNTER_PRESSED 14) = false.
Proof. vm_compute. repeat split. Qed.

(** Events come out in the order they went in, also across the wrap of
    the indices. *)
Example fifo_across_wrap :
  run_ops constructed
    (repeat (OpQueueEvent EVT_COUNTER_PRESSED) 12 ++ [OpUpdate 0] ++
     repeat (OpQueueEvent EVT_HOUR_CHANGED) 5 ++
     [OpQueueEvent EVT_PRODUCTION_STOP])
  ≫= (fun s => Some (eventQueueHead s, eventQueueTail s, pending s))
  = Some (12, 2, repeat EVT_HOUR_CHANGED 5 ++ [EVT_PRODUCTION_STOP]).
Proof. vm_compute. reflexivity. Qed.

Lemma fill_wf event n : wf (fill event n).
Proof.
  unfold fill. induction n as [|n IH].
  - apply wf_constructed.
  - rewrite repeat_call_snoc. apply queueEvent_wf. exact IH.
Qed.

Lemma fill_length event n :
  length (pending (fill event n)) = Nat.min n 15.
Proof.
  induction n as [|n IH]; [reflexivity|].
  unfold fill in *. rewrite repeat_call_snoc.
  set (s := repeat_call _ n constructed) in *.
  assert (Hwf : wf s) by apply fill_wf.
  rewrite pending_queueEvent by exact Hwf.
  rewrite length_pending in IH.
  pose proof (occupied_range s) as Hr.
  destruct (isFull s) eqn:Hf.
  - apply (isFull_occupied s Hwf) in Hf. rewrite length_pending. lia.
  - apply (isFull_false_occupied s Hwf) in Hf.
    rewrite length_app, length_pending. simpl. lia.
Qed.

(** *** Transitions *)

Lemma transitionTo_refused s target now :
  canTransitionTo s target = false -> transitionTo s target now = (false, s).
Proof. unfold transitionTo. intros ->. reflexivity. Qed.

Lemma transitionTo_accepted s target now :
  canTransitionTo s target = true ->
  fst (transitionTo s target now) = true /\
  currentState (snd (transitionTo s target now)) = target /\
  previousState (snd (transitionTo s target now)) = currentState s.
Proof.
  unfold transitionTo. intros ->. simpl.
  destruct (currentState s) eqn:E, target; repeat split; exact E.
Qed.

Lemma transitionTo_result s target now :
  transitionTo s target now
  = (canTransitionTo s target, snd (transitionTo s target now)).
Proof.
  destruct (canTransitionTo s target) eqn:G.
  - destruct (transitionTo_accepted s target now G) as (F & _).
    rewrite <- F. destruct (transitionTo s target now); reflexivity.
  - rewrite transitionTo_refused by exact G. reflexivity.
Qed.

Lemma transitionTo_state s target now :
  currentState (snd (transitionTo s target now))
  = if canTransitionTo s target then target else currentState s.
Proof.
  destruct (canTransitionTo s target) eqn:G.
  - apply transitionTo_accepted; exact G.
  - rewrite transitionTo_refused by exact G. reflexivity.
Qed.

Lemma state_eqb_true a b : state_eqb a b = true <-> a = b.
Proof. unfold state_eqb. apply bool_decide_eq_true. Qed.

(** Whatever the target, a transition that ends in [DIAGNOSTIC] either
    started in [READY] or did not move. *)
Lemma transitionTo_into_diagnostic s target now :
  currentState (snd (transitionTo s target now)) = DIAGNOSTIC ->
  currentState s = READY \/ currentState s = DIAGNOSTIC.
Proof.
  rewrite transitionTo_state.
  destruct (canTransitionTo s target) eqn:G; [|auto].
  intros ->. left. apply state_eqb_true. exact G.
Qed.

Lemma processEvent_into_diagnostic s event now :
  currentState (processEvent s event now) = DIAGNOSTIC ->
  currentState s = READY \/ currentState s = DIAGNOSTIC.
Proof.
  unfold processEvent.
  set (s1 := set_lastEventTime _ _).
  change (currentState s1) with (currentState s).
  destruct (currentState s) eqn:E; cbv beta iota; auto;
    unfold handleEventInInitialization, handleEventInProduction,
      handleEventInError;
    destruct event; try (simpl; congruence);
    intros H; apply transitionTo_into_diagnostic in H;
    change (currentState s1) with (currentState s) in H;
    rewrite E in H; destruct H; discriminate.
Qed.

(** C4 -- Bounded queue with drop-newest overflow.  From a freshly
    constructed [StateManager], after any sequence of [queueEvent] calls,
    turns of the consumer loop and whole [update()] calls, the queue holds
    at most 16 events; a [queueEvent] on a full queue returns the object
    unchanged, so only the incoming event is lost and the queued events
    keep their order, and on a queue that is not full the event goes
    behind the queued ones. *)
Theorem C4_bounded_queue_drop_newest (ops : list QueueOp) :
  exists s,
    run_ops constructed ops = Some s /\
    (length (pending s) <= 16)%nat /\
    forall event,
      (if isFull s then queueEvent s event = s
       else pending (queueEvent s event) = pending s ++ [event]) /\
      match pending s with
      | [] => True
      | oldest :: _ =>
          exists s', dequeue (queueEvent s event) = Some (oldest, s')
      end.
Proof.
  destruct (run_ops_wf ops constructed wf_constructed) as (s & Hrun & Hwf).
  exists s. split; [exact Hrun|]. split.
  - rewrite length_pending. pose proof (occupied_range s). lia.
  - intros event.
    pose proof (pending_queueEvent s event Hwf) as Hp.
    split.
    + destruct (isFull s) eqn:Hf; [|exact Hp].
      apply queueEvent_full; exact Hf.
    + destruct (pending s) as [|oldest rest] eqn:Hs; [exact I|].
      pose proof (dequeue_pending _ (queueEvent_wf s event Hwf)) as Hd.
      destruct (dequeue (queueEvent s event)) as [[first s']|].
      * destruct Hd as [Hd _]. rewrite Hd in Hp.
        exists s'. destruct (isFull s); inversion Hp; reflexivity.
      * rewrite Hd in Hp. destruct (isFull s); discriminate.
Qed.

(** C10 -- The circular buffer stores at most [EVENT_QUEUE_SIZE - 1] = 15
    events.  From a freshly constructed [StateManager], any sequence of
    [queueEvent] calls, consumer-loop turns and [update()] calls leaves
    queued exactly what a drop-newest queue of capacity 15 holds after the
    same operations, so at most 15 events; [queueEvent] is rejected
    (object unchanged) exactly when 15 events are queued and otherwise
    appends; and filling an empty queue with [n] events leaves [min n 15]
    of them queued, so the bound is reached and the sixteenth event is the
    first one lost. *)
Theorem C10_queue_holds_fifteen (ops : list QueueOp) :
  exists s,
    run_ops constructed ops = Some s /\
    pending s = fifo_run 15 [] ops /\
    (length (pending s) <= Z.to_nat (EVENT_QUEUE_SIZE - 1))%nat /\
    (forall event,
       if (length (pending s) =? 15)%nat
       then queueEvent s event = s
       else pending (queueEvent s event) = pending s ++ [event]) /\
    (forall event n, length (pending (fill event n)) = Nat.min n 15).
Proof.
  destruct (run_ops_refines ops constructed wf_constructed)
    as (s & Hrun & Hwf & Href).
  exists s. split; [exact Hrun|]. split; [exact Href|].
  pose proof (occupied_range s) as Hr.
  pose proof (length_pending s) as Hl.
  split; [unfold EVENT_QUEUE_SIZE; lia|]. split.
  - intros event. destruct (Nat.eqb_spec (length (pending s)) 15) as [E|E].
    + apply queueEvent_full. apply (isFull_occupied s Hwf). lia.
    + apply queueEvent_not_full; [exact Hwf|].
      apply (isFull_false_occupied s Hwf). lia.
  - apply fill_length.
Qed.

(** C6 -- Guard law.  When [transitionTo(PRODUCTION)] has succeeded, the
    state is [PRODUCTION], and a second [transitionTo(PRODUCTION)] issued
    right after it returns [false] and leaves the object, hence the
    current state, unchanged. *)
Theorem C6_guard_law (s s' : StateManager) (now now' : Z) :
  transitionTo s PRODUCTION now = (true, s') ->
  currentState s' = PRODUCTION /\
  transitionTo s' PRODUCTION now' = (false, s').
Proof.
  intros H. rewrite transitionTo_result in H. injection H as G E.
  assert (Hs : currentState s' = PRODUCTION).
  { rewrite <- E, transitionTo_state.
    change (canTransitionTo s PRODUCTION) with (canStartProduction s).
    rewrite G. reflexivity. }
  split; [exact Hs|].
  apply transitionTo_refused.
  change (canStartProduction s' = false). unfold canStartProduction.
  rewrite Hs. reflexivity.
Qed.

Lemma C6_guard_law_witness :
  currentState (snd (transitionTo ready0 PRODUCTION 10)) = PRODUCTION /\
  transitionTo (snd (transitionTo ready0 PRODUCTION 10)) PRODUCTION 20
    = (false, snd (transitionTo ready0 PRODUCTION 10)).
Proof.
  apply (C6_guard_law ready0 _ 10 20). reflexivity.
Defined.

(** C7 -- No direct Production-Diagnostic edge.  In every state with
    current state [PRODUCTION], [transitionTo(DIAGNOSTIC)] returns [false]
    and changes nothing, and a diagnostic request processed by
    [StateManager::processEvent] while in [PRODUCTION] leaves the state
    [PRODUCTION]; and whenever a transition request or a processed event
    ends in [DIAGNOSTIC], the state before it was [READY] (or already
    [DIAGNOSTIC]). *)
Theorem C7_no_production_diagnostic_edge :
  (forall s now,
     currentState s = PRODUCTION ->
     transitionTo s DIAGNOSTIC now = (false, s) /\
     currentState (processEvent s EVT_DIAGNOSTIC_REQUEST now) = PRODUCTION) /\
  (forall s target now,
     currentState (snd (transitionTo s target now)) = DIAGNOSTIC ->
     currentState s = READY \/ currentState s = DIAGNOSTIC) /\
  (forall s event now,
     currentState (processEvent s event now) = DIAGNOSTIC ->
     currentState s = READY \/ currentState s = DIAGNOSTIC).
Proof.
  split; [|split].
  - intros s now E. split.
    + apply transitionTo_refused.
      change (canEnterDiagnostic s = false). unfold canEnterDiagnostic.
      rewrite E. reflexivity.
    + unfold processEvent. set (s1 := set_lastEventTime _ _).
      change (currentState s1) with (currentState s). rewrite E.
      exact E.
  - apply transitionTo_into_diagnostic.
  - apply processEvent_into_diagnostic.
Qed.

Lemma C7_no_production_diagnostic_edge_witness :
  transitionTo producing0 DIAGNOSTIC 20 = (false, producing0) /\
  currentState (processEvent producing0 EVT_DIAGNOSTIC_REQUEST 20) = PRODUCTION.
Proof.
  apply (proj1 C7_no_production_diagnostic_edge producing0 20). reflexivity.
Defined.

End FsmProofs.

(** ** Production session and hour tracking (managers.cpp) *)

Module ManagersProofs.

Import Managers.

(** *** [incrementCount] *)

Lemma incrementCount_inactive pm :
  sessionActive pm = false -> incrementCount pm = pm.
Proof. unfold incrementCount. intros ->. reflexivity. Qed.

Lemma incrementCount_active pm :
  sessionActive pm = true -> 0 <= sessionCount pm <= 9999 ->
  sessionActive (incrementCount pm) = true /\
  sessionCount (incrementCount pm) = Z.min 9999 (sessionCount pm + 1) /\
  totalSessionCount (incrementCount pm) = totalSessionCount pm.
Proof.
  intros Ha Hr. unfold incrementCount. rewrite Ha. simpl.
  destruct (Z.ltb_spec (sessionCount pm) 9999) as [Hlt|Hge]; simpl.
  - rewrite wrap32_small by (unfold INT_MIN, INT_MAX; lia).
    repeat split; lia.
  - repeat split; [exact Ha | lia].
Qed.

Lemma repeat_incrementCount_inactive n : forall pm,
  sessionActive pm = false -> repeat_call incrementCount n pm = pm.
Proof.
  induction n as [|n IH]; intros pm Ha; [reflexivity|].
  simpl. rewrite (incrementCount_inactive pm Ha). apply IH. exact Ha.
Qed.

Lemma repeat_incrementCount_active n : forall pm,
  sessionActive pm = true -> 0 <= sessionCount pm <= 9999 ->
  sessionCount (repeat_call incrementCount n pm)
  = Z.min 9999 (sessionCount pm + Z.of_nat n).
Proof.
  induction n as [|n IH]; intros pm Ha Hr.
  - simpl. lia.
  - simpl repeat_call.
    destruct (incrementCount_active pm Ha Hr) as (Ha' & Hc' & _).
    rewrite IH; [|exact Ha'|lia]. rewrite Hc'. lia.
Qed.

(** C5 -- Clamp law at the limit 9999.  [incrementCount] does nothing while no
    session is active; on an active session whose count is between 0 and
    9999, [n] calls leave the count at [min 9999 (count + n)]: it
    saturates at the constant 9999 and never wraps.  The limit is the
    literal 9999 of [incrementCount]; no configured value enters. *)
Theorem C5_clamp_law (pm : ProductionManager) (n : nat) :
  0 <= sessionCount pm <= 9999 ->
  if sessionActive pm
  then sessionCount (repeat_call incrementCount n pm)
       = Z.min 9999 (sessionCount pm + Z.of_nat n)
  else repeat_call incrementCount n pm = pm.
Proof.
  intros Hr. destruct (sessionActive pm) eqn:Ha.
  - apply repeat_incrementCount_active; assumption.
  - apply repeat_incrementCount_inactive; assumption.
Qed.

Lemma C5_clamp_law_witness :
  sessionCount
    (repeat_call incrementCount (Z.to_nat (9999 + 50))
       (snd (startSession ProductionManager_new t_start)))
  = Z.min 9999 (0 + Z.of_nat (Z.to_nat (9999 + 50))).
Proof.
  apply (C5_clamp_law (snd (startSession ProductionManager_new t_start))
                      (Z.to_nat (9999 + 50))).
  simpl. lia.
Defined.

(** C5, counterexample -- with [max_count] configured to 5000, a value
    [ConfigManager::setMaxCount] accepts, [max_count + 50] increments of a
    fresh session end at 5050, above [max_count]. *)
Lemma C5_counterexample :
  let settings := setMaxCount ConfigManager_new 5000 in
  let pm := snd (startSession ProductionManager_new t_start) in
  getMaxCount settings = 5000 /\
  sessionCount
    (repeat_call incrementCount (Z.to_nat (getMaxCount settings + 50)) pm)
  = 5050 /\
  sessionCount
    (repeat_call incrementCount (Z.to_nat (getMaxCount settings + 50)) pm)
  <> getMaxCount settings.
Proof. vm_compute. repeat split; discriminate. Qed.

(** *** [stopSession] *)

(** C3 -- Stopping a session.  [stopSession] on an active session returns [true],
    records the stop time, adds the session count to the total (no
    overflow assumed), clears [sessionActive] and leaves the session count
    as it is; the next successful [startSession] is what sets it to 0.  On
    an inactive session [stopSession] returns [false] and changes
    nothing. *)
Theorem C3_stop_session (pm : ProductionManager) (now next : DateTime) :
  INT_MIN <= totalSessionCount pm + sessionCount pm <= INT_MAX ->
  if sessionActive pm then
    let pm' := snd (stopSession pm now) in
    fst (stopSession pm now) = true /\
    sessionActive pm' = false /\
    sessionStopTime pm' = now /\
    totalSessionCount pm' = totalSessionCount pm + sessionCount pm /\
    sessionCount pm' = sessionCount pm /\
    sessionStartTime pm' = sessionStartTime pm /\
    fst (startSession pm' next) = true /\
    sessionCount (snd (startSession pm' next)) = 0
  else stopSession pm now = (false, pm).
Proof.
  intros Hr. unfold stopSession.
  destruct (sessionActive pm) eqn:Ha; simpl; [|reflexivity].
  rewrite wrap32_small by exact Hr. repeat split.
Qed.

Lemma C3_stop_session_witness :
  let pm' := snd (stopSession one_item t_stop) in
  fst (stopSession one_item t_stop) = true /\
  sessionActive pm' = false /\
  sessionStopTime pm' = t_stop /\
  totalSessionCount pm' = totalSessionCount one_item + sessionCount one_item /\
  sessionCount pm' = sessionCount one_item /\
  sessionStartTime pm' = sessionStartTime one_item /\
  fst (startSession pm' t_stop) = true /\
  sessionCount (snd (startSession pm' t_stop)) = 0.
Proof.
  apply (C3_stop_session one_item t_stop t_stop).
  vm_compute. split; discriminate.
Defined.

(** C3, counterexample -- after start, one increment and stop, the
    session count is still 1, not 0. *)
Lemma C3_counterexample :
  sessionActive one_item = true /\
  fst (stopSession one_item t_stop) = true /\
  sessionCount (snd (stopSession one_item t_stop)) = 1 /\
  sessionCount (snd (stopSession one_item t_stop)) <> 0.
Proof. vm_compute. repeat split; discriminate. Qed.

(** *** Hour tracking *)

Lemma hasHourChanged_after_handle tm now now' :
  hasHourChanged (handleHourChange tm now) now'
  = negb (dt_hour now' =? dt_hour now).
Proof.
  unfold hasHourChanged, handleHourChange.
  destruct (Z.eqb_spec (dt_hour now) (lastTrackedHour tm)) as [E|E]; simpl.
  - rewrite E. reflexivity.
  - reflexivity.
Qed.

Lemma poll_same_hour reads : forall tm h,
  lastTrackedHour tm = h ->
  Forall (fun now => dt_hour now = h) reads ->
  poll tm reads = map (fun _ => false) reads.
Proof.
  induction reads as [|now reads IH]; intros tm h Hl Hall; [reflexivity|].
  apply Forall_cons in Hall. destruct Hall as [Hh Hrest].
  simpl. unfold checkHourBoundary, hasHourChanged.
  rewrite Hl, Hh, Z.eqb_refl. simpl. f_equal.
  apply (IH tm h); assumption.
Qed.

(** C8 -- Hour boundary.  [hasHourChanged] is a pure comparison with the
    last tracked hour: two calls at the same clock value give the same
    answer.  It is [handleHourChange] that records the hour: after it,
    [hasHourChanged] is [false] for every time with that hour, so the
    check-then-handle step of the state handlers fires at a new hour and
    not again at any later read of the same hour. *)
Theorem C8_hour_boundary (tm : TimeManager) (now now' : DateTime)
    (later : list DateTime) :
  dt_hour now' = dt_hour now ->
  Forall (fun t => dt_hour t = dt_hour now) later ->
  hasHourChanged_twice tm now now'
    = (hasHourChanged tm now, hasHourChanged tm now) /\
  hasHourChanged (handleHourChange tm now) now' = false /\
  fst (checkHourBoundary tm now) = hasHourChanged tm now /\
  fst (checkHourBoundary (snd (checkHourBoundary tm now)) now') = false /\
  poll tm (now :: later)
    = hasHourChanged tm now :: map (fun _ => false) later.
Proof.
  intros Hsame Hlater.
  assert (Hafter : lastTrackedHour (snd (checkHourBoundary tm now)) = dt_hour now).
  { unfold checkHourBoundary, hasHourChanged, handleHourChange.
    destruct (Z.eqb_spec (dt_hour now) (lastTrackedHour tm)) as [E|E];
      simpl; congruence. }
  split.
  { unfold hasHourChanged_twice, hasHourChanged. rewrite Hsame. reflexivity. }
  split.
  { rewrite hasHourChanged_after_handle, Hsame, Z.eqb_refl. reflexivity. }
  split.
  { unfold checkHourBoundary. destruct (hasHourChanged tm now); reflexivity. }
  split.
  { unfold checkHourBoundary at 1. unfold hasHourChanged at 1.
    rewrite Hafter, Hsame, Z.eqb_refl. reflexivity. }
  simpl. destruct (checkHourBoundary tm now) as [fired tm1] eqn:Hc.
  assert (Hf : fired = hasHourChanged tm now).
  { unfold checkHourBoundary in Hc.
    destruct (hasHourChanged tm now); inversion Hc; reflexivity. }
  rewrite Hf. f_equal.
  apply (poll_same_hour later tm1 (dt_hour now)); [exact Hafter|exact Hlater].
Qed.

Lemma C8_hour_boundary_witness :
  hasHourChanged_twice TimeManager_new t_stop t_later
    = (hasHourChanged TimeManager_new t_stop,
       hasHourChanged TimeManager_new t_stop) /\
  hasHourChanged (handleHourChange TimeManager_new t_stop) t_later = false /\
  fst (checkHourBoundary TimeManager_new t_stop)
    = hasHourChanged TimeManager_new t_stop /\
  fst (checkHourBoundary (snd (checkHourBoundary TimeManager_new t_stop))
         t_later) = false /\
  poll TimeManager_new (t_stop :: [t_later; t_later])
    = hasHourChanged TimeManager_new t_stop
      :: map (fun _ => false) [t_later; t_later].
Proof.
  apply (C8_hour_boundary TimeManager_new t_stop t_later [t_later; t_later]).
  - reflexivity.
  - repeat constructor.
Defined.

(** C8, counterexample -- on a fresh [TimeManager], two consecutive calls
    of [hasHourChanged] within the hour of ten o'clock both return
    [true]. *)
Lemma C8_counterexample :
  dt_hour t_later = dt_hour t_stop /\
  hasHourChanged_twice TimeManager_new t_stop t_later = (true, true) /\
  hasHourChanged_twice TimeManager_new t_stop t_later <> (true, false).
Proof. vm_compute. repeat split; discriminate. Qed.

End ManagersProofs.

(** ** Recovery file and hour roll-over (code_v3.cpp) *)

Module CodeV3Proofs.

Import CodeV3.

(** *** The state files do not interfere with the recovery file *)

Lemma writeCountToFile_other sd name count other :
  name <> other ->
  files (writeCountToFile sd name count) !! other = files sd !! other /\
  openOk (writeCountToFile sd name count) = openOk sd.
Proof.
  intros Hne. unfold writeCountToFile.
  destruct ((count <? 0) || (MAX_COUNT <? count)); [split; reflexivity|].
  unfold SD_exists, SD_remove, SD_put.
  destruct (files sd !! name) eqn:E; simpl;
    destruct (openOk sd) eqn:Ok; simpl;
    rewrite ?lookup_insert_ne, ?lookup_delete_ne by exact Hne;
    split; congruence.
Qed.

Lemma initializeFiles_state_file sd :
  files (initializeFiles sd) !! PRODUCTION_STATE_FILE
    = files sd !! PRODUCTION_STATE_FILE /\
  openOk (initializeFiles sd) = openOk sd.
Proof.
  unfold initializeFiles.
  repeat match goal with
         | |- context [if ?b then _ else _] => destruct b
         end;
    repeat match goal with
           | |- context [writeCountToFile ?x ?n ?c] =>
               let H := fresh in
               destruct (writeCountToFile_other x n c PRODUCTION_STATE_FILE)
                 as [H ?]; [discriminate|];
               rewrite H; clear H
           end;
    split; congruence.
Qed.

Lemma setup_loadCounts_keeps w :
  let w' := setup_loadCounts w in
  sdAvailable (ram w') = sdAvailable (ram w) /\
  rtcAvailable (ram w') = rtcAvailable (ram w) /\
  productionActive (ram w') = productionActive (ram w) /\
  files (card w') !! PRODUCTION_STATE_FILE
    = files (card w) !! PRODUCTION_STATE_FILE /\
  openOk (card w') = openOk (card w).
Proof.
  unfold setup_loadCounts. destruct (sdAvailable (ram w)) eqn:E; simpl.
  - destruct (initializeFiles_state_file (card w)) as [Hf Ho].
    rewrite E. repeat split; assumption.
  - rewrite E. repeat split.
Qed.

Lemma setup_latch_keeps w latch rtcNow :
  let w' := setup_latch w latch rtcNow in
  sdAvailable (ram w') = sdAvailable (ram w) /\
  rtcAvailable (ram w') = rtcAvailable (ram w) /\
  productionActive (ram w') = latch /\
  files (card w') !! PRODUCTION_STATE_FILE
    = files (card w) !! PRODUCTION_STATE_FILE /\
  openOk (card w') = openOk (card w).
Proof.
  unfold setup_latch. destruct latch; simpl; [repeat split|].
  destruct (sdAvailable (ram w)); [|repeat split].
  destruct (writeCountToFile_other (card w) COUNT_FILE 0 PRODUCTION_STATE_FILE)
    as [Hf Ho]; [discriminate|].
  repeat split; assumption.
Qed.

(** *** [restoreProductionState] *)

Lemma restore_no_file w :
  files (card w) !! PRODUCTION_STATE_FILE = None ->
  restoreProductionState w = w.
Proof.
  intros H. unfold restoreProductionState. rewrite H.
  destruct (negb (sdAvailable (ram w))); reflexivity.
Qed.

Lemma restore_rejected w content :
  files (card w) !! PRODUCTION_STATE_FILE = Some content ->
  snapshotValid (parseInt content 2) (parseInt content 3) (parseInt content 4)
                (parseInt content 5) (parseInt content 6) (parseInt content 7)
    = false ->
  restoreProductionState w = w.
Proof.
  intros H V. unfold restoreProductionState. rewrite H, V.
  destruct (negb (sdAvailable (ram w))); [reflexivity|].
  destruct (negb (openOk (card w))); reflexivity.
Qed.

Lemma restore_accepted w content :
  sdAvailable (ram w) = true ->
  openOk (card w) = true ->
  files (card w) !! PRODUCTION_STATE_FILE = Some content ->
  snapshotValid (parseInt content 2) (parseInt content 3) (parseInt content 4)
                (parseInt content 5) (parseInt content 6) (parseInt content 7)
    = true ->
  let w' := restoreProductionState w in
  productionActive (ram w') = true /\
  currentCount (ram w') = parseInt content 0 /\
  productionStartCount (ram w') = parseInt content 1 /\
  productionCount (ram w') = wrap32 (parseInt content 0 - parseInt content 1) /\
  productionStartTime (ram w')
    = DateTime_of (parseInt content 2) (parseInt content 3) (parseInt content 4)
        (parseInt content 5) (parseInt content 6) (parseInt content 7) /\
  rtcAvailable (ram w') = rtcAvailable (ram w) /\
  card w' = card w.
Proof.
  intros Hsd Hok H V. unfold restoreProductionState.
  rewrite Hsd, Hok, H, V. simpl. repeat split.
Qed.

(** The test of the code against the fields, spelt out. *)
Lemma snapshotValid_true year month day hour minute second :
  snapshotValid year month day hour minute second = true <->
  2020 <= year <= 2100 /\ 1 <= month <= 12 /\ 1 <= day <= 31 /\
  hour <= 23 /\ minute <= 59 /\ second <= 59.
Proof.
  unfold snapshotValid. rewrite !andb_true_iff, !Z.leb_le. tauto.
Qed.

Lemma snapshotValid_false year month day hour minute second :
  snapshotValid year month day hour minute second = false <->
  year < 2020 \/ 2100 < year \/ month < 1 \/ 12 < month \/ day < 1 \/
  31 < day \/ 23 < hour \/ 59 < minute \/ 59 < second.
Proof.
  rewrite <- not_true_iff_false, snapshotValid_true. lia.
Qed.

Lemma spec_snapshot_in_range_true year month day hour minute second :
  spec_snapshot_in_range year month day hour minute second = true <->
  2020 <= year /\ 1 <= month <= 12 /\ 1 <= day <= 31 /\
  0 <= hour <= 23 /\ 0 <= minute <= 59 /\ 0 <= second <= 59.
Proof.
  unfold spec_snapshot_in_range. rewrite !andb_true_iff, !Z.leb_le. tauto.
Qed.

(** A date in range goes through [DateTime(...)] and the accessors
    unchanged. *)
Lemma DateTime_of_fields year month day hour minute second :
  2000 <= year <= 2255 -> 0 <= month < 256 -> 0 <= day < 256 ->
  0 <= hour < 256 -> 0 <= minute < 256 -> 0 <= second < 256 ->
  let t := DateTime_of year month day hour minute second in
  t = mkDT (year - 2000) month day hour minute second /\
  dt_year t = year /\ dt_month t = month /\ dt_day t = day /\
  dt_hour t = hour /\ dt_minute t = minute /\ dt_second t = second.
Proof.
  intros Hy Hm Hd Hh Hmi Hs. unfold DateTime_of.
  rewrite (to_uint16_small year) by lia.
  destruct (Z.leb_spec 2000 year) as [_|]; [|lia].
  rewrite (to_uint16_small (year - 2000)) by lia.
  rewrite !to_uint8_small by lia.
  unfold dt_year, dt_month, dt_day, dt_hour, dt_minute, dt_second; simpl.
  rewrite to_uint16_small by lia.
  repeat split; lia.
Qed.


(** *** Boot *)

Lemma setup_state_restore w latch rtcNow :
  let w2 := setup_latch (setup_loadCounts w) latch rtcNow in
  let w3 := restoreProductionState w2 in
  let w' := setup_state w latch rtcNow in
  sdAvailable (ram w2) = sdAvailable (ram w) /\
  productionActive (ram w2) = latch /\
  files (card w2) !! PRODUCTION_STATE_FILE
    = files (card w) !! PRODUCTION_STATE_FILE /\
  openOk (card w2) = openOk (card w) /\
  productionActive (ram w') = productionActive (ram w3) /\
  currentCount (ram w') = currentCount (ram w3) /\
  productionStartCount (ram w') = productionStartCount (ram w3) /\
  productionCount (ram w') = productionCount (ram w3) /\
  productionStartTime (ram w') = productionStartTime (ram w3) /\
  card w' = card w3.
Proof.
  destruct (setup_loadCounts_keeps w) as (A1 & A2 & A3 & A4 & A5).
  destruct (setup_latch_keeps (setup_loadCounts w) latch rtcNow)
    as (B1 & B2 & B3 & B4 & B5).
  cbv zeta. split; [congruence|]. split; [exact B3|].
  split; [congruence|]. split; [congruence|].
  unfold setup_state. simpl. repeat split.
Qed.

Lemma setup_latch_fields sd rtcOk latch params rtcNow :
  let w2 := setup_latch (setup_loadCounts (power_on sd true rtcOk params))
              latch rtcNow in
  currentCount (ram w2)
    = (if latch then readCountFromFile (initializeFiles sd) COUNT_FILE
       else 0) /\
  productionStartCount (ram w2) = 0 /\
  productionCount (ram w2) = 0 /\
  productionStartTime (ram w2)
    = (if latch
       then if rtcOk then rtcNow else DateTime_of 2025 11 12 0 0 0
       else DateTime_default).
Proof. destruct latch; repeat split. Qed.

(** C2 -- Recovery validation at boot, SD card available and
    readable.  With a recovery file whose fields satisfy
    2020 <= year <= 2100, month 1-12, day 1-31, hour 0-23, minute and
    second 0-59, the session is restored: active, current count and start
    count from the file, start time equal to the saved date.  With no
    recovery file, or with one whose year is outside 2020-2100, or month
    or day out of range, or hour > 23, minute > 59 or second > 59,
    nothing is restored.  The session then is as the latch read of the
    boot left it: active exactly when the latch is pressed, start count
    and session count 0, the current count 0 with the latch released and
    the count read from /count.txt with the latch pressed, the start time
    the clock reading of the boot with the latch pressed (2025-11-12
    without a clock) and the default date with the latch released; a
    rejected file stays on the card. *)
Theorem C2_recovery_validation (sd : SDCard) (rtcOk latch : bool)
    (params : RuntimeParams) (rtcNow : DateTime)
    (snapshot : option (list Z)) :
  openOk sd = true ->
  files sd !! PRODUCTION_STATE_FILE = snapshot ->
  let w' := setup_state (power_on sd true rtcOk params) latch rtcNow in
  let not_restored :=
    productionActive (ram w') = latch /\
    currentCount (ram w')
      = (if latch then readCountFromFile (initializeFiles sd) COUNT_FILE
         else 0) /\
    productionStartCount (ram w') = 0 /\
    productionCount (ram w') = 0 /\
    productionStartTime (ram w')
      = (if latch
         then if rtcOk then rtcNow else DateTime_of 2025 11 12 0 0 0
         else DateTime_default) /\
    files (card w') !! PRODUCTION_STATE_FILE = snapshot in
  match snapshot with
  | None => not_restored
  | Some content =>
      let year := parseInt content 2 in
      let month := parseInt content 3 in
      let day := parseInt content 4 in
      let hour := parseInt content 5 in
      let minute := parseInt content 6 in
      let second := parseInt content 7 in
      (spec_snapshot_in_range year month day hour minute second = true ->
       year <= 2100 ->
       productionActive (ram w') = true /\
       currentCount (ram w') = parseInt content 0 /\
       productionStartCount (ram w') = parseInt content 1 /\
       sessionCount w' = wrap32 (parseInt content 0 - parseInt content 1) /\
       productionCount (ram w') = sessionCount w' /\
       productionStartTime (ram w')
         = mkDT (year - 2000) month day hour minute second /\
       dt_year (productionStartTime (ram w')) = year /\
       dt_hour (productionStartTime (ram w')) = hour) /\
      (year < 2020 \/ 2100 < year \/ month < 1 \/ 12 < month \/ day < 1 \/
       31 < day \/ 23 < hour \/ 59 < minute \/ 59 < second ->
       not_restored)
  end.
Proof.
  intros Hok Hfile.
  set (w0 := power_on sd true rtcOk params).
  destruct (setup_state_restore w0 latch rtcNow)
    as (Hsd & Hact & Hf & Ho & E1 & E2 & E3 & E4 & E5 & E6).
  destruct (setup_latch_fields sd rtcOk latch params rtcNow)
    as (L1 & L2 & L3 & L4).
  fold w0 in L1, L2, L3, L4.
  set (w2 := setup_latch (setup_loadCounts w0) latch rtcNow) in *.
  change (sdAvailable (ram w0)) with true in Hsd.
  change (card w0) with sd in Hf, Ho.
  rewrite Hfile in Hf. rewrite Hok in Ho.
  assert (Hclean : restoreProductionState w2 = w2 ->
            productionActive (ram (setup_state w0 latch rtcNow)) = latch /\
            currentCount (ram (setup_state w0 latch rtcNow))
              = (if latch
                 then readCountFromFile (initializeFiles sd) COUNT_FILE
                 else 0) /\
            productionStartCount (ram (setup_state w0 latch rtcNow)) = 0 /\
            productionCount (ram (setup_state w0 latch rtcNow)) = 0 /\
            productionStartTime (ram (setup_state w0 latch rtcNow))
              = (if latch
                 then if rtcOk then rtcNow else DateTime_of 2025 11 12 0 0 0
                 else DateTime_default) /\
            files (card (setup_state w0 latch rtcNow)) !! PRODUCTION_STATE_FILE
              = snapshot).
  { intros Hw. rewrite E1, E2, E3, E4, E5, E6, Hw.
    split; [exact Hact|]. split; [exact L1|]. split; [exact L2|].
    split; [exact L3|]. split; [exact L4|exact Hf]. }
  cbv zeta. destruct snapshot as [content|].
  - split.
    + intros Hin Hy. apply spec_snapshot_in_range_true in Hin.
      destruct Hin as (Y & M & D & H & MI & S).
      assert (V : snapshotValid (parseInt content 2) (parseInt content 3)
                    (parseInt content 4) (parseInt content 5)
                    (parseInt content 6) (parseInt content 7) = true).
      { apply snapshotValid_true. lia. }
      destruct (restore_accepted w2 content Hsd Ho Hf V)
        as (R1 & R2 & R3 & R4 & R5 & _ & _).
      destruct (DateTime_of_fields (parseInt content 2) (parseInt content 3)
                  (parseInt content 4) (parseInt content 5)
                  (parseInt content 6) (parseInt content 7))
        as (F0 & F1 & _ & _ & F4 & _); try lia.
      unfold sessionCount. rewrite E1, E2, E3, E4, E5, R1, R2, R3, R4, R5.
      rewrite F0 at 1. rewrite F1, F4. repeat split.
    + intros Hrej. apply snapshotValid_false in Hrej.
      apply Hclean. exact (restore_rejected w2 content Hf Hrej).
  - apply Hclean. exact (restore_no_file w2 Hf).
Qed.

Lemma C2_recovery_validation_witness :
  let w' := setup_state
              (power_on (card_with snapshot_month13) true true
                        RuntimeParams_default) false noon in
  productionActive (ram w') = false /\
  currentCount (ram w') = 0 /\
  productionStartCount (ram w') = 0 /\
  productionCount (ram w') = 0 /\
  productionStartTime (ram w') = DateTime_default /\
  files (card w') !! PRODUCTION_STATE_FILE = Some snapshot_month13.
Proof.
  pose proof (C2_recovery_validation (card_with snapshot_month13) true false
                RuntimeParams_default noon (Some snapshot_month13)
                eq_refl eq_refl) as H.
  apply (proj2 H). right; right; right; left. vm_compute. reflexivity.
Defined.

(** C2, counterexample -- (1) a recovery file with all fields in the
    ranges of the specification (year 2101) is not restored: the session is
    inactive after boot; (2) a rejected recovery file ([month = 13]) with
    the latch pressed at boot leaves the session active. *)
Lemma C2_counterexample :
  (spec_snapshot_in_range 2101 11 30 10 15 0 = true /\
   productionActive
     (ram (setup_state
             (power_on (card_with snapshot_2101) true true
                       RuntimeParams_default) false noon)) = false) /\
  (spec_snapshot_in_range 2025 13 30 10 15 0 = false /\
   productionActive
     (ram (setup_state
             (power_on (card_with snapshot_month13) true true
                       RuntimeParams_default) true noon)) = true).
Proof. vm_compute. repeat split. Qed.

(** *** Counting, saving and rebooting *)








(** *** Hour roll-over *)

Lemma handleHourChange_active w now :
  productionActive (ram w) = true -> handleHourChange w now = w.
Proof. intros H. unfold handleHourChange. rewrite H. reflexivity. Qed.

Lemma handleHourChange_inactive w now :
  productionActive (ram w) = false ->
  INT_MIN <= cumulativeCount (ram w) + currentCount (ram w) <= INT_MAX ->
  let w' := handleHourChange w now in
  currentCount (ram w') = 0 /\
  hourlyCount (ram w') = currentCount (ram w) /\
  cumulativeCount (ram w') = cumulativeCount (ram w) + currentCount (ram w) /\
  productionActive (ram w') = false.
Proof.
  intros H Hr. unfold handleHourChange. rewrite H. simpl.
  rewrite wrap32_small by exact Hr.
  destruct (sdAvailable (ram w)); simpl; repeat split; exact H.
Qed.

(** C9 -- Hour change during production.  An hour change handled while a
    session is active changes nothing at all: the transient count is
    kept (the reset is suppressed), and the cumulative total, in memory
    and on the card, is not updated either. *)
Theorem C9_hour_change_during_production :
  productionActive (ram mid_session) = true /\
  currentCount (ram mid_session) = 3 /\
  cumulativeCount (ram mid_session) = 10 /\
  handleHourChange mid_session one_pm = mid_session /\
  cumulativeCount (ram (handleHourChange mid_session one_pm)) = 10 /\
  files (card (handleHourChange mid_session one_pm)) !! CUMULATIVE_FILE
    = Some [10].
Proof. vm_compute. repeat split. Qed.

End CodeV3Proofs.

(** ** More on the state machine (state_manager.cpp) *)

Module FsmExtra.

Import Fsm FsmCalls FsmProofs.

(** *** The loop of [update()] dispatches the queued events in order *)

Lemma processEvent_set_head s h event now :
  processEvent (set_eventQueueHead s h) event now
  = set_eventQueueHead (processEvent s event now) h.
Proof.
  destruct s as [cur prev sub tsub q hd tl sct let_ ec tc].
  destruct cur; destruct event; reflexivity.
Qed.

Lemma dispatch_set_head events : forall s h now,
  dispatch (set_eventQueueHead s h) events now
  = set_eventQueueHead (dispatch s events now) h.
Proof.
  induction events as [|e events IH]; intros s h now; [reflexivity|].
  unfold dispatch in *. simpl. rewrite processEvent_set_head. apply IH.
Qed.

Lemma dequeue_form s event s' :
  dequeue s = Some (event, s') ->
  s' = set_eventQueueHead s
         (to_uint8 ((eventQueueHead s + 1) mod EVENT_QUEUE_SIZE)).
Proof.
  unfold dequeue. destruct (hasQueuedEvents s); [|discriminate].
  intros H. injection H as _ H. symmetry. exact H.
Qed.

Lemma emptied_when_empty s :
  wf s -> occupied s = 0 -> emptied s = s.
Proof.
  intros (Hh & Ht & _) Ho. unfold emptied.
  assert (E : eventQueueTail s = eventQueueHead s).
  { unfold occupied, EVENT_QUEUE_SIZE in *. Z.div_mod_to_equations; lia. }
  rewrite E. destruct s; reflexivity.
Qed.

Lemma drain_dispatch fuel : forall s now,
  wf s -> occupied s <= Z.of_nat fuel ->
  drain fuel s now = Some (dispatch (emptied s) (pending s) now).
Proof.
  induction fuel as [|fuel IH]; intros s now Hwf Hocc;
    pose proof (occupied_range s) as Hr.
  - assert (H0 : occupied s = 0) by lia.
    simpl. rewrite dequeue_empty by assumption.
    unfold pending. rewrite H0. simpl.
    rewrite emptied_when_empty by assumption. reflexivity.
  - destruct (Z.eq_dec (occupied s) 0) as [H0|H0].
    + simpl. rewrite dequeue_empty by assumption.
      unfold pending. rewrite H0. simpl.
      rewrite emptied_when_empty by assumption. reflexivity.
    + destruct (dequeue_nonempty s Hwf) as (e & s1 & Hd & Hwf1 & Ho1 & Hp & _);
        [lia|].
      simpl. rewrite Hd.
      pose proof (processEvent_same_queue s1 e now) as Hsq.
      destruct (same_queue_views _ _ Hsq) as (Hw & Ho & Hq & _).
      rewrite IH; [|auto|rewrite Ho; lia].
      rewrite Hq, Hp. f_equal.
      apply dequeue_form in Hd.
      destruct Hsq as (_ & _ & Htl).
      unfold emptied. rewrite Htl.
      rewrite <- processEvent_set_head. subst s1. reflexivity.
Qed.

(** X1 -- First in, first out.  For an object with its indices in range,
    [update()] returns, and the object it leaves is the one obtained by
    emptying the queue, handing the queued events to [processEvent] in the
    order they were queued and then running the time-out check; no event
    is left in the queue. *)
Theorem X1_update_dispatches_in_order (s : StateManager) (now : Z) :
  wf s ->
  let s' := checkTimeouts (dispatch (emptied s) (pending s) now) now in
  update s now = Some s' /\ pending s' = [] /\ hasQueuedEvents s' = false.
Proof.
  intros Hwf. cbv zeta. unfold update.
  rewrite drain_dispatch; [|exact Hwf|].
  2:{ pose proof (occupied_range s). unfold EVENT_QUEUE_SIZE. lia. }
  split; [reflexivity|].
  destruct (update_total s now Hwf) as (s1 & Hu & Hwf1 & Hp).
  unfold update in Hu. rewrite drain_dispatch in Hu; [|exact Hwf|].
  2:{ pose proof (occupied_range s). unfold EVENT_QUEUE_SIZE. lia. }
  injection Hu as Hu. rewrite Hu. split; [exact Hp|].
  unfold hasQueuedEvents.
  pose proof (length_pending s1) as Hl. rewrite Hp in Hl. simpl in Hl.
  pose proof (occupied_range s1) as Hr.
  destruct Hwf1 as (Hh & Ht & _).
  assert (E0 : eventQueueHead s1 = eventQueueTail s1).
  { unfold occupied, EVENT_QUEUE_SIZE in *.
    assert ((eventQueueTail s1 - eventQueueHead s1) mod 16 = 0) by lia.
    Z.div_mod_to_equations; lia. }
  rewrite E0, Z.eqb_refl. reflexivity.
Qed.

Lemma X1_update_dispatches_in_order_witness :
  let s' := checkTimeouts
              (dispatch (emptied two_queued) (pending two_queued) 50) 50 in
  update two_queued 50 = Some s' /\ pending s' = [] /\
  hasQueuedEvents s' = false.
Proof.
  apply (X1_update_dispatches_in_order two_queued 50).
  unfold wf. vm_compute. repeat split; discriminate.
Defined.

(** *** What the events and transitions do to the state *)

Lemma transitionTo_fields s target now :
  let s' := snd (transitionTo s target now) in
  (canTransitionTo s target = true ->
     currentState s' = target /\ previousState s' = currentState s /\
     productionSubState s'
       = match target with
         | READY => IDLE
         | PRODUCTION => ACTIVE
         | _ => match currentState s with
                | PRODUCTION => IDLE
                | _ => productionSubState s
                end
         end) /\
  (canTransitionTo s target = false -> s' = s).
Proof.
  cbv zeta. split; intros G.
  - unfold transitionTo. rewrite G. simpl.
    destruct (currentState s) eqn:E, target; repeat split; exact E.
  - rewrite transitionTo_refused by exact G. reflexivity.
Qed.

Lemma canTransitionTo_table s target :
  canTransitionTo s target
  = match target with
    | READY | ERROR => true
    | PRODUCTION | DIAGNOSTIC => state_eqb (currentState s) READY
    | INITIALIZATION => state_eqb (currentState s) INITIALIZATION
    end.
Proof.
  destruct target; simpl; try reflexivity;
    unfold canStartProduction, canEnterDiagnostic; destruct (state_eqb _ _);
    reflexivity.
Qed.

Lemma processEvent_next_state s event now :
  currentState (processEvent s event now)
  = next_state (currentState s) event.
Proof.
  destruct s as [cur prev sub tsub q hd tl sct let_ ec tc].
  destruct cur; destruct event; reflexivity.
Qed.

(** X4 -- The transition table.  In every state, processing an event
    leaves the current state the table [next_state] gives (the guards
    never refuse a transition the handlers ask for), counts the event,
    and, when the state changes, records the state left in
    [previousState]. *)
Theorem X4_event_transition_table (s : StateManager)
    (event : SystemEvent) (now : Z) :
  let s' := processEvent s event now in
  currentState s' = next_state (currentState s) event /\
  eventCounter s' = to_uint32 (eventCounter s + 1) /\
  (if bool_decide (currentState s' = currentState s)
   then previousState s' = previousState s
   else previousState s' = currentState s).
Proof.
  destruct s as [cur prev sub tsub q hd tl sct let_ ec tc].
  cbv zeta. split; [apply processEvent_next_state|].
  split; [destruct cur; destruct event; reflexivity|].
  rewrite processEvent_next_state.
  destruct cur; destruct event; reflexivity.
Qed.

(** X2 -- No way back to [INITIALIZATION].  Once the current state is not
    [INITIALIZATION], no sequence of [queueEvent], [processEvent],
    [transitionTo] and [update] calls brings it back; only [initialize()]
    does. *)
Theorem X2_initialization_not_reentered (cs : list Call)
    (s s' : StateManager) :
  forallb (fun c => negb (is_initialize c)) cs = true ->
  currentState s <> INITIALIZATION ->
  calls s cs = Some s' ->
  currentState s' <> INITIALIZATION.
Proof.
  assert (Htr : forall s target now,
             currentState s <> INITIALIZATION ->
             currentState (snd (transitionTo s target now)) <> INITIALIZATION).
  { intros s0 target now H. rewrite transitionTo_state, canTransitionTo_table.
    destruct target; try discriminate; try exact H;
      try (destruct (state_eqb _ _); [discriminate|exact H]).
    destruct (state_eqb (currentState s0) INITIALIZATION) eqn:E; [|exact H].
    apply state_eqb_true in E. contradiction. }
  assert (Hpe : forall s event now,
             currentState s <> INITIALIZATION ->
             currentState (processEvent s event now) <> INITIALIZATION).
  { intros s0 event now H.
    rewrite processEvent_next_state. destruct (currentState s0), event; simpl; congruence. }
  assert (Hdr : forall fuel s now s',
             currentState s <> INITIALIZATION ->
             drain fuel s now = Some s' ->
             currentState s' <> INITIALIZATION).
  { induction fuel as [|fuel IH]; intros s0 now s1 H Hd; simpl in Hd.
    - destruct (dequeue s0) as [[e s2]|] eqn:D; [discriminate|].
      injection Hd as <-. exact H.
    - destruct (dequeue s0) as [[e s2]|] eqn:D.
      + apply dequeue_form in D. subst s2.
        eapply IH; [|exact Hd]. apply Hpe. exact H.
      + injection Hd as <-. exact H. }
  revert s. induction cs as [|c cs IH]; intros s Hni H Hc; simpl in *.
  - injection Hc as <-. exact H.
  - apply andb_true_iff in Hni. destruct Hni as [Hc0 Hni].
    destruct c as [now|event|event now|target now|now]; simpl in *;
      try discriminate.
    + apply (IH (queueEvent s event)); [exact Hni| |exact Hc].
      unfold queueEvent. destruct (_ =? _); exact H.
    + apply (IH (processEvent s event now)); [exact Hni| |exact Hc].
      apply Hpe. exact H.
    + apply (IH (snd (transitionTo s target now))); [exact Hni| |exact Hc].
      apply Htr. exact H.
    + unfold update in Hc.
      destruct (drain (Z.to_nat EVENT_QUEUE_SIZE) s now) as [s1|] eqn:D;
        [|discriminate].
      apply (IH (checkTimeouts s1 now)); [exact Hni| |exact Hc].
      pose proof (Hdr _ _ _ _ H D) as H1.
      unfold checkTimeouts. destruct (currentState s1) eqn:E1;
        try (rewrite E1; discriminate);
        try (destruct (_ <? _); [apply Htr|]; rewrite E1; discriminate).
      contradiction.
Qed.

Lemma X2_initialization_not_reentered_witness :
  currentState
    (snd (transitionTo (queueEvent ready0 EVT_STARTUP_COMPLETE)
                       INITIALIZATION 5))
  <> INITIALIZATION.
Proof.
  apply (X2_initialization_not_reentered
           [CallQueueEvent EVT_STARTUP_COMPLETE;
            CallTransitionTo INITIALIZATION 5] ready0).
  - reflexivity.
  - discriminate.
  - reflexivity.
Defined.

(** *** The production sub-state follows the state *)

Lemma transitionTo_substate s target now :
  substate_ok s -> substate_ok (snd (transitionTo s target now)).
Proof.
  unfold substate_ok. intros H.
  destruct (transitionTo_fields s target now) as [Hy Hn].
  destruct (canTransitionTo s target) eqn:G.
  - destruct (Hy eq_refl) as (E1 & _ & E3). rewrite E1, E3.
    rewrite canTransitionTo_table in G.
    destruct target; simpl; try reflexivity;
      destruct (currentState s) eqn:E; simpl in *;
      try reflexivity; try exact H; try discriminate.
  - rewrite (Hn eq_refl). exact H.
Qed.

Lemma processEvent_substate s event now :
  substate_ok s -> substate_ok (processEvent s event now).
Proof.
  unfold substate_ok.
  destruct s as [cur prev sub tsub q hd tl sct let_ ec tc]. simpl.
  intros ->. destruct cur; destruct event; reflexivity.
Qed.

Lemma drain_substate fuel : forall s now s',
  substate_ok s -> drain fuel s now = Some s' -> substate_ok s'.
Proof.
  induction fuel as [|fuel IH]; intros s now s' H Hd; simpl in Hd.
  - destruct (dequeue s) as [[e s1]|] eqn:D; [discriminate|].
    injection Hd as <-. exact H.
  - destruct (dequeue s) as [[e s1]|] eqn:D.
    + apply dequeue_form in D. subst s1.
      eapply IH; [|exact Hd]. apply processEvent_substate. exact H.
    + injection Hd as <-. exact H.
Qed.

Lemma checkTimeouts_substate s now :
  substate_ok s -> substate_ok (checkTimeouts s now).
Proof.
  intros H. unfold checkTimeouts.
  destruct (currentState s); try exact H;
    destruct (_ <? _); try exact H; apply transitionTo_substate; exact H.
Qed.

Lemma call_wf s c : wf s -> exists s', call s c = Some s' /\ wf s'.
Proof.
  intros Hwf. destruct c as [now|event|event now|target now|now]; simpl.
  - eexists; split; [reflexivity|exact Hwf].
  - eexists; split; [reflexivity|apply queueEvent_wf; exact Hwf].
  - eexists; split; [reflexivity|].
    apply (same_queue_views _ _ (processEvent_same_queue s event now)).
    exact Hwf.
  - eexists; split; [reflexivity|].
    apply (same_queue_views _ _ (transitionTo_same_queue s target now)).
    exact Hwf.
  - destruct (update_total s now Hwf) as (s' & -> & Hwf' & _).
    eexists; split; [reflexivity|exact Hwf'].
Qed.

Lemma call_substate s c s' :
  substate_ok s -> call s c = Some s' -> substate_ok s'.
Proof.
  intros H Hc. destruct c as [now|event|event now|target now|now];
    simpl in Hc.
  - injection Hc as <-. reflexivity.
  - injection Hc as <-. unfold queueEvent. destruct (_ =? _); exact H.
  - injection Hc as <-. apply processEvent_substate. exact H.
  - injection Hc as <-. apply transitionTo_substate. exact H.
  - unfold update in Hc.
    destruct (drain (Z.to_nat EVENT_QUEUE_SIZE) s now) as [s1|] eqn:D;
      [|discriminate].
    injection Hc as <-. apply checkTimeouts_substate.
    apply (drain_substate _ _ _ _ H D).
Qed.

(** X3 -- The production sub-state follows the state.  From a freshly
    constructed object, every sequence of [initialize], [queueEvent],
    [processEvent], [transitionTo] and [update] calls returns, and leaves
    the production sub-state [ACTIVE] exactly in state [PRODUCTION] and
    [IDLE] in every other state; [SUSPENDED] is never reached. *)
Theorem X3_substate_follows_state (cs : list Call) :
  exists s,
    calls constructed cs = Some s /\
    productionSubState s = substate_of (currentState s) /\
    productionSubState s <> SUSPENDED.
Proof.
  assert (H : forall cs s, wf s -> substate_ok s ->
            exists s', calls s cs = Some s' /\ substate_ok s').
  { clear cs. induction cs as [|c cs IH]; intros s Hwf Hok; simpl.
    - eexists; split; [reflexivity|exact Hok].
    - destruct (call_wf s c Hwf) as (s1 & Hc & Hwf1). rewrite Hc.
      apply IH; [exact Hwf1|]. apply (call_substate s c s1 Hok Hc). }
  destruct (H cs constructed wf_constructed eq_refl) as (s & Hc & Hok).
  exists s. split; [exact Hc|]. split; [exact Hok|].
  rewrite Hok. destruct (currentState s); discriminate.
Qed.

(** *** Time-outs and the roll-over of [millis()] *)

Lemma elapsed_across_rollover t0 e :
  0 <= e < 2^32 -> to_uint32 (to_uint32 (t0 + e) - to_uint32 t0) = e.
Proof.
  intros He. unfold to_uint32.
  rewrite Zminus_mod_idemp_l, Zminus_mod_idemp_r.
  replace (t0 + e - t0) with e by lia. apply Z.mod_small. exact He.
Qed.

(** X5 -- Time-outs survive the roll-over of [millis()].  If the current
    state was entered at time [t0] and [update()] runs [e] milliseconds
    later ([e] below 2^32) on an empty queue, the time in the current
    state it computes is exactly [e], also when the 32-bit millisecond
    counter has wrapped in between, and the state afterwards is [ERROR]
    after more than 30000 ms in [INITIALIZATION], [READY] after more than
    60000 ms in [DIAGNOSTIC] or more than 5000 ms in [ERROR], and
    unchanged otherwise. *)
Theorem X5_timeouts_across_rollover (s : StateManager) (t0 e : Z) :
  stateChangeTime s = to_uint32 t0 ->
  0 <= e < 2^32 ->
  hasQueuedEvents s = false ->
  getTimeInCurrentState s (t0 + e) = e /\
  exists s',
    update s (t0 + e) = Some s' /\
    currentState s' = after_timeout (currentState s) e.
Proof.
  intros Ht He Hq.
  assert (Hel : getTimeInCurrentState s (t0 + e) = e).
  { unfold getTimeInCurrentState. rewrite Ht.
    apply elapsed_across_rollover. exact He. }
  split; [exact Hel|].
  unfold update. simpl. unfold dequeue. rewrite Hq.
  eexists; split; [reflexivity|].
  unfold checkTimeouts, after_timeout. rewrite Hel.
  destruct (currentState s) eqn:E; try exact E;
    destruct (_ <? e); try exact E;
    rewrite transitionTo_state, canTransitionTo_table; reflexivity.
Qed.

Lemma X5_timeouts_across_rollover_witness :
  getTimeInCurrentState (snd (transitionTo ready0 DIAGNOSTIC (2^32 - 10)))
                        (2^32 - 10 + 60001) = 60001 /\
  exists s',
    update (snd (transitionTo ready0 DIAGNOSTIC (2^32 - 10)))
           (2^32 - 10 + 60001) = Some s' /\
    currentState s'
    = after_timeout
        (currentState (snd (transitionTo ready0 DIAGNOSTIC (2^32 - 10))))
        60001.
Proof.
  apply (X5_timeouts_across_rollover
           (snd (transitionTo ready0 DIAGNOSTIC (2^32 - 10)))
           (2^32 - 10) 60001).
  - reflexivity.
  - lia.
  - reflexivity.
Defined.

(** *** Names *)

(** X6 -- Names in the log.  [getEventName] gives each of the 27 events a
    name of its own and [getCurrentStateName] each of the 5 states, and
    neither ever falls through to its "UNKNOWN" default. *)
Theorem X6_names_distinct :
  (forall e1 e2, getEventName e1 = getEventName e2 -> e1 = e2) /\
  (forall e, getEventName e <> "UNKNOWN_EVENT"%string) /\
  (forall s1 s2,
     getCurrentStateName s1 = getCurrentStateName s2 ->
     currentState s1 = currentState s2) /\
  (forall s, getCurrentStateName s <> "UNKNOWN"%string).
Proof.
  split; [|split; [|split]].
  - intros e1 e2. destruct e1; destruct e2; simpl; intros H;
      first [reflexivity | discriminate H].
  - intros e. destruct e; discriminate.
  - intros s1 s2. unfold getCurrentStateName.
    destruct (currentState s1); destruct (currentState s2); intros H;
      first [reflexivity | discriminate H].
  - intros s. unfold getCurrentStateName.
    destruct (currentState s); discriminate.
Qed.

End FsmExtra.

(** ** More on the managers (managers.cpp) *)

Module ManagersExtra.

Import Managers ManagersMore ManagersProofs.

(** *** Sessions *)

Lemma pm_call_bounds pm c :
  0 <= sessionCount pm <= 9999 ->
  0 <= totalSessionCount pm -> totalSessionCount pm + 9999 <= INT_MAX ->
  0 <= sessionCount (pm_call pm c) <= 9999 /\
  totalSessionCount pm <= totalSessionCount (pm_call pm c)
    <= totalSessionCount pm + 9999.
Proof.
  intros Hc Ht Hm. destruct c as [now|now|]; simpl.
  - unfold startSession. destruct (sessionActive pm); simpl; lia.
  - unfold stopSession. destruct (sessionActive pm); simpl; [|lia].
    rewrite wrap32_small by (unfold INT_MIN, INT_MAX in *; lia). lia.
  - unfold incrementCount. destruct (sessionActive pm); simpl; [|lia].
    destruct (Z.ltb_spec (sessionCount pm) 9999); simpl; [|lia].
    rewrite wrap32_small by (unfold INT_MIN, INT_MAX in *; lia). lia.
Qed.

Lemma pm_calls_bounds cs : forall pm,
  0 <= sessionCount pm <= 9999 ->
  0 <= totalSessionCount pm ->
  totalSessionCount pm + 9999 * Z.of_nat (length cs) <= INT_MAX ->
  0 <= sessionCount (pm_calls pm cs) <= 9999 /\
  totalSessionCount pm <= totalSessionCount (pm_calls pm cs)
    <= totalSessionCount pm + 9999 * Z.of_nat (length cs).
Proof.
  induction cs as [|c cs IH]; intros pm Hc Ht Hm.
  - simpl in *. lia.
  - change (pm_calls pm (c :: cs)) with (pm_calls (pm_call pm c) cs).
    simpl length in *. rewrite Nat2Z.inj_succ in *.
    destruct (pm_call_bounds pm c Hc Ht) as [Hc1 Ht1]; [lia|].
    destruct (IH (pm_call pm c) Hc1) as [Hc2 Ht2]; lia.
Qed.

(** X7 -- Counts stay in range.  After any sequence of [startSession],
    [stopSession] and [incrementCount] calls on a new [ProductionManager]
    (fewer than 214769 calls, so that the [int] total cannot overflow) the
    session count is between 0 and 9999, the total count is between 0 and
    9999 times the number of calls, and one more call of any kind never
    lowers the total. *)
Theorem X7_counts_stay_in_range (cs : list PMCall) (next : PMCall) :
  9999 * (Z.of_nat (length cs) + 1) <= INT_MAX ->
  let pm := pm_calls ProductionManager_new cs in
  0 <= sessionCount pm <= 9999 /\
  0 <= totalSessionCount pm <= 9999 * Z.of_nat (length cs) /\
  totalSessionCount pm <= totalSessionCount (pm_call pm next).
Proof.
  intros Hm pm.
  destruct (pm_calls_bounds cs ProductionManager_new) as [Hc Ht];
    simpl; try lia.
  fold pm in Hc, Ht. simpl in Ht.
  split; [exact Hc|]. split; [lia|].
  apply (pm_call_bounds pm next Hc); lia.
Qed.

Lemma X7_counts_stay_in_range_witness :
  let pm := pm_calls ProductionManager_new
              [PMStart t_start; PMIncrement; PMIncrement; PMStop t_stop] in
  0 <= sessionCount pm <= 9999 /\
  0 <= totalSessionCount pm <= 9999 * Z.of_nat 4 /\
  totalSessionCount pm <= totalSessionCount (pm_call pm (PMStart t_later)).
Proof.
  apply (X7_counts_stay_in_range
           [PMStart t_start; PMIncrement; PMIncrement; PMStop t_stop]
           (PMStart t_later)).
  vm_compute. discriminate.
Defined.

Lemma repeat_incrementCount_keeps n : forall pm,
  let pm' := repeat_call incrementCount n pm in
  sessionActive pm' = sessionActive pm /\
  totalSessionCount pm' = totalSessionCount pm /\
  sessionStartTime pm' = sessionStartTime pm.
Proof.
  induction n as [|n IH]; intros pm; [repeat split|].
  simpl. destruct (IH (incrementCount pm)) as (A & B & C).
  rewrite A, B, C. unfold incrementCount.
  destruct (sessionActive pm) eqn:E; simpl; [|repeat split; exact E].
  destruct (_ <? _); simpl; repeat split; exact E.
Qed.

(** X8 -- One whole session.  On a manager with no session active,
    [startSession], then [n] calls of [incrementCount], then
    [stopSession] all succeed and add [min n 9999] to the total count; the
    session count read afterwards is [min n 9999], and the start and stop
    times are the two clock readings. *)
Theorem X8_whole_session (pm : ProductionManager) (start stop : DateTime)
    (n : nat) :
  sessionActive pm = false ->
  0 <= totalSessionCount pm <= INT_MAX - 9999 ->
  let started := startSession pm start in
  let counted := repeat_call incrementCount n (snd started) in
  let stopped := stopSession counted stop in
  fst started = true /\ fst stopped = true /\
  sessionActive (snd stopped) = false /\
  getSessionCount (snd stopped) = Z.min 9999 (Z.of_nat n) /\
  getTotalSessionCount (snd stopped)
    = totalSessionCount pm + Z.min 9999 (Z.of_nat n) /\
  sessionStartTime (snd stopped) = start /\
  sessionStopTime (snd stopped) = stop.
Proof.
  intros Ha Ht started counted stopped.
  assert (Hs : started = (true, mkPM true 0 (totalSessionCount pm) start
                                   (sessionStopTime pm) 0)).
  { unfold started, startSession. rewrite Ha. reflexivity. }
  assert (Hcount : sessionCount counted = Z.min 9999 (Z.of_nat n)).
  { unfold counted. rewrite Hs. simpl.
    rewrite repeat_incrementCount_active; simpl; [reflexivity|reflexivity|lia]. }
  destruct (repeat_incrementCount_keeps n (snd started)) as (A & B & C).
  fold counted in A, B, C. rewrite Hs in A, B, C. simpl in A, B, C.
  unfold stopped, stopSession, getSessionCount, getTotalSessionCount.
  rewrite A. simpl. rewrite B, C, Hcount.
  rewrite wrap32_small by (unfold INT_MIN, INT_MAX in *; lia).
  rewrite Hs. repeat split.
Qed.

Lemma X8_whole_session_witness :
  let started := startSession ProductionManager_new t_start in
  let counted := repeat_call incrementCount 5 (snd started) in
  let stopped := stopSession counted t_stop in
  fst started = true /\ fst stopped = true /\
  sessionActive (snd stopped) = false /\
  getSessionCount (snd stopped) = Z.min 9999 (Z.of_nat 5) /\
  getTotalSessionCount (snd stopped)
    = totalSessionCount ProductionManager_new + Z.min 9999 (Z.of_nat 5) /\
  sessionStartTime (snd stopped) = t_start /\
  sessionStopTime (snd stopped) = t_stop.
Proof.
  apply (X8_whole_session ProductionManager_new t_start t_stop 5).
  - reflexivity.
  - vm_compute. split; discriminate.
Defined.

(** *** Hour boundaries *)

(** X9 -- The boundary fires exactly at hour changes.  Polling the hour
    check of the state handlers over any series of clock reads fires at
    exactly those reads whose hour differs from the hour of the read
    before (for the first read: from the hour tracked so far), whatever
    the hours are. *)
Theorem X9_boundary_fires_at_changes (reads : list DateTime)
    (tm : TimeManager) :
  poll tm reads = hour_changes (lastTrackedHour tm) reads.
Proof.
  revert tm. induction reads as [|now reads IH]; intros tm; [reflexivity|].
  simpl. unfold checkHourBoundary, hasHourChanged, handleHourChange.
  destruct (Z.eqb_spec (dt_hour now) (lastTrackedHour tm)) as [E|E]; simpl.
  - rewrite IH, E. reflexivity.
  - rewrite IH. reflexivity.
Qed.

(** *** Configuration *)

Lemma validateSettings_true s :
  validateSettings s = true <->
  1000 <= saveInterval s <= 60000 /\ 10 <= debounceDelay s <= 500 /\
  100 <= maxCount s <= 99999 /\ 1000 <= statusDisplayDuration s <= 10000.
Proof.
  unfold validateSettings. rewrite !andb_true_iff, !Z.leb_le. tauto.
Qed.

Lemma apply_setter_valid s c :
  validateSettings s = true -> validateSettings (apply_setter s c) = true.
Proof.
  rewrite !validateSettings_true. intros H.
  destruct c as [v|v|v|v]; simpl;
    unfold setSaveInterval, setDebounceDelay, setMaxCount,
      setStatusDisplayDuration;
    match goal with
    | |- context [if ?b then _ else _] => destruct b eqn:E
    end; simpl; try exact H;
    apply andb_true_iff in E; rewrite !Z.leb_le in E; lia.
Qed.

(** X10 -- The setters keep the settings valid.  Starting from settings
    that [validateSettings] accepts (the constructor's defaults are),
    any sequence of [setSaveInterval], [setDebounceDelay], [setMaxCount]
    and [setStatusDisplayDuration] calls with arbitrary arguments leaves
    settings that [validateSettings] accepts: an argument out of range
    is ignored. *)
Theorem X10_setters_keep_settings_valid (s : Settings) (cs : list Setter) :
  validateSettings s = true ->
  validateSettings (fold_left apply_setter cs s) = true /\
  validateSettings ConfigManager_new = true /\
  validateSettings (resetToDefaults s) = true.
Proof.
  intros H. split; [|split; reflexivity].
  revert s H. induction cs as [|c cs IH]; intros s H; [exact H|].
  simpl. apply IH. apply apply_setter_valid. exact H.
Qed.

Lemma X10_setters_keep_settings_valid_witness :
  validateSettings
    (fold_left apply_setter
       [SetMaxCount 5000; SetDebounceDelay 5; SetSaveInterval (-1)]
       ConfigManager_new) = true /\
  validateSettings ConfigManager_new = true /\
  validateSettings (resetToDefaults ConfigManager_new) = true.
Proof.
  apply (X10_setters_keep_settings_valid ConfigManager_new
           [SetMaxCount 5000; SetDebounceDelay 5; SetSaveInterval (-1)]).
  reflexivity.
Defined.

(** X11 -- [setSettings] checks the settings it replaces.  On an object
    whose current settings are valid, [setSettings] installs whatever it
    is given and returns [true]; if what it was given is invalid, every
    later [setSettings] returns [false] and changes nothing, also for
    valid arguments, while [resetToDefaults] still repairs the object. *)
Theorem X11_setSettings_checks_old (s new later : Settings) :
  validateSettings s = true ->
  validateSettings new = false ->
  setSettings s new = (true, new) /\
  setSettings new later = (false, new) /\
  fst (setSettings (resetToDefaults new) later) = true.
Proof.
  intros Hs Hn. unfold setSettings. rewrite Hs, Hn. simpl.
  repeat split.
Qed.

Lemma X11_setSettings_checks_old_witness :
  setSettings ConfigManager_new settings_zero = (true, settings_zero) /\
  setSettings settings_zero ConfigManager_new = (false, settings_zero) /\
  fst (setSettings (resetToDefaults settings_zero) ConfigManager_new) = true.
Proof.
  apply (X11_setSettings_checks_old ConfigManager_new settings_zero
           ConfigManager_new); reflexivity.
Defined.

End ManagersExtra.

(** ** More on code_v3.cpp *)

Module CodeV3Extra.

Import CodeV3 CodeV3More CodeV3Proofs.

(** *** The 12-hour clock *)

(** X12 -- The 12-hour display loses nothing.  For an hour of the day
    (0 to 23) [getDisplay12Hour] is between 1 and 12, and together with
    [getAmPm] it determines the hour: the hour is the displayed number
    modulo 12, plus 12 when the marker is PM. *)
Theorem X12_twelve_hour_display (hour : Z) :
  0 <= hour <= 23 ->
  1 <= getDisplay12Hour hour <= 12 /\
  hour = getDisplay12Hour hour mod 12
         + (if String.eqb (getAmPm hour) "PM" then 12 else 0).
Proof.
  intros H. unfold getDisplay12Hour, getAmPm.
  rewrite Z.rem_mod_nonneg by lia.
  destruct (Z.eqb_spec (hour mod 12) 0) as [E|E];
    destruct (Z.leb_spec 12 hour); simpl;
    try rewrite Z.mod_mod by lia;
    (split; [|]); try (change (12 mod 12) with 0);
    Z.div_mod_to_equations; lia.
Qed.

Lemma X12_twelve_hour_display_witness :
  1 <= getDisplay12Hour 0 <= 12 /\
  0 = getDisplay12Hour 0 mod 12
      + (if String.eqb (getAmPm 0) "PM" then 12 else 0).
Proof. apply (X12_twelve_hour_display 0). lia. Defined.


(** *** Count files *)

Lemma leading_digits_small fuel limit n :
  n < limit -> leading_digits fuel limit n = n.
Proof.
  intros H. destruct fuel as [|fuel]; [reflexivity|]. simpl.
  destruct (Z.leb_spec limit n); [lia|reflexivity].
Qed.

(** A number of at most nine digits fits the buffer. *)
Lemma atoi_buffer_small n : 0 <= n < 10 ^ 9 -> atoi_buffer n = n.
Proof.
  intros H. unfold atoi_buffer.
  destruct (Z.ltb_spec n 0); [lia|].
  apply leading_digits_small. lia.
Qed.

(** Longer numerals are cut to what the buffer holds, as [atoi] sees
    them: nine digits, or the sign and eight digits. *)
Lemma atoi_buffer_long :
  atoi_buffer 4294967301 = 429496730 /\
  atoi_buffer 1234567890123 = 123456789 /\
  atoi_buffer (-1234567890) = -12345678 /\
  readCountFromFile (mkSD {[ COUNT_FILE := [4294967301] ]} [] true)
                    COUNT_FILE = 0.
Proof. vm_compute. repeat split. Qed.

Lemma readCountFromFile_put sd name count :
  openOk sd = true -> 0 <= count <= 9999 ->
  readCountFromFile (SD_put sd name [count]) name = count.
Proof.
  intros Ho Hc. unfold readCountFromFile, SD_put.
  cbn [files openOk]. rewrite lookup_insert_eq, Ho. cbn [negb].
  rewrite atoi_buffer_small by lia.
  unfold MAX_COUNT.
  destruct (Z.ltb_spec count 0); [lia|].
  destruct (Z.ltb_spec 9999 count); [lia|]. reflexivity.
Qed.

Lemma writeCountToFile_read sd name count :
  openOk sd = true -> 0 <= count <= 9999 ->
  readCountFromFile (writeCountToFile sd name count) name = count.
Proof.
  intros Ho Hc. unfold writeCountToFile, MAX_COUNT.
  destruct (Z.ltb_spec count 0); [lia|].
  destruct (Z.ltb_spec 9999 count); [lia|]. simpl.
  destruct (SD_exists sd name).
  - change (openOk (SD_remove sd name)) with (openOk sd). rewrite Ho. simpl.
    apply readCountFromFile_put; [exact Ho|exact Hc].
  - rewrite Ho. simpl. apply readCountFromFile_put; [exact Ho|exact Hc].
Qed.

Lemma writeCountToFile_rejects sd name count :
  count < 0 \/ 9999 < count -> writeCountToFile sd name count = sd.
Proof.
  intros H. unfold writeCountToFile, MAX_COUNT.
  destruct (Z.ltb_spec count 0); [reflexivity|].
  destruct (Z.ltb_spec 9999 count); [reflexivity|]. lia.
Qed.

Lemma readCountFromFile_other sd name count other :
  name <> other ->
  readCountFromFile (writeCountToFile sd name count) other
    = readCountFromFile sd other.
Proof.
  intros Hne.
  destruct (writeCountToFile_other sd name count other Hne) as [Hf Ho].
  unfold readCountFromFile. rewrite Hf, Ho. reflexivity.
Qed.

(** X13 -- A count file gives back what was written.  On a card whose
    files can be opened, [writeCountToFile] of a count between 0 and 9999
    followed by [readCountFromFile] of the same file returns that count;
    the other files read as before; and a later write of a count outside
    0..9999 to the file is ignored, so that the file keeps the count. *)
Theorem X13_count_file_round_trip (sd : SDCard) (name : string)
    (count : Z) :
  openOk sd = true -> 0 <= count <= 9999 ->
  let sd' := writeCountToFile sd name count in
  readCountFromFile sd' name = count /\
  (forall other, name <> other ->
     readCountFromFile sd' other = readCountFromFile sd other) /\
  (forall bad, bad < 0 \/ 9999 < bad ->
     readCountFromFile (writeCountToFile sd' name bad) name = count).
Proof.
  intros Ho Hc sd'. split; [|split].
  - apply writeCountToFile_read; assumption.
  - intros other Hne. apply readCountFromFile_other. exact Hne.
  - intros bad Hb. rewrite writeCountToFile_rejects by exact Hb.
    apply writeCountToFile_read; assumption.
Qed.

Lemma X13_count_file_round_trip_witness :
  let sd' := writeCountToFile (card_with []) COUNT_FILE 42 in
  readCountFromFile sd' COUNT_FILE = 42 /\
  (forall other, COUNT_FILE <> other ->
     readCountFromFile sd' other = readCountFromFile (card_with []) other) /\
  (forall bad, bad < 0 \/ 9999 < bad ->
     readCountFromFile (writeCountToFile sd' COUNT_FILE bad) COUNT_FILE = 42).
Proof.
  apply (X13_count_file_round_trip (card_with []) COUNT_FILE 42).
  - reflexivity.
  - lia.
Defined.

(** X14 -- A failed write loses the old count.  [writeCountToFile]
    removes the file before it opens it for writing: when the open fails,
    a count in range leaves the card without the file, and
    [readCountFromFile] then returns 0 whatever the file held before. *)
Theorem X14_failed_write_loses_count (sd : SDCard) (name : string)
    (count : Z) :
  openOk sd = false -> 0 <= count <= 9999 ->
  let sd' := writeCountToFile sd name count in
  SD_exists sd' name = false /\ readCountFromFile sd' name = 0.
Proof.
  intros Ho Hc sd'.
  assert (Hf : files sd' !! name = None).
  { unfold sd', writeCountToFile, MAX_COUNT.
    destruct (Z.ltb_spec count 0); [lia|].
    destruct (Z.ltb_spec 9999 count); [lia|]. simpl.
    unfold SD_exists. destruct (files sd !! name) eqn:E.
    - change (openOk (SD_remove sd name)) with (openOk sd). rewrite Ho.
      simpl. apply lookup_delete_eq.
    - rewrite Ho. simpl. exact E. }
  unfold SD_exists, readCountFromFile. rewrite Hf. split; reflexivity.
Qed.

Lemma X14_failed_write_loses_count_witness :
  let sd' := writeCountToFile (mkSD {[ COUNT_FILE := [17] ]} [] false)
               COUNT_FILE 18 in
  SD_exists sd' COUNT_FILE = false /\ readCountFromFile sd' COUNT_FILE = 0.
Proof.
  apply (X14_failed_write_loses_count
           (mkSD {[ COUNT_FILE := [17] ]} [] false) COUNT_FILE 18).
  - reflexivity.
  - lia.
Defined.

(** *** The counter interrupt *)

Lemma handleInterrupt_step w t :
  INT_MIN <= currentCount (ram w) ->
  let w' := handleInterrupt w t in
  card w' = card w /\
  productionActive (ram w') = productionActive (ram w) /\
  cachedDebounceDelay (ram w') = cachedDebounceDelay (ram w) /\
  currentCount (ram w) <= currentCount (ram w')
    <= Z.max (currentCount (ram w)) MAX_COUNT /\
  currentCount (ram w') <= currentCount (ram w) + 1 /\
  (productionActive (ram w) = false ->
   currentCount (ram w') = currentCount (ram w)).
Proof.
  intros Hmin. unfold handleInterrupt, MAX_COUNT.
  destruct (_ <? to_uint32 _); simpl; [|repeat split; intros; try reflexivity; try assumption; lia].
  destruct (productionActive (ram w)) eqn:A; simpl;
    [|repeat split; intros; try reflexivity; try assumption; lia].
  destruct (Z.ltb_spec (currentCount (ram w)) 9999); simpl;
    [|repeat split; intros; try reflexivity; try assumption; lia].
  rewrite wrap32_small by (unfold INT_MIN, INT_MAX in *; lia).
  repeat split; intros; try reflexivity; try assumption; try lia;
    discriminate.
Qed.

(** X15 -- The interrupt only counts up, to 9999, in production.  After
    any series of counter interrupts the SD card is untouched, the count
    has not decreased, it has grown by at most one per interrupt and not
    beyond 9999 (a count already above stays), and it is unchanged when
    production is not active. *)
Theorem X15_interrupts_count_up_to_max (w : World) (times : list Z) :
  INT_MIN <= currentCount (ram w) ->
  let w' := presses w times in
  card w' = card w /\
  productionActive (ram w') = productionActive (ram w) /\
  currentCount (ram w) <= currentCount (ram w')
    <= Z.max (currentCount (ram w)) MAX_COUNT /\
  currentCount (ram w') <= currentCount (ram w) + Z.of_nat (length times) /\
  (productionActive (ram w) = false ->
   currentCount (ram w') = currentCount (ram w)).
Proof.
  revert w. induction times as [|t times IH]; intros w Hmin.
  - simpl. repeat split; lia.
  - destruct (handleInterrupt_step w t Hmin) as (A & B & _ & C & D & E).
    destruct (IH (handleInterrupt w t)) as (A' & B' & C' & D' & E'); [lia|].
    change (presses w (t :: times))
      with (presses (handleInterrupt w t) times).
    cbv zeta. simpl length. rewrite Nat2Z.inj_succ.
    split; [congruence|]. split; [congruence|].
    split; [lia|]. split; [lia|].
    intros F. rewrite E', E; [reflexivity|exact F|congruence].
Qed.

Lemma X15_interrupts_count_up_to_max_witness :
  let w' := presses mid_session [1000; 1100; 1105] in
  card w' = card mid_session /\
  productionActive (ram w') = productionActive (ram mid_session) /\
  currentCount (ram mid_session) <= currentCount (ram w')
    <= Z.max (currentCount (ram mid_session)) MAX_COUNT /\
  currentCount (ram w')
    <= currentCount (ram mid_session) + Z.of_nat (length [1000; 1100; 1105]) /\
  (productionActive (ram mid_session) = false ->
   currentCount (ram w') = currentCount (ram mid_session)).
Proof.
  apply (X15_interrupts_count_up_to_max mid_session [1000; 1100; 1105]).
  vm_compute. discriminate.
Defined.

Lemma to_uint32_sub a b :
  to_uint32 (to_uint32 a - to_uint32 b) = to_uint32 (a - b).
Proof.
  unfold to_uint32. rewrite Zminus_mod_idemp_l, Zminus_mod_idemp_r.
  reflexivity.
Qed.

Lemma handleInterrupt_bounce w t1 t :
  lastInterruptTime (ram w) = to_uint32 t1 ->
  0 <= t - t1 <= cachedDebounceDelay (ram w) ->
  handleInterrupt w t = w.
Proof.
  intros Hl Ht. unfold handleInterrupt. rewrite Hl, to_uint32_sub.
  assert (to_uint32 (t - t1) <= t - t1)
    by (unfold to_uint32; apply Z.mod_le; lia).
  destruct (Z.ltb_spec (cachedDebounceDelay (ram w)) (to_uint32 (t - t1)));
    [lia|reflexivity].
Qed.

(** X16 -- Contact bounce counts once.  After an interrupt that was
    taken at time [t1], every further interrupt no later than the debounce
    delay after [t1] is ignored: the machine stays exactly as the first
    interrupt left it.  The times are [millis()] values before their
    reduction to 32 bits, so this holds across the roll-over of
    [millis()]. *)
Theorem X16_bounce_counts_once (w : World) (t1 : Z) (times : list Z) :
  accepted w t1 = true ->
  Forall (fun t => 0 <= t - t1 <= cachedDebounceDelay (ram w)) times ->
  presses (handleInterrupt w t1) times = handleInterrupt w t1.
Proof.
  intros Hacc Hall.
  set (w1 := handleInterrupt w t1).
  assert (Hl : lastInterruptTime (ram w1) = to_uint32 t1).
  { unfold w1, handleInterrupt. unfold accepted in Hacc. rewrite Hacc.
    destruct (productionActive (ram w) && _); reflexivity. }
  assert (Hd : cachedDebounceDelay (ram w1) = cachedDebounceDelay (ram w)).
  { unfold w1, handleInterrupt. unfold accepted in Hacc. rewrite Hacc.
    destruct (productionActive (ram w) && _); reflexivity. }
  induction Hall as [|t times Ht _ IH]; [reflexivity|].
  change (presses w1 (t :: times)) with (presses (handleInterrupt w1 t) times).
  rewrite (handleInterrupt_bounce w1 t1 t Hl) by (rewrite Hd; exact Ht).
  exact IH.
Qed.

Lemma X16_bounce_counts_once_witness :
  presses (handleInterrupt mid_session (2^32 - 10)) [2^32 - 5; 2^32 + 20; 2^32 + 40]
  = handleInterrupt mid_session (2^32 - 10).
Proof.
  apply (X16_bounce_counts_once mid_session (2^32 - 10)
           [2^32 - 5; 2^32 + 20; 2^32 + 40]).
  - reflexivity.
  - repeat constructor; vm_compute; discriminate.
Defined.


(** *** Hour roll-over *)

(** X17 -- The cumulative file stops at 9999.  At an hour change outside
    production with the card available, when the cumulative count plus the
    count of the hour exceeds 9999, the cumulative count in memory takes
    the sum but /cumulative_count.txt is left as it was
    ([writeCountToFile] refuses the value), so that [readCountFromFile]
    still returns the old cumulative count; the count and hourly files are
    written as usual when the card can be opened. *)
Theorem X17_cumulative_file_stops_at_max (w : World) (now : DateTime) :
  productionActive (ram w) = false ->
  sdAvailable (ram w) = true ->
  0 <= currentCount (ram w) <= 9999 ->
  9999 < cumulativeCount (ram w) + currentCount (ram w) <= INT_MAX ->
  let w' := handleHourChange w now in
  cumulativeCount (ram w')
    = cumulativeCount (ram w) + currentCount (ram w) /\
  files (card w') !! CUMULATIVE_FILE = files (card w) !! CUMULATIVE_FILE /\
  readCountFromFile (card w') CUMULATIVE_FILE
    = readCountFromFile (card w) CUMULATIVE_FILE /\
  (openOk (card w) = true ->
   readCountFromFile (card w') COUNT_FILE = 0 /\
   readCountFromFile (card w') HOURLY_FILE = currentCount (ram w)).
Proof.
  intros Ha Hs Hc Hsum. unfold handleHourChange. rewrite Ha. simpl.
  rewrite Hs.
  rewrite wrap32_small by (unfold INT_MIN, INT_MAX in *; lia).
  set (sum := cumulativeCount (ram w) + currentCount (ram w)) in *.
  rewrite (writeCountToFile_rejects _ CUMULATIVE_FILE sum) by lia.
  set (sd1 := writeCountToFile (card w) COUNT_FILE 0).
  set (sd2 := writeCountToFile sd1 HOURLY_FILE (currentCount (ram w))).
  destruct (writeCountToFile_other (card w) COUNT_FILE 0 CUMULATIVE_FILE)
    as [F1 O1]; [discriminate|].
  destruct (writeCountToFile_other sd1 HOURLY_FILE (currentCount (ram w))
              CUMULATIVE_FILE) as [F2 O2]; [discriminate|].
  destruct (writeCountToFile_other sd1 HOURLY_FILE (currentCount (ram w))
              COUNT_FILE) as [F3 _]; [discriminate|].
  fold sd1 in F1, O1. fold sd2 in F2, O2, F3.
  assert (Hfiles : files (createHourlyLogFile sd2 now (currentCount (ram w))
                            sum) = files sd2).
  { unfold createHourlyLogFile. destruct (negb (openOk sd2)); reflexivity. }
  assert (Hopen : openOk (createHourlyLogFile sd2 now (currentCount (ram w))
                            sum) = openOk sd2).
  { unfold createHourlyLogFile. destruct (negb (openOk sd2)); reflexivity. }
  simpl. split; [reflexivity|].
  split; [rewrite Hfiles, F2, F1; reflexivity|].
  split.
  - unfold readCountFromFile. rewrite Hfiles, Hopen, F2, F1, O2, O1.
    reflexivity.
  - intros Ho.
    assert (R1 : readCountFromFile sd1 COUNT_FILE = 0)
      by (apply writeCountToFile_read; [exact Ho|lia]).
    assert (R2 : readCountFromFile sd2 HOURLY_FILE = currentCount (ram w))
      by (apply writeCountToFile_read; [rewrite O1; exact Ho|exact Hc]).
    assert (R3 : readCountFromFile sd2 COUNT_FILE = 0).
    { unfold sd2. rewrite readCountFromFile_other by discriminate.
      exact R1. }
    unfold readCountFromFile in *. rewrite Hfiles, Hopen.
    split; [exact R3|exact R2].
Qed.

Lemma X17_cumulative_file_stops_at_max_witness :
  let w' := handleHourChange full_cumulative one_pm in
  cumulativeCount (ram w')
    = cumulativeCount (ram full_cumulative)
      + currentCount (ram full_cumulative) /\
  files (card w') !! CUMULATIVE_FILE
    = files (card full_cumulative) !! CUMULATIVE_FILE /\
  readCountFromFile (card w') CUMULATIVE_FILE
    = readCountFromFile (card full_cumulative) CUMULATIVE_FILE /\
  (openOk (card full_cumulative) = true ->
   readCountFromFile (card w') COUNT_FILE = 0 /\
   readCountFromFile (card w') HOURLY_FILE
     = currentCount (ram full_cumulative)).
Proof.
  apply (X17_cumulative_file_stops_at_max full_cumulative one_pm).
  - reflexivity.
  - reflexivity.
  - vm_compute. split; discriminate.
  - vm_compute. split; [reflexivity|discriminate].
Defined.

(** *** Stopping, then rebooting *)

Lemma stopProduction_clears w stopTime :
  productionActive (ram w) = true -> sdAvailable (ram w) = true ->
  files (card (stopProduction w stopTime)) !! PRODUCTION_STATE_FILE = None.
Proof.
  intros Ha Hs. unfold stopProduction. rewrite Ha. simpl. rewrite Hs.
  unfold clearProductionState.
  match goal with
  | |- context [saveProductionSession ?x ?t] =>
      set (w1 := saveProductionSession x t);
      assert (S1 : sdAvailable (ram w1) = true);
      [unfold w1, saveProductionSession, saveHourlyProductionCount;
       simpl; destruct (openOk (card w)); simpl; exact Hs|]
  end.
  rewrite S1. simpl. unfold SD_exists.
  destruct (files (card w1) !! PRODUCTION_STATE_FILE) eqn:E; simpl.
  - apply lookup_delete_eq.
  - exact E.
Qed.

(** X18 -- A stopped session is not recovered.  [stopProduction] on a
    running session with the card available leaves no recovery file,
    whether or not the session report could be written.  The next boot
    therefore takes production from the latch alone, with start count and
    session count 0, and with the latch released the count starts
    from 0. *)
Theorem X18_stopped_session_not_recovered (w : World) (stopTime : DateTime)
    (rtcOk : bool) (params : RuntimeParams) (latchPressed : bool)
    (rtcNow : DateTime) :
  productionActive (ram w) = true ->
  sdAvailable (ram w) = true ->
  let stopped := stopProduction w stopTime in
  let w' := reboot stopped true rtcOk params latchPressed rtcNow in
  productionActive (ram stopped) = false /\
  SD_exists (card stopped) PRODUCTION_STATE_FILE = false /\
  productionActive (ram w') = latchPressed /\
  productionStartCount (ram w') = 0 /\
  productionCount (ram w') = 0 /\
  (latchPressed = false -> currentCount (ram w') = 0).
Proof.
  intros Ha Hs stopped w'.
  pose proof (stopProduction_clears w stopTime Ha Hs) as Hnone.
  fold stopped in Hnone.
  split.
  { unfold stopped, stopProduction. rewrite Ha. simpl. rewrite Hs.
    unfold clearProductionState, saveProductionSession,
      saveHourlyProductionCount. simpl.
    destruct (openOk (card w)); simpl; rewrite ?Hs; simpl;
      match goal with
      | |- context [if ?b then _ else _] => destruct b
      end; reflexivity. }
  split; [unfold SD_exists; rewrite Hnone; reflexivity|].
  unfold w', reboot.
  set (w0 := power_on (card stopped) true rtcOk params).
  destruct (setup_state_restore w0 latchPressed rtcNow)
    as (_ & B & C & _ & D1 & D2 & D3 & D4 & _).
  cbv zeta in *.
  set (w2 := setup_latch (setup_loadCounts w0) latchPressed rtcNow) in *.
  assert (Hw2 : restoreProductionState w2 = w2).
  { apply restore_no_file. rewrite C. exact Hnone. }
  rewrite Hw2 in D1, D2, D3, D4. rewrite D1, D2, D3, D4.
  split; [exact B|].
  unfold w2, setup_latch.
  destruct latchPressed; simpl; repeat split; discriminate.
Qed.

Lemma X18_stopped_session_not_recovered_witness :
  let stopped := stopProduction mid_session one_pm in
  let w' := reboot stopped true true RuntimeParams_default false one_pm in
  productionActive (ram stopped) = false /\
  SD_exists (card stopped) PRODUCTION_STATE_FILE = false /\
  productionActive (ram w') = false /\
  productionStartCount (ram w') = 0 /\
  productionCount (ram w') = 0 /\
  (false = false -> currentCount (ram w') = 0).
Proof.
  apply (X18_stopped_session_not_recovered mid_session one_pm true
           RuntimeParams_default false one_pm); reflexivity.
Defined.


(** *** Setting the clock over the serial line *)

Lemma checkAndSetTimeFromSerial_cases input :
  checkAndSetTimeFromSerial input = (false, None) \/
  checkAndSetTimeFromSerial input = (true, None) \/
  exists year month day hour minute second,
    checkAndSetTimeFromSerial input
      = (true, Some (DateTime_of year month day hour minute second)) /\
    2020 <= year <= 2100 /\ 1 <= month <= 12 /\ 1 <= day <= 31 /\
    0 <= hour <= 23 /\ 0 <= minute <= 59 /\ 0 <= second <= 59.
Proof.
  unfold checkAndSetTimeFromSerial.
  destruct (negb (String.prefix "TIME," input)); [left; reflexivity|].
  right. cbv zeta.
  destruct (negb (count_commas _ 0 =? 5)); [left; reflexivity|].
  match goal with
  | |- context [negb (index ?q =? 6)] => set (p := q)
  end.
  destruct (negb (index p =? 6)); [left; reflexivity|].
  repeat match goal with
         | |- context [(?a <? ?b) || (?c <? ?d)] =>
             destruct (Z.ltb_spec a b); simpl; [left; reflexivity|];
             destruct (Z.ltb_spec c d); simpl; [left; reflexivity|]
         end.
  right. do 6 eexists. split; [reflexivity|]. lia.
Qed.

(** X19 -- The clock is only set to a time in range.  Whatever line
    arrives, when [checkAndSetTimeFromSerial] adjusts the clock the line
    starts with TIME, and the new time has its year in 2020..2100, month
    in 1..12, day in 1..31, hour in 0..23 and minute and second in 0..59;
    the function then returns [true]. *)
Theorem X19_clock_set_only_in_range (input : string) (t : DateTime) :
  snd (checkAndSetTimeFromSerial input) = Some t ->
  fst (checkAndSetTimeFromSerial input) = true /\
  String.prefix "TIME," input = true /\
  2020 <= dt_year t <= 2100 /\ 1 <= dt_month t <= 12 /\
  1 <= dt_day t <= 31 /\ 0 <= dt_hour t <= 23 /\
  0 <= dt_minute t <= 59 /\ 0 <= dt_second t <= 59.
Proof.
  intros H.
  assert (Hp : String.prefix "TIME," input = true).
  { unfold checkAndSetTimeFromSerial in H.
    destruct (String.prefix "TIME," input); [reflexivity|discriminate H]. }
  destruct (checkAndSetTimeFromSerial_cases input)
    as [E|[E|(y & mo & d & h & mi & s & E & Hy & Hmo & Hd & Hh & Hmi & Hs)]];
    rewrite E in *; simpl in H; try discriminate H.
  injection H as <-.
  destruct (DateTime_of_fields y mo d h mi s)
    as (_ & Ey & Emo & Ed & Eh & Emi & Es); try lia.
  rewrite Ey, Emo, Ed, Eh, Emi, Es. simpl.
  split; [reflexivity|]. split; [exact Hp|]. lia.
Qed.

Lemma X19_clock_set_only_in_range_witness :
  fst (checkAndSetTimeFromSerial "TIME,2025,11,15,14,30,45") = true /\
  String.prefix "TIME," "TIME,2025,11,15,14,30,45" = true /\
  2020 <= dt_year (mkDT 25 11 15 14 30 45) <= 2100 /\
  1 <= dt_month (mkDT 25 11 15 14 30 45) <= 12 /\
  1 <= dt_day (mkDT 25 11 15 14 30 45) <= 31 /\
  0 <= dt_hour (mkDT 25 11 15 14 30 45) <= 23 /\
  0 <= dt_minute (mkDT 25 11 15 14 30 45) <= 59 /\
  0 <= dt_second (mkDT 25 11 15 14 30 45) <= 59.
Proof.
  apply (X19_clock_set_only_in_range "TIME,2025,11,15,14,30,45"
           (mkDT 25 11 15 14 30 45)).
  vm_compute. reflexivity.
Defined.


Lemma digit_char_code d :
  0 <= d <= 9 -> Z.of_N (Ascii.N_of_ascii (digit_char d)) = 48 + d.
Proof.
  intros H. unfold digit_char.
  rewrite Ascii.N_ascii_embedding by lia. apply Z2N.id. lia.
Qed.

Lemma parse_char_digit p d :
  0 <= d <= 9 ->
  parse_char p (digit_char d)
  = mkParse (values p) (index p) (wrap32 (value p * 10 + d)).
Proof.
  intros H. unfold parse_char, is_digit. rewrite digit_char_code by exact H.
  destruct (Z.leb_spec 48 (48 + d)); [|lia].
  destruct (Z.leb_spec (48 + d) 57); [|lia].
  simpl. do 2 f_equal. lia.
Qed.

Lemma is_comma_digit d : 0 <= d <= 9 -> is_comma (digit_char d) = false.
Proof.
  intros H. unfold is_comma. rewrite digit_char_code by exact H.
  apply Z.eqb_neq. lia.
Qed.

Lemma numeral_value_ge digits : forall v,
  is_numeral digits -> 0 <= v ->
  v <= fold_left (fun v d => v * 10 + d) digits v.
Proof.
  induction digits as [|d digits IH]; intros v Hn Hv; simpl; [lia|].
  apply Forall_cons in Hn as [Hd Hn].
  specialize (IH (v * 10 + d) Hn). lia.
Qed.

Lemma parse_loop_app s1 : forall s2 p,
  parse_loop (String.append s1 s2) p = parse_loop s2 (parse_loop s1 p).
Proof. induction s1 as [|c s1 IH]; intros; simpl; [reflexivity|apply IH]. Qed.

Lemma count_commas_app s1 : forall s2 k,
  count_commas (String.append s1 s2) k = count_commas s2 (count_commas s1 k).
Proof. induction s1 as [|c s1 IH]; intros; simpl; [reflexivity|apply IH]. Qed.

Lemma parse_numeral digits : forall vals i v,
  is_numeral digits -> 0 <= v ->
  fold_left (fun v d => v * 10 + d) digits v <= INT_MAX ->
  parse_loop (numeral digits) (mkParse vals i v)
  = mkParse vals i (fold_left (fun v d => v * 10 + d) digits v).
Proof.
  induction digits as [|d digits IH]; intros vals i v Hn Hv Hmax;
    [reflexivity|].
  apply Forall_cons in Hn as [Hd Hn].
  simpl in *. rewrite parse_char_digit by exact Hd. simpl.
  pose proof (numeral_value_ge digits (v * 10 + d) Hn ltac:(lia)).
  rewrite wrap32_small by (unfold INT_MIN, INT_MAX in *; lia).
  apply IH; [exact Hn|lia|exact Hmax].
Qed.

Lemma count_numeral digits : forall k,
  is_numeral digits -> count_commas (numeral digits) k = k.
Proof.
  induction digits as [|d digits IH]; intros k Hn; [reflexivity|].
  apply Forall_cons in Hn as [Hd Hn].
  simpl. rewrite is_comma_digit by exact Hd. apply IH. exact Hn.
Qed.

Lemma parse_field digits vals i rest :
  is_numeral digits -> numeral_value digits <= INT_MAX -> i < 6 ->
  parse_loop (String.append (numeral digits) (String comma rest))
             (mkParse vals i 0)
  = parse_loop rest
      (mkParse (<[Z.to_nat i := numeral_value digits]> vals) (i + 1) 0).
Proof.
  intros Hn Hmax Hi. rewrite parse_loop_app.
  rewrite parse_numeral by (try assumption; lia).
  change (parse_loop (String comma rest) ?p)
    with (parse_loop rest (store_value p)).
  unfold store_value. simpl index.
  destruct (Z.ltb_spec i 6); [reflexivity|lia].
Qed.

Lemma count_field digits rest k :
  is_numeral digits ->
  count_commas (String.append (numeral digits) (String comma rest)) k
  = count_commas rest (k + 1).
Proof.
  intros Hn. rewrite count_commas_app, count_numeral by exact Hn.
  reflexivity.
Qed.

Lemma substring_all s : String.substring 0 (String.length s) s = s.
Proof. induction s as [|c s IH]; simpl; [reflexivity|]. rewrite IH. reflexivity. Qed.

Lemma prefix_append pre rest :
  String.prefix pre (String.append pre rest) = true.
Proof.
  induction pre as [|c pre IH]; simpl.
  - destruct rest; reflexivity.
  - destruct (Ascii.ascii_dec c c); [exact IH|congruence].
Qed.

Lemma substring_append pre rest :
  String.substring (String.length pre)
    (String.length (String.append pre rest) - String.length pre)
    (String.append pre rest) = rest.
Proof.
  induction pre as [|c pre IH]; simpl.
  - rewrite Nat.sub_0_r. apply substring_all.
  - exact IH.
Qed.

(** X20 -- A well-formed TIME command sets the clock to what it says.
    For six decimal numerals (digit lists whose values fit an [int]) the
    line TIME,year,month,day,hour,minute,second is always answered with
    [true]; it sets the clock exactly when the six values pass the test
    that [restoreProductionState] applies to a recovery file, and then to
    the date and time with exactly these six values. *)
Theorem X20_time_command_sets_clock
    (year month day hour minute second : list Z) :
  Forall is_numeral [year; month; day; hour; minute; second] ->
  Forall (fun digits => numeral_value digits <= INT_MAX)
         [year; month; day; hour; minute; second] ->
  let y := numeral_value year in
  let mo := numeral_value month in
  let d := numeral_value day in
  let h := numeral_value hour in
  let mi := numeral_value minute in
  let s := numeral_value second in
  checkAndSetTimeFromSerial (time_command year month day hour minute second)
  = (true, if snapshotValid y mo d h mi s
           then Some (DateTime_of y mo d h mi s) else None) /\
  (snapshotValid y mo d h mi s = true ->
   let t := DateTime_of y mo d h mi s in
   dt_year t = y /\ dt_month t = mo /\ dt_day t = d /\
   dt_hour t = h /\ dt_minute t = mi /\ dt_second t = s).
Proof.
  intros Hn Hmax y mo d h mi s.
  repeat (apply Forall_cons in Hn as [? Hn]).
  repeat (apply Forall_cons in Hmax as [? Hmax]).
  assert (0 <= y) by (apply (numeral_value_ge year 0); [assumption|lia]).
  assert (0 <= mo) by (apply (numeral_value_ge month 0); [assumption|lia]).
  assert (0 <= d) by (apply (numeral_value_ge day 0); [assumption|lia]).
  assert (0 <= h) by (apply (numeral_value_ge hour 0); [assumption|lia]).
  assert (0 <= mi) by (apply (numeral_value_ge minute 0); [assumption|lia]).
  assert (0 <= s) by (apply (numeral_value_ge second 0); [assumption|lia]).
  split.
  - unfold checkAndSetTimeFromSerial, time_command.
    match goal with
    | |- context [String.append "TIME," ?r] => set (rest := r)
    end.
    rewrite prefix_append.
    assert (Hsub : String.substring 5
                     (String.length (String.append "TIME," rest) - 5)
                     (String.append "TIME," rest) = rest).
    { apply (substring_append "TIME,"). }
    cbv zeta. rewrite Hsub. unfold rest.
    rewrite !count_field, count_numeral by assumption.
    change (negb (0 + 1 + 1 + 1 + 1 + 1 =? 5)) with false.
    rewrite !parse_field by (try assumption; lia).
    rewrite parse_numeral by (try assumption; lia).
    fold (numeral_value second). fold y mo d h mi s.
    simpl.
    destruct (snapshotValid y mo d h mi s) eqn:V;
      [apply snapshotValid_true in V|apply snapshotValid_false in V];
      repeat match goal with
             | |- context [(?a <? ?b) || (?c <? ?e)] =>
                 destruct (Z.ltb_spec a b); simpl;
                 [first [reflexivity | lia]|];
                 destruct (Z.ltb_spec c e); simpl;
                 [first [reflexivity | lia]|]
             end; first [reflexivity | lia].
  - intros V t. apply snapshotValid_true in V.
    destruct (DateTime_of_fields y mo d h mi s)
      as (_ & Ey & Emo & Ed & Eh & Emi & Es); try lia.
    repeat split; assumption.
Qed.

Lemma X20_time_command_sets_clock_witness :
  let y := numeral_value [2; 0; 2; 5] in
  let mo := numeral_value [1; 1] in
  let d := numeral_value [1; 5] in
  let h := numeral_value [1; 4] in
  let mi := numeral_value [3; 0] in
  let s := numeral_value [4; 5] in
  checkAndSetTimeFromSerial
    (time_command [2; 0; 2; 5] [1; 1] [1; 5] [1; 4] [3; 0] [4; 5])
  = (true, if snapshotValid y mo d h mi s
           then Some (DateTime_of y mo d h mi s) else None) /\
  (snapshotValid y mo d h mi s = true ->
   let t := DateTime_of y mo d h mi s in
   dt_year t = y /\ dt_month t = mo /\ dt_day t = d /\
   dt_hour t = h /\ dt_minute t = mi /\ dt_second t = s).
Proof.
  apply (X20_time_command_sets_clock
           [2; 0; 2; 5] [1; 1] [1; 5] [1; 4] [3; 0] [4; 5]).
  - unfold is_numeral.
    repeat (apply Forall_cons; split;
            [repeat (apply Forall_cons; split; [lia|]); constructor|]).
    constructor.
  - repeat (apply Forall_cons; split; [vm_compute; discriminate|]).
    constructor.
Defined.


(** *** The settings in EEPROM *)

Lemma nth_insert_eq (l : list Z) i x d :
  (i < length l)%nat -> nth i (<[i := x]> l) d = x.
Proof.
  intros H. apply nth_lookup_Some, list_lookup_insert_eq. exact H.
Qed.

Lemma nth_insert_ne (l : list Z) i j x d :
  i <> j -> nth j (<[i := x]> l) d = nth j l d.
Proof.
  intros H. rewrite !nth_lookup, list_lookup_insert_ne by exact H.
  reflexivity.
Qed.

Lemma bytes_join v :
  0 <= v < 2^32 ->
  to_uint8 v + Z.shiftl (to_uint8 (Z.shiftr v 8)) 8
  + Z.shiftl (to_uint8 (Z.shiftr v 16)) 16
  + Z.shiftl (to_uint8 (Z.shiftr v 24)) 24 = v.
Proof.
  intros H. unfold to_uint8.
  rewrite !Z.shiftr_div_pow2, !Z.shiftl_mul_pow2 by lia.
  change (2^8) with 256. change (2^16) with 65536.
  change (2^24) with 16777216. change (2^32) with 4294967296 in H.
  Z.div_mod_to_equations. lia.
Qed.

Lemma EEPROM_writeULong_length e a v :
  length (EEPROM_writeULong e a v) = length e.
Proof.
  unfold EEPROM_writeULong. destruct (_ || _); [reflexivity|].
  cbv zeta. rewrite !length_insert. reflexivity.
Qed.

Lemma EEPROM_write_length e a v : length (EEPROM_write e a v) = length e.
Proof.
  unfold EEPROM_write. destruct (_ || _); [reflexivity|].
  apply length_insert.
Qed.

Lemma EEPROM_read_same e a v :
  length e = Z.to_nat EEPROM_SIZE -> 0 <= a < EEPROM_SIZE ->
  EEPROM_read (EEPROM_write e a v) a = to_uint8 v.
Proof.
  unfold EEPROM_SIZE. intros Hl Ha. unfold EEPROM_read, EEPROM_write.
  unfold EEPROM_SIZE.
  destruct (Z.ltb_spec a 0); [lia|].
  destruct (Z.leb_spec 512 a); [lia|]. simpl orb. cbv iota.
  apply nth_insert_eq. lia.
Qed.

Lemma EEPROM_readULong_same e a v :
  length e = Z.to_nat EEPROM_SIZE -> 0 <= a -> a + 4 <= EEPROM_SIZE ->
  EEPROM_readULong (EEPROM_writeULong e a v) a = to_uint32 v.
Proof.
  unfold EEPROM_SIZE. intros Hl Ha Hb.
  unfold EEPROM_readULong, EEPROM_writeULong, EEPROM_SIZE.
  destruct (Z.ltb_spec a 0); [lia|].
  destruct (Z.ltb_spec 512 (a + 4)); [lia|]. simpl orb. cbv iota zeta.
  repeat first
    [ rewrite nth_insert_eq by (rewrite ?length_insert; lia)
    | rewrite nth_insert_ne by lia ].
  apply bytes_join. unfold to_uint32. apply Z.mod_pos_bound. lia.
Qed.

Lemma EEPROM_readULong_other e a b v :
  b + 4 <= a \/ a + 4 <= b -> 0 <= a -> 0 <= b ->
  EEPROM_readULong (EEPROM_writeULong e a v) b = EEPROM_readULong e b.
Proof.
  intros Hd Ha Hb. unfold EEPROM_readULong, EEPROM_writeULong.
  destruct ((a <? 0) || (EEPROM_SIZE <? a + 4)); [reflexivity|].
  destruct ((b <? 0) || (EEPROM_SIZE <? b + 4)); [reflexivity|].
  cbv zeta. rewrite !nth_insert_ne by lia. reflexivity.
Qed.

Lemma EEPROM_readULong_write e a b v :
  b + 4 <= a -> 0 <= b ->
  EEPROM_readULong (EEPROM_write e a v) b = EEPROM_readULong e b.
Proof.
  intros Hd Hb. unfold EEPROM_readULong, EEPROM_write.
  destruct ((a <? 0) || (EEPROM_SIZE <=? a)); [reflexivity|].
  destruct ((b <? 0) || (EEPROM_SIZE <? b + 4)); [reflexivity|].
  rewrite !nth_insert_ne by lia. reflexivity.
Qed.

Lemma wrap32_to_uint32 v :
  INT_MIN <= v <= INT_MAX -> wrap32 (to_uint32 v) = v.
Proof.
  unfold wrap32, to_uint32, INT_MIN, INT_MAX. intros H.
  change (2^31) with 2147483648 in *. change (2^32) with 4294967296 in *.
  Z.div_mod_to_equations. lia.
Qed.

Ltac addr :=
  unfold EEPROM_ADDR_SAVE_INTERVAL, EEPROM_ADDR_DEBOUNCE_DELAY,
    EEPROM_ADDR_MAX_COUNT, EEPROM_ADDR_STATUS_DURATION, EEPROM_ADDR_MAGIC,
    EEPROM_SIZE; lia.

(** X21 -- Saved settings survive a power cycle.  On the 512-byte
    EEPROM, [loadSettingsFromEEPROM] after [saveSettingsToEEPROM] gives
    back the four parameters that were saved, whatever the EEPROM held
    before and whatever the parameters in memory are: the four fields and
    the magic byte do not overlap.  On an EEPROM without the magic byte,
    loading keeps the parameters in memory and saves them. *)
Theorem X21_settings_survive_power_cycle (e : list Z)
    (params in_memory : RuntimeParams) :
  length e = Z.to_nat EEPROM_SIZE ->
  params_representable params ->
  let saved := saveSettingsToEEPROM params e in
  loadSettingsFromEEPROM in_memory saved = (params, saved) /\
  (to_uint8 (EEPROM_read e EEPROM_ADDR_MAGIC) <> EEPROM_MAGIC_NUMBER ->
   loadSettingsFromEEPROM params e = (params, saved)).
Proof.
  intros Hl (H1 & H2 & H3 & H4) saved. split.
  - unfold loadSettingsFromEEPROM.
    set (e1 := EEPROM_writeULong e EEPROM_ADDR_SAVE_INTERVAL
                 (saveInterval params)).
    set (e2 := EEPROM_writeULong e1 EEPROM_ADDR_DEBOUNCE_DELAY
                 (debounceDelay params)).
    set (e3 := EEPROM_writeInt e2 EEPROM_ADDR_MAX_COUNT (maxCount params)).
    set (e4 := EEPROM_writeULong e3 EEPROM_ADDR_STATUS_DURATION
                 (statusDisplayDuration params)).
    assert (L1 : length e1 = Z.to_nat EEPROM_SIZE)
      by (unfold e1; rewrite EEPROM_writeULong_length; exact Hl).
    assert (L2 : length e2 = Z.to_nat EEPROM_SIZE)
      by (unfold e2; rewrite EEPROM_writeULong_length; exact L1).
    assert (L3 : length e3 = Z.to_nat EEPROM_SIZE)
      by (unfold e3, EEPROM_writeInt; rewrite EEPROM_writeULong_length;
          exact L2).
    assert (L4 : length e4 = Z.to_nat EEPROM_SIZE)
      by (unfold e4; rewrite EEPROM_writeULong_length; exact L3).
    assert (Hs : saved = EEPROM_write e4 EEPROM_ADDR_MAGIC EEPROM_MAGIC_NUMBER)
      by reflexivity.
    assert (Hm : to_uint8 (EEPROM_read saved EEPROM_ADDR_MAGIC)
                 = EEPROM_MAGIC_NUMBER).
    { rewrite Hs, EEPROM_read_same
        by (try exact L4; addr).
      reflexivity. }
    rewrite Hm, Z.eqb_refl.
    assert (R1 : EEPROM_readULong saved EEPROM_ADDR_SAVE_INTERVAL
                 = saveInterval params).
    { rewrite Hs, EEPROM_readULong_write by addr.
      unfold e4. rewrite EEPROM_readULong_other
        by (unfold EEPROM_ADDR_STATUS_DURATION, EEPROM_ADDR_SAVE_INTERVAL; lia).
      unfold e3, EEPROM_writeInt. rewrite EEPROM_readULong_other
        by (unfold EEPROM_ADDR_MAX_COUNT, EEPROM_ADDR_SAVE_INTERVAL; lia).
      unfold e2. rewrite EEPROM_readULong_other
        by (unfold EEPROM_ADDR_DEBOUNCE_DELAY, EEPROM_ADDR_SAVE_INTERVAL; lia).
      unfold e1. rewrite EEPROM_readULong_same
        by (try exact Hl; addr).
      apply to_uint32_small. exact H1. }
    assert (R2 : EEPROM_readULong saved EEPROM_ADDR_DEBOUNCE_DELAY
                 = debounceDelay params).
    { rewrite Hs, EEPROM_readULong_write by addr.
      unfold e4. rewrite EEPROM_readULong_other
        by (unfold EEPROM_ADDR_STATUS_DURATION, EEPROM_ADDR_DEBOUNCE_DELAY; lia).
      unfold e3, EEPROM_writeInt. rewrite EEPROM_readULong_other
        by (unfold EEPROM_ADDR_MAX_COUNT, EEPROM_ADDR_DEBOUNCE_DELAY; lia).
      unfold e2. rewrite EEPROM_readULong_same
        by (try exact L1; addr).
      apply to_uint32_small. exact H2. }
    assert (R3 : EEPROM_readInt saved EEPROM_ADDR_MAX_COUNT
                 = maxCount params).
    { unfold EEPROM_readInt.
      rewrite Hs, EEPROM_readULong_write by addr.
      unfold e4. rewrite EEPROM_readULong_other
        by (unfold EEPROM_ADDR_STATUS_DURATION, EEPROM_ADDR_MAX_COUNT; lia).
      unfold e3, EEPROM_writeInt. rewrite EEPROM_readULong_same
        by (try exact L2; addr).
      apply wrap32_to_uint32. exact H3. }
    assert (R4 : EEPROM_readULong saved EEPROM_ADDR_STATUS_DURATION
                 = statusDisplayDuration params).
    { rewrite Hs, EEPROM_readULong_write by addr.
      unfold e4. rewrite EEPROM_readULong_same
        by (try exact L3; addr).
      apply to_uint32_small. exact H4. }
    rewrite R1, R2, R3, R4. destruct params; reflexivity.
  - intros Hm. unfold loadSettingsFromEEPROM.
    destruct (Z.eqb_spec (to_uint8 (EEPROM_read e EEPROM_ADDR_MAGIC))
                EEPROM_MAGIC_NUMBER) as [E|_]; [contradiction|].
    reflexivity.
Qed.

Lemma X21_settings_survive_power_cycle_witness :
  let params := mkParams 10000 20 500 2000 in
  let saved := saveSettingsToEEPROM params erased in
  loadSettingsFromEEPROM RuntimeParams_default saved = (params, saved) /\
  (to_uint8 (EEPROM_read erased EEPROM_ADDR_MAGIC) <> EEPROM_MAGIC_NUMBER ->
   loadSettingsFromEEPROM params erased = (params, saved)).
Proof.
  apply (X21_settings_survive_power_cycle erased (mkParams 10000 20 500 2000)
           RuntimeParams_default).
  - vm_compute. reflexivity.
  - vm_compute. repeat split; discriminate.
Defined.

End CodeV3Extra.

(** ** More on the event processing of the main loop
       (fsm_main_integration.cpp) *)

Module IntegrationExtra.

Import Fsm Managers Integration IntegrationMore ManagersProofs.

Lemma processEvents_items_ready sys items :
  Forall (fun ei => fst ei = EVT_ITEM_COUNTED) items ->
  processEvents sys READY items = sys.
Proof.
  intros H. revert sys. induction H as [|[e i] items He _ IH]; intros sys;
    [reflexivity|].
  simpl in He. subst e. exact (IH sys).
Qed.

Lemma processEvents_items_production items : forall sys,
  Forall (fun ei => fst ei = EVT_ITEM_COUNTED) items ->
  processEvents sys PRODUCTION items
  = mkSystem (fsm sys)
             (repeat_call incrementCount (length items) (production sys))
             (time sys) (storage sys).
Proof.
  induction items as [|[e i] items IH]; intros sys H.
  - destruct sys; reflexivity.
  - apply Forall_cons in H as [He H]. simpl in He. subst e.
    change (processEvents sys PRODUCTION ((EVT_ITEM_COUNTED, i) :: items))
      with (processEvents (handleItemCounted sys) PRODUCTION items).
    rewrite IH by exact H. reflexivity.
Qed.

(** X22 -- Items counted in the pass that starts production are lost.
    When [loop()] reads the state READY and the queue holds the start
    event followed by item events, the pass ends as if the items had not
    been queued: the session is started with count 0.  The same items
    handled in a pass that reads PRODUCTION are counted (up to 9999). *)
Theorem X22_items_lost_in_starting_pass (sys : System) (i : Inputs)
    (items : list (Event * Inputs)) :
  currentState (fsm sys) = READY ->
  canStartProduction sys i = true ->
  Forall (fun ei => fst ei = EVT_ITEM_COUNTED) items ->
  let started := processEvent sys EVT_PRODUCTION_START READY i in
  processEvents sys READY ((EVT_PRODUCTION_START, i) :: items) = started /\
  currentState (fsm started) = PRODUCTION /\
  isSessionActive (production started) = true /\
  getSessionCount (production started) = 0 /\
  getSessionCount (production (processEvents started PRODUCTION items))
    = Z.min 9999 (Z.of_nat (length items)).
Proof.
  intros Hst Hcan Hitems started.
  assert (Hs : started
               = mkSystem (snd (transitionTo (fsm sys) PRODUCTION (millis i)))
                   (mkPM true 0 (totalSessionCount (production sys))
                      (rtcNow i) (sessionStopTime (production sys)) 0)
                   (time sys) (storage sys)).
  { unfold started. cbn [processEvent]. rewrite Hcan.
    unfold transitionToState. cbn [fsm production time storage].
    unfold canStartProduction, isSessionActive in Hcan.
    unfold startSession.
    destruct (sessionActive (production sys)); [discriminate Hcan|].
    reflexivity. }
  split.
  { change (processEvents sys READY ((EVT_PRODUCTION_START, i) :: items))
      with (processEvents started READY items).
    apply processEvents_items_ready. exact Hitems. }
  split.
  { rewrite Hs. cbn [fsm]. unfold transitionTo, canTransitionTo,
      Fsm.canStartProduction. rewrite Hst. destruct (fsm sys); reflexivity. }
  split; [rewrite Hs; reflexivity|].
  split; [rewrite Hs; reflexivity|].
  rewrite processEvents_items_production by exact Hitems.
  cbn [production]. unfold getSessionCount. rewrite Hs. cbn [production].
  rewrite repeat_incrementCount_active; simpl; [reflexivity|reflexivity|lia].
Qed.

Lemma X22_items_lost_in_starting_pass_witness :
  let items := [(EVT_ITEM_COUNTED, inputs0); (EVT_ITEM_COUNTED, inputs0)] in
  let started :=
    processEvent system_ready EVT_PRODUCTION_START READY inputs0 in
  processEvents system_ready READY ((EVT_PRODUCTION_START, inputs0) :: items)
    = started /\
  currentState (fsm started) = PRODUCTION /\
  isSessionActive (production started) = true /\
  getSessionCount (production started) = 0 /\
  getSessionCount (production (processEvents started PRODUCTION items))
    = Z.min 9999 (Z.of_nat (length items)).
Proof.
  apply (X22_items_lost_in_starting_pass system_ready inputs0
           [(EVT_ITEM_COUNTED, inputs0); (EVT_ITEM_COUNTED, inputs0)]).
  - reflexivity.
  - reflexivity.
  - repeat constructor.
Defined.

(** X23 -- A session outlives an error and then blocks the button.  An
    error event in PRODUCTION moves the state machine to ERROR and the
    recovery event moves it on to READY, but neither stops the session.
    In READY with the session still active the production latch queues
    a stop event, start events are refused, and stop and item events are
    ignored: any pass over such events leaves the whole system
    unchanged. *)
Theorem X23_session_outlives_error (sys : System) (i1 i2 : Inputs)
    (events : list (Event * Inputs)) :
  currentState (fsm sys) = PRODUCTION ->
  isSessionActive (production sys) = true ->
  Forall (fun ei => is_production_event (fst ei) = true) events ->
  let failed := processEvent sys EVT_SYSTEM_ERROR PRODUCTION i1 in
  let recovered := processEvent failed EVT_ERROR_RECOVERED ERROR i2 in
  currentState (fsm failed) = ERROR /\
  currentState (fsm recovered) = READY /\
  production recovered = production sys /\
  onProductionLatchChanged recovered = EVT_PRODUCTION_STOP /\
  processEvents recovered READY events = recovered.
Proof.
  intros Hst Hact Hev failed recovered.
  assert (Hf : currentState (fsm failed) = ERROR /\
               production failed = production sys).
  { unfold failed. cbn [processEvent]. unfold transitionToState.
    cbn [fsm production]. split; [|reflexivity].
    unfold transitionTo, canTransitionTo. cbn [negb].
    destruct (fsm sys) as [cur ? ? ? ? ? ? ? ? ? ?]. simpl in Hst.
    subst cur. reflexivity. }
  destruct Hf as [Hf1 Hf2].
  assert (Hr : currentState (fsm recovered) = READY /\
               production recovered = production sys).
  { unfold recovered. cbn [processEvent]. unfold transitionToState.
    cbn [fsm production]. split; [|exact Hf2].
    unfold transitionTo, canTransitionTo, canEnterReady.
    destruct (fsm failed) as [cur ? ? ? ? ? ? ? ? ? ?]. simpl in Hf1.
    subst cur. reflexivity. }
  destruct Hr as [Hr1 Hr2].
  split; [exact Hf1|]. split; [exact Hr1|]. split; [exact Hr2|].
  assert (Hra : isSessionActive (production recovered) = true)
    by (rewrite Hr2; exact Hact).
  split; [unfold onProductionLatchChanged; rewrite Hra; reflexivity|].
  clearbody recovered. clear - Hev Hra.
  induction Hev as [|[e i] events He _ IH]; [reflexivity|].
  change (processEvents recovered READY ((e, i) :: events))
    with (processEvents (processEvent recovered e READY i) READY events).
  assert (Hstep : processEvent recovered e READY i = recovered).
  { simpl in He. destruct e; try discriminate He; cbn [processEvent];
      try reflexivity.
    unfold canStartProduction. rewrite Hra. reflexivity. }
  rewrite Hstep. exact IH.
Qed.

Lemma X23_session_outlives_error_witness :
  let events := [(EVT_PRODUCTION_STOP, inputs0);
                 (EVT_PRODUCTION_START, inputs0)] in
  let failed :=
    processEvent system_producing EVT_SYSTEM_ERROR PRODUCTION inputs0 in
  let recovered := processEvent failed EVT_ERROR_RECOVERED ERROR inputs0 in
  currentState (fsm failed) = ERROR /\
  currentState (fsm recovered) = READY /\
  production recovered = production system_producing /\
  onProductionLatchChanged recovered = EVT_PRODUCTION_STOP /\
  processEvents recovered READY events = recovered.
Proof.
  apply (X23_session_outlives_error system_producing inputs0 inputs0
           [(EVT_PRODUCTION_STOP, inputs0); (EVT_PRODUCTION_START, inputs0)]).
  - reflexivity.
  - reflexivity.
  - repeat constructor.
Defined.

End IntegrationExtra.
